(** * LuminaryChat request-proxy core: a shallow embedding

    The development follows [luminarychat.py]:
    - [RateLimiter.check_rate_limit]         (sliding-window admission),
    - [Configuration._validate]              (start-up validation),
    - [UpstreamAPIClient._retry_request]     (retry with exponential backoff),
    - [UpstreamAPIClient.proxy_chat_completion] (persona injection, dispatch),
    - [StreamProcessor.process_stream]       (server-sent-event rewriting).

    Modelling conventions.
    - Python [float] values ([time.time()], [RETRY_DELAY]) are finite and
      are exact rationals [Q]; rounding is not modelled.  The conversion of
      an [int] to a [float] fails from [2 ** 1024] on, and that is modelled.
    - Python [int] is [Z].
    - [str] is [string]; one [ascii] stands for one code point below 256.
    - [asyncio.Lock] sections run atomically, so a locked method is a pure
      state transformer; the clock reading is an explicit argument.
    - The [json] module, [bytes.decode] and the pooled HTTP session are
      library code: each is a class whose instance the definitions take.
    - Of the exceptions outside [Exception] only [asyncio.CancelledError] is
      modelled; one that arrives during [asyncio.sleep] is not.  Log records
      are not modelled. *)

From Stdlib Require Import ZArith QArith Lqa Lia Bool List Ascii String.
From stdpp Require Import base option list gmap strings pretty.
Import ListNotations.

Set Warnings "-register-all".

Local Open Scope string_scope.
Local Open Scope Z_scope.
Local Open Scope list_scope.

(** ** RateLimiter *)

Module RateLimiter.

(** [self.rate_per_minute] and [self.requests] (a [defaultdict(list)]). *)
Record t := mk {
  rate_per_minute : Z;
  requests : gmap string (list Q)
}.

(** [RateLimiter.__init__] *)
Definition init (rate : Z) : t := mk rate ∅.

(** [self.requests[key]] on a [defaultdict(list)]: a missing key reads as
    the empty list. *)
Definition get (self : t) (key : string) : list Q :=
  default [] (requests self !! key).

(** [ts > window_start] on timestamps. *)
Definition newer (window_start ts : Q) : bool :=
  negb (Qle_bool ts window_start).

(** [[ts for ts in self.requests[key] if ts > window_start]] *)
Definition prune (now : Q) (l : list Q) : list Q :=
  List.filter (newer (now - 60)%Q) l.

(** All timestamps of [l] lie within one 60-second window. *)
Definition within_window (l : list Q) : Prop :=
  forall a b, In a l -> In b l -> (b - 60 < a)%Q.

(** [check_rate_limit]; [now] is the value of [time.time()] read inside
    the lock. *)
Definition check_rate_limit (self : t) (key : string) (now : Q) : bool * t :=
  let window_start := (now - 60)%Q in
  let kept := List.filter (newer window_start) (get self key) in
  let self1 := mk (rate_per_minute self) (<[key := kept]> (requests self)) in
  if Z.of_nat (List.length (get self1 key)) >=? rate_per_minute self1 then
    (false, self1)
  else
    (true,
     mk (rate_per_minute self1)
        (<[key := get self1 key ++ [now]]> (requests self1))).

(** A run of successive calls for one key, at the given clock readings. *)
Fixpoint run (self : t) (key : string) (times : list Q) : list bool * t :=
  match times with
  | [] => ([], self)
  | now :: rest =>
      let '(b, self') := check_rate_limit self key now in
      let '(bs, self'') := run self' key rest in
      (b :: bs, self'')
  end.

(** The limiter states a process can be in: [check_rate_limit] is the only
    method that touches [self.requests]. *)
Inductive reachable (rate : Z) : t -> Prop :=
| reachable_init : reachable rate (init rate)
| reachable_check (self : t) (key : string) (now : Q) :
    reachable rate self ->
    reachable rate (check_rate_limit self key now).2.

End RateLimiter.

(** ** Python values shared by the client and the stream processor *)

(** Exceptions the core distinguishes.  [str_of_exn] is [str(e)].
    [CancelledError] derives from [BaseException] only; every other
    constructor is an [Exception].  [ServerTimeoutError] is the aiohttp class
    that derives from both [ClientError] and [asyncio.TimeoutError]. *)
Inductive exn :=
| ClientError (msg : string)
| ServerTimeoutError (msg : string)
| TimeoutError (msg : string)
| CancelledError
| ValueError (msg : string)
| TypeError (msg : string)
| AttributeError (msg : string)
| UnicodeDecodeError (msg : string)
| OverflowError (msg : string)
| RecursionError (msg : string)
| OtherException (msg : string).

Definition str_of_exn (e : exn) : string :=
  match e with
  | ClientError m | ServerTimeoutError m | TimeoutError m | ValueError m
  | TypeError m | AttributeError m | UnicodeDecodeError m
  | OverflowError m | RecursionError m | OtherException m => m
  | CancelledError => EmptyString
  end.

(** [isinstance(e, aiohttp.ClientError)] *)
Definition is_client_error (e : exn) : bool :=
  match e with ClientError _ | ServerTimeoutError _ => true | _ => false end.

(** [isinstance(e, asyncio.TimeoutError)] *)
Definition is_timeout_error (e : exn) : bool :=
  match e with TimeoutError _ | ServerTimeoutError _ => true | _ => false end.

(** [isinstance(e, Exception)] *)
Definition is_exception (e : exn) : bool :=
  match e with CancelledError => false | _ => true end.

(** A computation that returns or raises. *)
Inductive result (A : Type) :=
| Ok (a : A)
| Raise (e : exn).
Arguments Ok {A} a.
Arguments Raise {A} e.

(** JSON values as [json.loads] builds them.  A [dict] keeps insertion
    order, so an object is an association list; [json.loads] yields objects
    with pairwise distinct keys.  A float is kept as its literal. *)
Inductive json :=
| JNull
| JBool (b : bool)
| JInt (n : Z)
| JFloat (lit : string)
| JStr (s : string)
| JArr (l : list json)
| JObj (d : list (string * json)).

Abbreviation dict := (list (string * json)).

(** [type(v).__name__] *)
Definition type_name (v : json) : string :=
  match v with
  | JNull => "NoneType"
  | JBool _ => "bool"
  | JInt _ => "int"
  | JFloat _ => "float"
  | JStr _ => "str"
  | JArr _ => "list"
  | JObj _ => "dict"
  end.

(** [d.get(k)] *)
Fixpoint dict_get (k : string) (d : dict) : option json :=
  match d with
  | [] => None
  | (k', v) :: rest => if String.eqb k k' then Some v else dict_get k rest
  end.

(** [k in d] *)
Definition dict_mem (k : string) (d : dict) : bool :=
  match dict_get k d with Some _ => true | None => false end.

(** [d[k] = v]: an existing key keeps its position, a new key goes last. *)
Fixpoint dict_set (k : string) (v : json) (d : dict) : dict :=
  match d with
  | [] => [(k, v)]
  | (k', v') :: rest =>
      if String.eqb k k' then (k', v) :: rest
      else (k', v') :: dict_set k v rest
  end.

(** [v == s] for a [str] constant [s]. *)
Definition eq_str (s : string) (v : json) : bool :=
  match v with JStr s' => String.eqb s' s | _ => false end.

(** The line feed, and the Python string helpers the core uses. *)
Definition LF : string := String "010"%char EmptyString.

(** [str.isspace] on code points below 256. *)
Definition isspace (c : ascii) : bool :=
  let n := nat_of_ascii c in
  ((9 <=? n) && (n <=? 13) || (28 <=? n) && (n <=? 32)
   || (n =? 133) || (n =? 160))%nat.

Fixpoint lstrip_by (p : ascii -> bool) (s : string) : string :=
  match s with
  | EmptyString => EmptyString
  | String c rest => if p c then lstrip_by p rest else s
  end.

Fixpoint rstrip_by (p : ascii -> bool) (s : string) : string :=
  match s with
  | EmptyString => EmptyString
  | String c rest =>
      match rstrip_by p rest with
      | EmptyString => if p c then EmptyString else String c EmptyString
      | kept => String c kept
      end
  end.

(** Every character of [s] satisfies [p]. *)
Fixpoint all_chars (p : ascii -> bool) (s : string) : bool :=
  match s with
  | EmptyString => true
  | String c rest => p c && all_chars p rest
  end.

(** [not s] for a string. *)
Definition is_empty (s : string) : bool :=
  match s with EmptyString => true | _ => false end.

(** [s.strip()] *)
Definition strip (s : string) : string := rstrip_by isspace (lstrip_by isspace s).

(** [s.rstrip('/')] *)
Definition rstrip_slash (s : string) : string :=
  rstrip_by (Ascii.eqb "/"%char) s.

(** [s[n:]] *)
Fixpoint drop_str (n : nat) (s : string) : string :=
  match n, s with
  | O, _ => s
  | S n', String _ rest => drop_str n' rest
  | S _, EmptyString => EmptyString
  end.

(** [s.startswith(p)] *)
Definition startswith (p s : string) : bool := String.prefix p s.

(** [p in s] for strings. *)
Definition str_contains (p s : string) : bool :=
  match String.index 0 p s with Some _ => true | None => false end.

(** What [json.loads] does with a text: it returns the value, or raises
    [json.JSONDecodeError] on a text that is no JSON document, or raises an
    exception of another class on one it gives up on: [ValueError] on an
    integer of more digits than the interpreter converts, [RecursionError] on
    a document nested too deep. *)
Inductive loaded :=
| Loaded (v : json)
| JSONDecodeError (msg : string)
| LoadsValueError (msg : string)
| LoadsRecursionError (msg : string).

(** The [json] module; the flag of [json_dumps] is [ensure_ascii]. *)
Class Json := {
  json_loads : string -> loaded;
  json_dumps : bool -> json -> string
}.

(** [bytes.decode('utf-8')]: the text, or the message of the
    [UnicodeDecodeError] it raises on invalid input. *)
Class Utf8 := {
  utf8_decode : string -> string + string
}.

(** ** Configuration *)

Module Configuration.

Record t := mk {
  API_URL : string;
  API_KEY : string;
  UPSTREAM_MODEL_NAME : string;
  SERVER_PORT : Z;
  SERVER_HOST : string;
  MAX_WORKERS : Z;
  REQUEST_TIMEOUT : Z;
  KEEPALIVE_TIMEOUT : Z;
  LOG_LEVEL : string;
  RATE_LIMIT_PER_MINUTE : Z;
  ENABLE_METRICS : bool;
  MAX_RETRIES : Z;
  RETRY_DELAY : Q
}.

(** [_validate]: the first failing check raises [ValueError]. *)
Definition _validate (self : t) : result unit :=
  if is_empty (API_URL self) then Raise (ValueError "API_URL must be set")
  else if is_empty (API_KEY self) then Raise (ValueError "API_KEY must be set")
  else if is_empty (UPSTREAM_MODEL_NAME self) then
    Raise (ValueError "MODEL_NAME must be set")
  else if (SERVER_PORT self <? 1) || (SERVER_PORT self >? 65535) then
    Raise (ValueError "PORT must be between 1 and 65535")
  else if MAX_WORKERS self <? 1 then
    Raise (ValueError "MAX_WORKERS must be at least 1")
  else if REQUEST_TIMEOUT self <? 1 then
    Raise (ValueError "REQUEST_TIMEOUT must be at least 1")
  else if negb (existsb (String.eqb (LOG_LEVEL self))
                  ["DEBUG"; "INFO"; "WARNING"; "ERROR"; "CRITICAL"]) then
    Raise (ValueError ("Invalid LOG_LEVEL: " +:+ LOG_LEVEL self))
  else Ok tt.

(** The same configuration with another [MAX_RETRIES]. *)
Definition with_MAX_RETRIES (n : Z) (self : t) : t :=
  mk (API_URL self) (API_KEY self) (UPSTREAM_MODEL_NAME self)
     (SERVER_PORT self) (SERVER_HOST self) (MAX_WORKERS self)
     (REQUEST_TIMEOUT self) (KEEPALIVE_TIMEOUT self) (LOG_LEVEL self)
     (RATE_LIMIT_PER_MINUTE self) (ENABLE_METRICS self) n (RETRY_DELAY self).

End Configuration.

(** [personas.PersonalityDefinition] *)
Record PersonalityDefinition := {
  id : string;
  system_prompt : string;
  created : Z;
  owned_by : string
}.

(** [aiohttp.ClientResponse] as the client reads it: the status line and the
    outcome of [await response.text()]. *)
Record ClientResponse := {
  status : Z;
  text : result string
}.

(** What the client does to the outside world. *)
Inductive event :=
| Post (url : string) (body : dict) (headers : list (string * string))
| Sleep (delay : Q).

(** [session.post(url, json=..., headers=...)] on the pooled session, as a
    transition of the outside world [W]. *)
Class Session (W : Type) := {
  session_post :
    string -> dict -> list (string * string) -> W -> result ClientResponse * W
}.

(** ** UpstreamAPIClient *)

Module UpstreamAPIClient.

(** Coroutines of the client: they read and change the world, log the
    events they cause, and return or raise. *)
Definition M (W A : Type) : Type := W -> list event * result A * W.

Definition ret {W A} (a : A) : M W A := fun w => ([], Ok a, w).

Definition raise {W A} (e : exn) : M W A := fun w => ([], Raise e, w).

Definition bind {W A B} (m : M W A) (f : A -> M W B) : M W B :=
  fun w =>
    let '(t1, r, w1) := m w in
    match r with
    | Ok a => let '(t2, r2, w2) := f a w1 in (t1 ++ t2, r2, w2)
    | Raise e => (t1, Raise e, w1)
    end.

(** [try: m  except ...: handler e]; the handler decides which exceptions
    it takes by returning [None] for the others. *)
Definition try_except {W A} (m : M W A) (handler : exn -> option (M W A))
  : M W A :=
  fun w =>
    let '(t1, r, w1) := m w in
    match r with
    | Ok a => (t1, Ok a, w1)
    | Raise e =>
        match handler e with
        | Some h => let '(t2, r2, w2) := h w1 in (t1 ++ t2, r2, w2)
        | None => (t1, Raise e, w1)
        end
    end.

(** [await asyncio.sleep(delay)] *)
Definition sleep {W} (delay : Q) : M W unit :=
  fun w => ([Sleep delay], Ok tt, w).

(** [await session.post(url, json=body, headers=headers)] *)
Definition post {W} {HS : Session W} (url : string) (body : dict)
    (headers : list (string * string)) : M W ClientResponse :=
  fun w =>
    let '(r, w') := session_post url body headers w in
    ([Post url body headers], r, w').

(** [raise last_exception]: raising [None] is itself a [TypeError]. *)
Definition raise_last {W A} (last_exception : option exn) : M W A :=
  match last_exception with
  | Some e => raise e
  | None => raise (TypeError "exceptions must derive from BaseException")
  end.

(** [delay = self.config.RETRY_DELAY * (2 ** attempt)] and
    [await asyncio.sleep(delay)].  The product of a [float] and an [int]
    converts the [int] first, which raises [OverflowError] for [2 ** 1024]
    and every greater power. *)
Definition back_off {W} (config : Configuration.t) (attempt : Z) : M W unit :=
  if attempt <? 1024 then
    sleep (Configuration.RETRY_DELAY config * inject_Z (2 ^ attempt))%Q
  else raise (OverflowError "int too large to convert to float").

(** The body of [for attempt in range(max_retries)], with [remaining]
    iterations left, followed by the final [raise last_exception].  An
    exception raised inside the [except] clause leaves the loop. *)
Fixpoint retry_loop {W A} (config : Configuration.t) (request_func : M W A)
    (max_retries : Z) (remaining : nat) (attempt : Z)
    (last_exception : option exn) : M W A :=
  match remaining with
  | O => raise_last last_exception
  | S remaining' =>
      try_except request_func (fun e =>
        if is_client_error e || is_timeout_error e then
          Some (bind
                  (if attempt <? max_retries - 1 then back_off config attempt
                   else ret tt)
                  (fun _ => retry_loop config request_func max_retries
                              remaining' (attempt + 1) (Some e)))
        else None)
  end.

(** [max_retries or self.config.MAX_RETRIES]: the configured value when
    the argument is [None] or [0]. *)
Definition or_configured (config : Configuration.t) (max_retries : option Z)
  : Z :=
  match max_retries with
  | Some n => if n =? 0 then Configuration.MAX_RETRIES config else n
  | None => Configuration.MAX_RETRIES config
  end.

(** [_retry_request]; [range(max_retries)] is empty for a count that is not
    positive. *)
Definition _retry_request {W A} (config : Configuration.t)
    (request_func : M W A) (max_retries : option Z) : M W A :=
  let max_retries := or_configured config max_retries in
  retry_loop config request_func max_retries (Z.to_nat max_retries) 0 None.

(** [request_func], called at [w], raises one retryable exception after
    another: [fs] lists the events and the exception of each call, and the
    last call leaves the world at [w']. *)
Inductive failing {W A} (request_func : M W A)
  : W -> list (list event * exn) -> W -> Prop :=
| failing_nil (w : W) : failing request_func w [] w
| failing_cons (w w1 w' : W) (t : list event) (e : exn)
    (rest : list (list event * exn)) :
    request_func w = (t, Raise e, w1) ->
    is_client_error e || is_timeout_error e = true ->
    failing request_func w1 rest w' ->
    failing request_func w ((t, e) :: rest) w'.

(** [last_exception] after the failed calls [fs]. *)
Definition last_exception (fs : list (list event * exn))
    (before : option exn) : option exn :=
  match last fs with
  | Some f => Some f.2
  | None => before
  end.

(** The delays [RETRY_DELAY * 2 ** attempt] of [k] successive attempts. *)
Fixpoint delays (config : Configuration.t) (attempt : Z) (k : nat) : list Q :=
  match k with
  | O => []
  | S k' =>
      (Configuration.RETRY_DELAY config * inject_Z (2 ^ attempt))%Q
        :: delays config (attempt + 1) k'
  end.

(** The events of failed calls, each followed by its pause. *)
Fixpoint weave (ts : list (list event)) (ds : list Q) : list event :=
  match ts, ds with
  | t :: ts', d :: ds' => t ++ Sleep d :: weave ts' ds'
  | _, _ => []
  end.

(** The events of the failed calls [fs] made from attempt [attempt] on,
    as long as every delay can be computed: a pause follows every failed
    attempt but the last allowed one. *)
Fixpoint backoff_trace (config : Configuration.t) (max_retries attempt : Z)
    (fs : list (list event * exn)) : list event :=
  match fs with
  | [] => []
  | (t, _) :: rest =>
      t ++ (if attempt <? max_retries - 1
            then [Sleep (Configuration.RETRY_DELAY config
                         * inject_Z (2 ^ attempt))%Q]
            else [])
        ++ backoff_trace config max_retries (attempt + 1) rest
  end.

(** A message [dict] whose [role] is [system]. *)
Definition is_system_message (msg : json) : bool :=
  match msg with
  | JObj d =>
      match dict_get "role" d with
      | Some role => eq_str "system" role
      | None => false
      end
  | _ => false
  end.

(** [any(msg.get("role") == "system" for msg in messages)] over a list; an
    element that is no [dict] has no [get]. *)
Fixpoint has_system (messages : list json) : result bool :=
  match messages with
  | [] => Ok false
  | JObj msg :: rest =>
      match dict_get "role" msg with
      | Some role => if eq_str "system" role then Ok true else has_system rest
      | None => has_system rest
      end
  | v :: _ =>
      Raise (AttributeError
               ("'" +:+ type_name v +:+ "' object has no attribute 'get'"))
  end.

(** What the two statements on [messages] raise when it is no list. *)
Definition not_a_list (messages : json) : exn :=
  match messages with
  | JStr EmptyString | JObj [] =>
      AttributeError
        ("'" +:+ type_name messages +:+ "' object has no attribute 'insert'")
  | JStr _ | JObj _ =>
      AttributeError "'str' object has no attribute 'get'"
  | _ =>
      TypeError ("'" +:+ type_name messages +:+ "' object is not iterable")
  end.

Definition system_message (personality : PersonalityDefinition) : json :=
  JObj [("role", JStr "system");
        ("content", JStr (system_prompt personality))].

(** The statements of [proxy_chat_completion] that rewrite [request_data]
    before it is posted. *)
Definition outbound_request (config : Configuration.t) (request_data : dict)
    (personality : PersonalityDefinition) : result dict :=
  let request_data :=
    dict_set "model" (JStr (Configuration.UPSTREAM_MODEL_NAME config))
      request_data in
  match default (JArr []) (dict_get "messages" request_data) with
  | JArr messages =>
      match has_system messages with
      | Ok true => Ok (dict_set "messages" (JArr messages) request_data)
      | Ok false =>
          Ok (dict_set "messages"
                (JArr (system_message personality :: messages)) request_data)
      | Raise e => Raise e
      end
  | other => Raise (not_a_list other)
  end.

(** [{"error": {"message": ..., "type": ..., "code": ...}}] *)
Definition error_envelope (message type : string) (code : Z) : json :=
  JObj [("error",
         JObj [("message", JStr message); ("type", JStr type);
               ("code", JInt code)])].

(** [await response.text()] *)
Definition await_text {W} (response : ClientResponse) : M W string :=
  fun w => ([], text response, w).

(** A statement that returns or raises and does nothing else. *)
Definition lift {W A} (r : result A) : M W A := fun w => ([], r, w).

(** The three [except] clauses of [proxy_chat_completion], in order. *)
Definition on_failure {W} (e : exn)
  : option (M W (option ClientResponse * option json)) :=
  if is_timeout_error e then
    Some (ret (None,
               Some (error_envelope "Request to upstream API timed out"
                       "timeout_error" 504)))
  else if is_client_error e then
    Some (ret (None,
               Some (error_envelope
                       ("Failed to connect to upstream API: " +:+ str_of_exn e)
                       "connection_error" 502)))
  else if is_exception e then
    Some (ret (None,
               Some (error_envelope ("Unexpected error: " +:+ str_of_exn e)
                       "internal_error" 500)))
  else None.

(** [f"{self.config.API_URL.rstrip('/')}/chat/completions"] *)
Definition chat_completions_url (config : Configuration.t) : string :=
  rstrip_slash (Configuration.API_URL config) +:+ "/chat/completions".

Definition request_headers (config : Configuration.t) (request_id : string)
  : list (string * string) :=
  [("Content-Type", "application/json");
   ("Authorization", "Bearer " +:+ Configuration.API_KEY config);
   ("X-Request-ID", request_id)].

(** [try: error_data = json.loads(error_text)] with its
    [except json.JSONDecodeError] clause: the parsed body, whatever JSON value
    it is, or the raw text in an [upstream_error] envelope; an exception of
    [json.loads] that is no [JSONDecodeError] leaves the statement. *)
Definition error_data_of {J : Json} (status : Z) (error_text : string)
  : result json :=
  match json_loads error_text with
  | Loaded parsed => Ok parsed
  | JSONDecodeError _ => Ok (error_envelope error_text "upstream_error" status)
  | LoadsValueError msg => Raise (ValueError msg)
  | LoadsRecursionError msg => Raise (RecursionError msg)
  end.

(** A parsed value in the second place of the returned pair.  JSON [null]
    is Python's [None], which there says that there is no error. *)
Definition optional (v : json) : option json :=
  match v with
  | JNull => None
  | _ => Some v
  end.

Definition proxy_chat_completion {W} {HS : Session W} {J : Json}
    (config : Configuration.t) (request_data : dict)
    (personality : PersonalityDefinition) (request_id : string)
  : M W (option ClientResponse * option json) :=
  let url := chat_completions_url config in
  match outbound_request config request_data personality with
  | Raise e => raise e
  | Ok request_data =>
      let headers := request_headers config request_id in
      let make_request := post url request_data headers in
      try_except
        (bind (_retry_request config make_request None) (fun response =>
           if status response >=? 400 then
             bind (await_text response) (fun error_text =>
               bind (lift (error_data_of (status response) error_text))
                 (fun error_data => ret (None, optional error_data)))
           else ret (Some response, None)))
        on_failure
  end.

End UpstreamAPIClient.

(** ** StreamProcessor *)

Module StreamProcessor.

(** The upstream body as [async for line in response.content] sees it: the
    lines it delivers, then the end of the body or an exception. *)
Inductive stream_end :=
| EndOfStream
| Broken (e : exn).

(** What one iteration of the loop does. *)
Inductive step :=
| Skip
| Yield (frame : string)
| YieldBreak (frame : string)
| Raises (e : exn).

(** How the generator ends: normally, or by an exception it lets through. *)
Inductive ending :=
| Finished
| Propagated (e : exn).

(** [if "model" in chunk_data: chunk_data["model"] = requested_model_id] on
    whatever [json.loads] returned. *)
Definition rewrite_chunk (requested_model_id : string) (chunk_data : json)
  : result json :=
  match chunk_data with
  | JObj d =>
      Ok (if dict_mem "model" d
          then JObj (dict_set "model" (JStr requested_model_id) d)
          else chunk_data)
  | JArr l =>
      if existsb (eq_str "model") l
      then Raise (TypeError "list indices must be integers or slices, not str")
      else Ok chunk_data
  | JStr s =>
      if str_contains "model" s
      then Raise (TypeError "'str' object does not support item assignment")
      else Ok chunk_data
  | _ =>
      Raise (TypeError
               ("argument of type '" +:+ type_name chunk_data
                +:+ "' is not iterable"))
  end.

Definition data_frame {J : Json} (ensure_ascii : bool) (payload : json) : string :=
  "data: " +:+ json_dumps ensure_ascii payload +:+ LF +:+ LF.

Definition done_frame : string := "data: [DONE]" +:+ LF +:+ LF.

(** The body of the [async for] loop for one line. *)
Definition process_line {J : Json} {U : Utf8} (requested_model_id : string)
    (line : string) : step :=
  if is_empty line then Skip
  else
    match utf8_decode line with
    | inr msg => Raises (UnicodeDecodeError msg)
    | inl decoded =>
        let line_str := strip decoded in
        if is_empty line_str then Yield LF
        else if startswith "data: " line_str then
          let data_content := strip (drop_str 6 line_str) in
          if String.eqb data_content "[DONE]" then YieldBreak done_frame
          else
            match json_loads data_content with
            | Loaded chunk_data =>
                match rewrite_chunk requested_model_id chunk_data with
                | Ok rewritten => Yield (data_frame false rewritten)
                | Raise e => Raises e
                end
            | JSONDecodeError _ => Yield (line_str +:+ LF +:+ LF)
            | LoadsValueError msg => Raises (ValueError msg)
            | LoadsRecursionError msg => Raises (RecursionError msg)
            end
        else Yield (line_str +:+ LF +:+ LF)
    end.

(** [{"error": {"message": ..., "type": "stream_error"}}] *)
Definition error_chunk (e : exn) : json :=
  JObj [("error",
         JObj [("message",
                JStr ("Stream processing error: " +:+ str_of_exn e));
               ("type", JStr "stream_error")])].

(** The [except] clauses: [CancelledError] is re-raised, an [Exception]
    becomes one last frame. *)
Definition on_exception {J : Json} (e : exn) : list string * ending :=
  if is_exception e then ([data_frame true (error_chunk e)], Finished)
  else ([], Propagated e).

(** The loop goes on to the next line after this step. *)
Definition continues (s : step) : bool :=
  match s with
  | Skip | Yield _ => true
  | YieldBreak _ | Raises _ => false
  end.

(** The frame this step yields, if any. *)
Definition yielded (s : step) : list string :=
  match s with
  | Yield frame | YieldBreak frame => [frame]
  | Skip | Raises _ => []
  end.

(** [process_stream] on a response that is there, whose content delivers
    [lines] and then ends as [last] says: the frames the generator yields to
    a consumer that reads it to its end, and how it ends.  The [finally]
    clause closes the response on every path and yields nothing.  The call
    without a response is [App.relay None]. *)
Fixpoint process_stream {J : Json} {U : Utf8} (lines : list string)
    (last : stream_end) (requested_model_id : string)
  : list string * ending :=
  match lines with
  | [] =>
      match last with
      | EndOfStream => ([], Finished)
      | Broken e => on_exception e
      end
  | line :: rest =>
      match process_line requested_model_id line with
      | Skip => process_stream rest last requested_model_id
      | Yield frame =>
          let '(frames, e) := process_stream rest last requested_model_id in
          (frame :: frames, e)
      | YieldBreak frame => ([frame], Finished)
      | Raises e => on_exception e
      end
  end.

End StreamProcessor.

(** ** Sample collaborators

    Small stand-ins for the library code, used to run the definitions on
    concrete inputs. *)

Module Sample.

(** A transport that answers from a script and refuses connections once
    the script is used up. *)
Definition scripted : Session (list (result ClientResponse)) :=
  {| session_post _ _ _ w :=
       match w with
       | [] => (Raise (ClientError "Connection refused"), [])
       | r :: rest => (r, rest)
       end |}.

(** A configuration that [_validate] accepts. *)
Definition config (max_retries : Z) : Configuration.t :=
  {| Configuration.API_URL := "https://api.zaguanai.com/v1";
     Configuration.API_KEY := "sk-test";
     Configuration.UPSTREAM_MODEL_NAME := "promptshield/gemini-flash-lite-latest";
     Configuration.SERVER_PORT := 8000;
     Configuration.SERVER_HOST := "0.0.0.0";
     Configuration.MAX_WORKERS := 100;
     Configuration.REQUEST_TIMEOUT := 60;
     Configuration.KEEPALIVE_TIMEOUT := 5;
     Configuration.LOG_LEVEL := "INFO";
     Configuration.RATE_LIMIT_PER_MINUTE := 60;
     Configuration.ENABLE_METRICS := true;
     Configuration.MAX_RETRIES := max_retries;
     Configuration.RETRY_DELAY := 1 |}.

Definition ok_response : ClientResponse :=
  {| status := 200; text := Ok "{}" |}.





(** The chat request of a caller who names the persona and sends one user
    message. *)
Definition user_message : json :=
  JObj [("role", JStr "user"); ("content", JStr "What is virtue?")].

Definition chat_request : dict :=
  [("model", JStr "socrates"); ("messages", JArr [user_message]);
   ("stream", JBool false)].

(** The same request with a system message of the caller's own. *)
Definition caller_system : json :=
  JObj [("role", JStr "system"); ("content", JStr "Answer in French.")].

Definition chat_request_with_system : dict :=
  [("model", JStr "socrates");
   ("messages", JArr [caller_system; user_message])].

(** What [proxy_chat_completion] posts for [chat_request]. *)
Definition outbound : dict :=
  [("model", JStr "promptshield/gemini-flash-lite-latest");
   ("messages",
    JArr [JObj [("role", JStr "system");
                ("content", JStr "You are Socrates.")];
          user_message]);
   ("stream", JBool false)].

Definition url : string := "https://api.zaguanai.com/v1/chat/completions".

Definition headers : list (string * string) :=
  [("Content-Type", "application/json");
   ("Authorization", "Bearer sk-test");
   ("X-Request-ID", "req-1")].

Definition quote : string := String "034"%char EmptyString.

(** [json.dumps] on documents whose strings need no escaping. *)
Fixpoint dumps (v : json) : string :=
  match v with
  | JNull => "null"
  | JBool true => "true"
  | JBool false => "false"
  | JInt n => pretty n
  | JFloat lit => lit
  | JStr s => quote +:+ s +:+ quote
  | JArr l => "[" +:+ String.concat ", " (map dumps l) +:+ "]"
  | JObj d =>
      "{" +:+ String.concat ", "
                (map (fun kv : string * json =>
                        let (k, v') := kv in
                        quote +:+ k +:+ quote +:+ ": " +:+ dumps v') d)
        +:+ "}"
  end.

(** A chunk as the upstream streams it. *)
Definition upstream_chunk : json :=
  JObj [("id", JStr "chatcmpl-1"); ("model", JStr "upstream-x");
        ("choices", JArr [])].

(** A decimal digit. *)
Definition is_digit (c : ascii) : bool :=
  ((48 <=? nat_of_ascii c) && (nat_of_ascii c <=? 57))%nat.

(** An integer literal of 4301 digits, one more than the interpreter
    converts. *)
Definition long_integer : string :=
  string_of_list_ascii (repeat "7"%char (Z.to_nat 4301)).

(** [json.loads] on the documents of this section: a text is parsed when
    it is the serialisation of one of them, and a run of more than 4300
    digits is refused (the message is the one for 4301 digits). *)
Definition digit_limit_message : string :=
  "Exceeds the limit (4300 digits) for integer string conversion: value has 4301 digits; use sys.set_int_max_str_digits() to increase the limit".

Definition loads (s : string) : loaded :=
  if all_chars is_digit s && (4300 <? Z.of_nat (String.length s)) then
    LoadsValueError digit_limit_message
  else
    match List.find (fun doc => String.eqb (dumps doc) s)
            [upstream_chunk; JObj [("object", JStr "chat.completion.chunk")];
             JInt 123; JNull]
    with
    | Some doc => Loaded doc
    | None => JSONDecodeError "Expecting value"
    end.

Definition sample_json : Json :=
  {| json_loads := loads; json_dumps _ := dumps |}.

(** [decode] on 7-bit input, where UTF-8 is the identity. *)
Definition ascii_utf8 : Utf8 :=
  {| utf8_decode s :=
       if forallb (fun c => (nat_of_ascii c <? 128)%nat)
            (list_ascii_of_string s)
       then inl s
       else inr "'utf-8' codec can't decode bytes" |}.

(** Lines of an upstream event stream. *)
Definition chunk_line : string := "data: " +:+ dumps upstream_chunk +:+ LF.

Definition malformed_line : string := "data: {not json" +:+ LF.

Definition long_integer_line : string := "data: " +:+ long_integer +:+ LF.

Definition done_line : string := "data: [DONE]" +:+ LF.

Definition persona : PersonalityDefinition :=
  {| id := "socrates";
     system_prompt := "You are Socrates.";
     created := 1700000000;
     owned_by := "zaguanai" |}.

End Sample.

(** * The rest of the server

    Beyond the rate limiter, the client and the stream processor, the
    development follows [MetricsCollector], [HTTPSessionManager],
    [load_personas] with the registry, [validate_messages], and the endpoint
    [create_chat_completion] with [verify_rate_limit]. *)

(** ** Measures of a client run *)

Module Trace.

(** The number of requests posted. *)
Definition posts (trace : list event) : nat :=
  List.length
    (List.filter (fun ev => match ev with Post _ _ _ => true | Sleep _ => false end)
       trace).

(** The pauses, in order. *)
Definition sleeps (trace : list event) : list Q :=
  flat_map (fun ev => match ev with Post _ _ _ => [] | Sleep d => [d] end) trace.

(** The time spent in pauses. *)
Definition total_sleep (trace : list event) : Q :=
  fold_right Qplus 0%Q (sleeps trace).

End Trace.

(** ** Runs of the rate limiter under a clock *)

Module RateWindow.

(** The clock readings of a run at which the call was admitted. *)
Fixpoint admitted_times (self : RateLimiter.t) (key : string)
    (times : list Q) : list Q :=
  match times with
  | [] => []
  | now :: rest =>
      let '(allowed, self') := RateLimiter.check_rate_limit self key now in
      if allowed then now :: admitted_times self' key rest
      else admitted_times self' key rest
  end.

(** A clock that never goes back: each reading is at least the one before,
    the first at least [start]. *)
Fixpoint nondecreasing (start : Q) (times : list Q) : Prop :=
  match times with
  | [] => True
  | now :: rest => (start <= now)%Q /\ nondecreasing now rest
  end.

End RateWindow.

(** ** MetricsCollector *)

(** [round(x, 3)] on floats is library code. *)
Class Round := {
  round3 : Q -> Q
}.

Module MetricsCollector.

Record t := mk {
  request_count : Z;
  error_count : Z;
  total_latency : Q;
  streaming_requests : Z
}.

(** [MetricsCollector.__init__] *)
Definition init : t := mk 0 0 0 0.

(** [record_request]; the lock makes it one step.  The latencies are added
    exactly, where the source's [float] addition rounds. *)
Definition record_request (self : t) (latency : Q) (is_error : bool)
    (is_streaming : bool) : t :=
  let self := mk (request_count self + 1) (error_count self)
                (total_latency self + latency)%Q (streaming_requests self) in
  let self := if is_error
              then mk (request_count self) (error_count self + 1)
                      (total_latency self) (streaming_requests self)
              else self in
  if is_streaming
  then mk (request_count self) (error_count self) (total_latency self)
          (streaming_requests self + 1)
  else self.

(** [self.total_latency / self.request_count if self.request_count > 0
    else 0.0] *)
Definition avg_latency (self : t) : Q :=
  if request_count self >? 0
  then (total_latency self / inject_Z (request_count self))%Q
  else 0%Q.

(** [self.error_count / self.request_count], guarded in the same way. *)
Definition error_rate (self : t) : Q :=
  if request_count self >? 0
  then (inject_Z (error_count self) / inject_Z (request_count self))%Q
  else 0%Q.

(** The dictionary [get_metrics] returns, member by member. *)
Record snapshot := {
  total_requests : Z;
  total_errors : Z;
  snapshot_streaming_requests : Z;
  average_latency_seconds : Q;
  snapshot_error_rate : Q
}.

(** [get_metrics].  In the source the guard of [error_rate] is around the
    rounding, so an empty collector reports the unrounded [0.0]. *)
Definition get_metrics {R : Round} (self : t) : snapshot :=
  {| total_requests := request_count self;
     total_errors := error_count self;
     snapshot_streaming_requests := streaming_requests self;
     average_latency_seconds := round3 (avg_latency self);
     snapshot_error_rate :=
       if request_count self >? 0
       then round3 (inject_Z (error_count self)
                    / inject_Z (request_count self))%Q
       else 0%Q |}.

(** One recorded request. *)
Record observation := {
  latency : Q;
  is_error : bool;
  is_streaming : bool
}.

(** The collector after the given requests were recorded, in order. *)
Definition record_all (self : t) (obs : list observation) : t :=
  fold_left (fun s o => record_request s (latency o) (is_error o)
                          (is_streaming o))
    obs self.

End MetricsCollector.

(** ** HTTPSessionManager *)

Module HTTPSessionManager.

(** An [aiohttp.ClientSession] as the manager builds it: the connector's
    limits, the timeouts, the default headers and whether it was closed. *)
Record ClientSession := {
  limit : Z;
  limit_per_host : Z;
  keepalive_timeout : Z;
  enable_cleanup_closed : bool;
  ssl : bool;
  timeout_total : Z;
  timeout_connect : Z;
  timeout_sock_read : Z;
  headers : list (string * string);
  closed : bool
}.

(** The sessions created so far; a session object is known by its index. *)
Abbreviation heap := (list ClientSession).

(** [self.session]: [None] or a session object. *)
Record t := mk {
  config : Configuration.t;
  session : option nat
}.

(** [HTTPSessionManager.__init__] *)
Definition init (config : Configuration.t) : t := mk config None.

(** The session [get_session] constructs; [//] is floor division. *)
Definition new_session (config : Configuration.t) : ClientSession :=
  {| limit := Configuration.MAX_WORKERS config;
     limit_per_host := Configuration.MAX_WORKERS config / 2;
     keepalive_timeout := Configuration.KEEPALIVE_TIMEOUT config;
     enable_cleanup_closed := true;
     ssl := false;
     timeout_total := Configuration.REQUEST_TIMEOUT config;
     timeout_connect := 10;
     timeout_sock_read := Configuration.REQUEST_TIMEOUT config;
     headers := [("User-Agent", "PersonalityAPI/1.0")];
     closed := false |}.

(** [self.session is None or self.session.closed] *)
Definition needs_session (self : t) (h : heap) : bool :=
  match session self with
  | None => true
  | Some i => match h !! i with Some s => closed s | None => true end
  end.

(** [get_session]: the session returned, the manager and the heap after. *)
Definition get_session (self : t) (h : heap) : nat * t * heap :=
  if needs_session self h then
    let i := List.length h in
    (i, mk (config self) (Some i), h ++ [new_session (config self)])
  else
    match session self with
    | Some i => (i, self, h)
    | None => (List.length h, self, h)
    end.

(** [await session.close()] *)
Definition close_session (s : ClientSession) : ClientSession :=
  {| limit := limit s;
     limit_per_host := limit_per_host s;
     keepalive_timeout := keepalive_timeout s;
     enable_cleanup_closed := enable_cleanup_closed s;
     ssl := ssl s;
     timeout_total := timeout_total s;
     timeout_connect := timeout_connect s;
     timeout_sock_read := timeout_sock_read s;
     headers := headers s;
     closed := true |}.

(** [close]: a session that is there and open is closed; the manager keeps
    pointing at it.  The short pause after the closing is not modelled. *)
Definition close (self : t) (h : heap) : t * heap :=
  match session self with
  | Some i =>
      match h !! i with
      | Some s => if closed s then (self, h)
                  else (self, <[i := close_session s]> h)
      | None => (self, h)
      end
  | None => (self, h)
  end.

(** The heap holds the session the manager points at. *)
Definition well_formed (self : t) (h : heap) : Prop :=
  match session self with
  | Some i => (i < List.length h)%nat
  | None => True
  end.

End HTTPSessionManager.

(** ** Persona loading ([personas/__init__.py]) and the registry *)

Module Personas.

(** What [getattr] finds in an imported persona module; [None] stands for
    a missing attribute.  The attributes are taken to have the types the
    persona files give them. *)
Record persona_module := {
  PERSONA_ID : option string;
  BIOGRAPHY : option string;
  CREATED : option Z;
  OWNED_BY : option string
}.

(** A [*.py] file of the personas directory: its name and what importing
    it gives. *)
Record persona_file := {
  name : string;
  imported : result persona_module
}.

(** The body of the [for] loop of [load_personas] for one file. *)
Definition load_file (pre_instructions : string)
    (personas : gmap string PersonalityDefinition) (f : persona_file)
  : result (gmap string PersonalityDefinition) :=
  if String.eqb (name f) "__init__.py" then Ok personas
  else
    match imported f with
    | Raise e => if is_exception e then Ok personas else Raise e
    | Ok module =>
        match PERSONA_ID module, BIOGRAPHY module with
        | Some persona_id, Some biography =>
            if negb (is_empty persona_id) && negb (is_empty biography) then
              Ok (<[persona_id :=
                     {| id := persona_id;
                        system_prompt := pre_instructions +:+ biography;
                        created := default 0 (CREATED module);
                        owned_by := default "zaguanai" (OWNED_BY module) |}]>
                    personas)
            else Ok personas
        | _, _ => Ok personas
        end
    end.

(** The loop over the files the [glob] yields, from the dictionary built so
    far. *)
Fixpoint load_from (pre_instructions : string)
    (personas : gmap string PersonalityDefinition)
    (files : list persona_file)
  : result (gmap string PersonalityDefinition) :=
  match files with
  | [] => Ok personas
  | f :: rest =>
      match load_file pre_instructions personas f with
      | Ok personas' => load_from pre_instructions personas' rest
      | Raise e => Raise e
      end
  end.

(** [load_personas] *)
Definition load_personas (pre_instructions : string)
    (files : list persona_file)
  : result (gmap string PersonalityDefinition) :=
  load_from pre_instructions ∅ files.

(** [PersonalityRegistry.get_personality] *)
Definition get_personality (personalities : gmap string PersonalityDefinition)
    (personality_id : string) : option PersonalityDefinition :=
  personalities !! personality_id.

(** [PersonalityDefinition.to_model_dict] *)
Definition to_model_dict (self : PersonalityDefinition) : dict :=
  [("id", JStr (id self)); ("object", JStr "model");
   ("created", JInt (created self)); ("owned_by", JStr (owned_by self));
   ("permission", JArr []); ("root", JStr (id self)); ("parent", JNull)].

(** The file contributes a persona. *)
Definition contributes (f : persona_file) : bool :=
  negb (String.eqb (name f) "__init__.py")
  && match imported f with
     | Ok module =>
         match PERSONA_ID module, BIOGRAPHY module with
         | Some persona_id, Some biography =>
             negb (is_empty persona_id) && negb (is_empty biography)
         | _, _ => false
         end
     | Raise _ => false
     end.

(** What holds of every entry of a dictionary of personas. *)
Definition persona_entry_ok (pre_instructions : string)
    (files : list persona_file) (k : string) (p : PersonalityDefinition)
  : Prop :=
  id p = k /\ k <> EmptyString
  /\ exists f module biography,
       In f files /\ name f <> "__init__.py"
       /\ imported f = Ok module
       /\ PERSONA_ID module = Some k
       /\ BIOGRAPHY module = Some biography
       /\ biography <> EmptyString
       /\ system_prompt p = pre_instructions +:+ biography.

End Personas.

(** ** Request validation *)

Module ChatCompletionRequest.

(** [ChatMessage] *)
Record ChatMessage := {
  role : string;
  content : string;
  name : option string;
  function_call : option dict
}.

(** The [for] loop of [validate_messages]. *)
Fixpoint check_contents (v : list ChatMessage) : result unit :=
  match v with
  | [] => Ok tt
  | msg :: rest =>
      if is_empty (content msg) || is_empty (strip (content msg))
      then Raise (ValueError "message content cannot be empty")
      else check_contents rest
  end.

(** [validate_messages] *)
Definition validate_messages (v : list ChatMessage)
  : result (list ChatMessage) :=
  match v with
  | [] => Raise (ValueError "messages cannot be empty")
  | _ :: _ =>
      match check_contents v with
      | Ok _ => Ok v
      | Raise e => Raise e
      end
  end.

End ChatCompletionRequest.

(** ** The chat-completion endpoint *)

(** Library behaviour the endpoint relies on: [await response.json()], the
    lines and the end of [response.content], [JSONResponse(content=...)],
    which renders the body when it is built and so may raise, and the truth
    value of a float. *)
Class Framework := {
  response_json : ClientResponse -> result json;
  response_content : ClientResponse -> list string * StreamProcessor.stream_end;
  render_json : json -> result unit;
  float_truth : string -> bool
}.

Module App.

(** The module-level objects the endpoint uses. *)
Record t := mk {
  config : Configuration.t;
  rate_limiter : RateLimiter.t;
  personalities : gmap string PersonalityDefinition;
  metrics_collector : MetricsCollector.t
}.

(** [Request]: [request.client.host] if there is a client, and
    [request.state.id]. *)
Record Request := {
  client_host : option string;
  state_id : string
}.

(** The validated [ChatCompletionRequest]: the fields the endpoint reads
    and the value of [model_dump(exclude_none=True)]. *)
Record ChatCompletionRequest := {
  model : string;
  stream : option bool;
  model_dump : dict
}.

(** How a call of the endpoint ends. *)
Inductive outcome :=
| JSONResponse (content : json)
| StreamingResponse (frames : list string) (ending : StreamProcessor.ending)
| HTTPException (status_code : json) (detail : json)
| Escapes (e : exn).

(** [bool(v)] *)
Definition truthy {F : Framework} (v : json) : bool :=
  match v with
  | JNull => false
  | JBool b => b
  | JInt n => negb (n =? 0)
  | JFloat lit => float_truth lit
  | JStr s => negb (is_empty s)
  | JArr l => match l with [] => false | _ => true end
  | JObj d => match d with [] => false | _ => true end
  end.

(** The [HTTPException] of the last [except] clause. *)
Definition internal_error : outcome :=
  HTTPException (JInt 500)
    (UpstreamAPIClient.error_envelope "Internal server error"
       "internal_error" 500).

(** [except HTTPException: raise] lets the endpoint's own exceptions pass,
    [except Exception] turns every other [Exception] into the 500 above, and
    what is no [Exception] escapes. *)
Definition caught (e : exn) : outcome :=
  if is_exception e then internal_error else Escapes e.

(** [verify_rate_limit]: [None] when the request is admitted. *)
Definition verify_rate_limit (limiter : RateLimiter.t) (request : Request)
    (now : Q) : option outcome * RateLimiter.t :=
  let client_ip := default "unknown" (client_host request) in
  let '(allowed, limiter') :=
    RateLimiter.check_rate_limit limiter client_ip now in
  if allowed then (None, limiter')
  else
    (Some (HTTPException (JInt 429)
             (UpstreamAPIClient.error_envelope "Rate limit exceeded"
                "rate_limit_error" 429)),
     limiter').

(** [error.get("error", {}).get("code", 500)] and the [raise] after it. *)
Definition upstream_failure (error : json) : outcome :=
  match error with
  | JObj d =>
      match default (JObj []) (dict_get "error" d) with
      | JObj inner =>
          HTTPException (default (JInt 500) (dict_get "code" inner)) error
      | other =>
          caught (AttributeError
                    ("'" +:+ type_name other
                     +:+ "' object has no attribute 'get'"))
      end
  | _ =>
      caught (AttributeError
                ("'" +:+ type_name error +:+ "' object has no attribute 'get'"))
  end.

(** The frames of [process_stream(response, ...)].  Without a response the
    generator fails on [response.content], reports that in a frame, and
    fails again in its [finally] clause. *)
Definition relay {F : Framework} {J : Json} {U : Utf8}
    (response : option ClientResponse) (requested_model_id : string)
  : list string * StreamProcessor.ending :=
  match response with
  | Some r =>
      let '(lines, last) := response_content r in
      StreamProcessor.process_stream lines last requested_model_id
  | None =>
      ([StreamProcessor.data_frame true
          (StreamProcessor.error_chunk
             (AttributeError "'NoneType' object has no attribute 'content'"))],
       StreamProcessor.Propagated
         (AttributeError "'NoneType' object has no attribute 'closed'"))
  end.

(** The non-streaming branch: read the body, put the requested model in
    place of the upstream's, build the response. *)
Definition buffered {F : Framework} (response : option ClientResponse)
    (requested_model_id : string) : outcome :=
  match response with
  | None =>
      caught (AttributeError "'NoneType' object has no attribute 'json'")
  | Some r =>
      match response_json r with
      | Raise e => caught e
      | Ok response_data =>
          match StreamProcessor.rewrite_chunk requested_model_id response_data
          with
          | Raise e => caught e
          | Ok response_data =>
              match render_json response_data with
              | Raise e => caught e
              | Ok _ => JSONResponse response_data
              end
          end
      end
  end.

(** [create_chat_completion]: the events, the outcome, the objects and the
    world after the call. *)
Definition create_chat_completion {W} {HS : Session W} {F : Framework}
    {J : Json} {U : Utf8} (app : t) (request : Request)
    (chat_request : ChatCompletionRequest) (now : Q) (w : W)
  : list event * outcome * t * W :=
  let request_id := state_id request in
  let '(rejected, limiter) := verify_rate_limit (rate_limiter app) request now in
  let app := mk (config app) limiter (personalities app)
               (metrics_collector app) in
  match rejected with
  | Some exception => ([], exception, app, w)
  | None =>
      match personalities app !! model chat_request with
      | None =>
          ([],
           HTTPException (JInt 404)
             (UpstreamAPIClient.error_envelope
                ("Model not found: " +:+ model chat_request)
                "invalid_request_error" 404),
           app, w)
      | Some personality =>
          let request_data := model_dump chat_request in
          let '(trace, result, w') :=
            UpstreamAPIClient.proxy_chat_completion (config app) request_data
              personality request_id w in
          match result with
          | Raise e => (trace, caught e, app, w')
          | Ok (response, error) =>
              if match error with Some v => truthy v | None => false end then
                (trace, upstream_failure (default JNull error), app, w')
              else if default false (stream chat_request) then
                let '(frames, ending) := relay response (model chat_request) in
                (trace, StreamingResponse frames ending,
                 mk (config app) (rate_limiter app) (personalities app)
                    (MetricsCollector.record_request (metrics_collector app)
                       0 false true),
                 w')
              else (trace, buffered response (model chat_request), app, w')
          end
      end
  end.

End App.

(** ** Sample collaborators of the endpoint *)

Module Scenario.

(** A completion as the upstream returns it. *)
Definition completion : json :=
  JObj [("id", JStr "chatcmpl-1"); ("model", JStr "upstream-x");
        ("choices", JArr [])].

(** [json.loads] on the documents of this section. *)
Definition loads (s : string) : loaded :=
  match List.find (fun doc => String.eqb (Sample.dumps doc) s)
          [completion; JObj []; JInt 123]
  with
  | Some doc => Loaded doc
  | None => JSONDecodeError "Expecting value"
  end.

Definition json_module : Json :=
  {| json_loads := loads; json_dumps _ := Sample.dumps |}.

(** A framework whose responses carry their text as JSON body, stream two
    lines, and whose rendering never fails. *)
Definition framework : Framework :=
  {| response_json r :=
       match text r with
       | Ok s =>
           match loads s with
           | Loaded v => Ok v
           | JSONDecodeError msg | LoadsValueError msg => Raise (ValueError msg)
           | LoadsRecursionError msg => Raise (RecursionError msg)
           end
       | Raise e => Raise e
       end;
     response_content _ := ([Sample.chunk_line; Sample.done_line],
                            StreamProcessor.EndOfStream);
     render_json _ := Ok tt;
     float_truth lit := negb (String.eqb lit "0.0") |}.

(** The same framework when the client goes away while the first line of
    the body has been read. *)
Definition cancelled_framework : Framework :=
  {| response_json := response_json (Framework := framework);
     response_content _ := ([Sample.chunk_line],
                            StreamProcessor.Broken CancelledError);
     render_json _ := Ok tt;
     float_truth lit := negb (String.eqb lit "0.0") |}.

(** The application at start-up, with one persona and a limit of two
    requests per minute. *)
Definition app : App.t :=
  App.mk (Sample.config 3) (RateLimiter.init 2)
    {[ "socrates" := Sample.persona ]} MetricsCollector.init.

Definition request : App.Request :=
  {| App.client_host := Some "10.0.0.1"; App.state_id := "req-1" |}.

Definition chat (stream : option bool) : App.ChatCompletionRequest :=
  {| App.model := "socrates"; App.stream := stream;
     App.model_dump := Sample.chat_request |}.

Definition unknown_chat : App.ChatCompletionRequest :=
  {| App.model := "plato"; App.stream := None;
     App.model_dump := Sample.chat_request |}.

(** Upstream answers. *)
Definition completed : ClientResponse :=
  {| status := 200; text := Ok (Sample.dumps completion) |}.

Definition empty_error : ClientResponse :=
  {| status := 429; text := Ok "{}" |}.

(** Persona files. *)
Definition socrates_file : Personas.persona_file :=
  {| Personas.name := "socrates.py";
     Personas.imported :=
       Ok {| Personas.PERSONA_ID := Some "socrates";
             Personas.BIOGRAPHY := Some "You are Socrates.";
             Personas.CREATED := Some 1700000000;
             Personas.OWNED_BY := None |} |}.

Definition broken_file : Personas.persona_file :=
  {| Personas.name := "draft.py";
     Personas.imported := Raise (OtherException "invalid syntax") |}.

Definition user_message : ChatCompletionRequest.ChatMessage :=
  {| ChatCompletionRequest.role := "user";
     ChatCompletionRequest.content := "What is virtue?";
     ChatCompletionRequest.name := None;
     ChatCompletionRequest.function_call := None |}.

End Scenario.

Section RateLimiterFacts.
Import RateLimiter.

Lemma newer_true (w ts : Q) : newer w ts = true <-> (w < ts)%Q.
Proof.
  unfold newer. rewrite negb_true_iff, <- not_true_iff_false, Qle_bool_iff.
  split; [apply Qnot_le_lt | apply Qlt_not_le].
Qed.

Lemma newer_false (w ts : Q) : newer w ts = false <-> (ts <= w)%Q.
Proof.
  unfold newer. rewrite negb_false_iff. apply Qle_bool_iff.
Qed.

Lemma get_insert (r : Z) (m : gmap string (list Q)) (key : string) (l : list Q) :
  get (mk r (<[key := l]> m)) key = l.
Proof. unfold get; simpl. by rewrite lookup_insert_eq. Qed.

Lemma get_insert_ne (r : Z) (m : gmap string (list Q)) (key k : string) (l : list Q) :
  key <> k -> get (mk r (<[key := l]> m)) k = get (mk r m) k.
Proof. intros Hne. unfold get; simpl. by rewrite lookup_insert_ne. Qed.

Lemma prune_length (now : Q) (l : list Q) :
  (List.length (prune now l) <= List.length l)%nat.
Proof. unfold prune. induction l as [|a l IH]; simpl; [lia|]. destruct (newer _ a); simpl; lia. Qed.

Lemma prune_newer (now : Q) (l : list Q) :
  Forall (fun ts => (now - 60 < ts)%Q) (prune now l).
Proof.
  unfold prune. induction l as [|a l IH]; simpl; [constructor|].
  destruct (newer _ a) eqn:E; [|exact IH].
  constructor; [by apply newer_true | exact IH].
Qed.

Lemma prune_all_live (now : Q) (l : list Q) :
  Forall (fun ts => (now - 60 < ts)%Q) l -> prune now l = l.
Proof.
  unfold prune. induction 1 as [|a l Ha _ IH]; simpl; [done|].
  apply newer_true in Ha. rewrite Ha. by rewrite IH.
Qed.

Lemma prune_all_stale (now : Q) (l : list Q) :
  Forall (fun ts => (ts <= now - 60)%Q) l -> prune now l = [].
Proof.
  unfold prune. induction 1 as [|a l Ha _ IH]; simpl; [done|].
  apply newer_false in Ha. by rewrite Ha.
Qed.

(** The two branches of [check_rate_limit], with the map written once. *)
Lemma check_rate_limit_eq (self : t) (key : string) (now : Q) :
  check_rate_limit self key now =
    let kept := prune now (get self key) in
    if Z.of_nat (List.length kept) >=? rate_per_minute self
    then (false, mk (rate_per_minute self) (<[key := kept]> (requests self)))
    else (true, mk (rate_per_minute self)
                   (<[key := kept ++ [now]]> (requests self))).
Proof.
  unfold check_rate_limit. cbv zeta. rewrite !get_insert. simpl.
  destruct (_ >=? _); [done|]. by rewrite insert_insert_eq.
Qed.

Lemma check_rate_limit_rate (self : t) (key : string) (now : Q) :
  rate_per_minute (check_rate_limit self key now).2 = rate_per_minute self.
Proof.
  rewrite check_rate_limit_eq. cbv zeta. by destruct (_ >=? _).
Qed.

Lemma run_cons (self : t) (key : string) (now : Q) (rest : list Q) :
  run self key (now :: rest) =
    ((check_rate_limit self key now).1
       :: (run (check_rate_limit self key now).2 key rest).1,
     (run (check_rate_limit self key now).2 key rest).2).
Proof.
  cbn [run]. destruct (check_rate_limit self key now) as [b self'].
  cbn [fst snd]. by destruct (run self' key rest).
Qed.

(** While the stored sequence has room, every call is admitted. *)
Lemma run_admits (key : string) (times : list Q) :
  forall self : t,
    Z.of_nat (List.length (get self key)) + Z.of_nat (List.length times)
      <= rate_per_minute self ->
    (run self key times).1 = repeat true (List.length times).
Proof.
  induction times as [|now rest IH]; intros self Hroom; [done|].
  rewrite run_cons. cbn [fst List.length repeat].
  pose proof (prune_length now (get self key)) as Hlen.
  rewrite check_rate_limit_eq in *. cbv zeta in *.
  cbn [List.length] in Hroom.
  destruct (_ >=? _) eqn:Hge; [apply Z.geb_le in Hge; lia|].
  cbn [fst snd]. f_equal. apply IH.
  rewrite get_insert, length_app. cbn [rate_per_minute List.length]. lia.
Qed.

(** With every timestamp of the run inside one window nothing is pruned,
    so the admitted calls are all stored. *)
Lemma run_stores (key : string) (times : list Q) :
  forall self : t,
    within_window (get self key ++ times) ->
    Z.of_nat (List.length (get self key)) + Z.of_nat (List.length times)
      <= rate_per_minute self ->
    get (run self key times).2 key = get self key ++ times
    /\ rate_per_minute (run self key times).2 = rate_per_minute self.
Proof.
  induction times as [|now rest IH]; intros self Hwin Hroom.
  { simpl. by rewrite app_nil_r. }
  rewrite run_cons. cbn [snd].
  assert (Hkeep : prune now (get self key) = get self key).
  { apply prune_all_live, List.Forall_forall. intros a Ha.
    apply Hwin; apply in_or_app; [by left | right; by left]. }
  cbn [List.length] in Hroom.
  rewrite check_rate_limit_eq in *. cbv zeta in *. rewrite Hkeep in *.
  destruct (_ >=? _) eqn:Hge; [apply Z.geb_le in Hge; lia|].
  cbn [snd].
  destruct (IH (mk (rate_per_minute self)
                   (<[key := get self key ++ [now]]> (requests self))))
    as [Hget Hrate].
  - rewrite get_insert, <- app_assoc. exact Hwin.
  - rewrite get_insert, length_app. cbn [rate_per_minute List.length]. lia.
  - rewrite Hget, Hrate, get_insert, <- app_assoc. done.
Qed.

(** A full sequence whose entries all stay live denies every call. *)
Lemma run_denies (key : string) (excess : list Q) :
  forall self : t,
    rate_per_minute self <= Z.of_nat (List.length (get self key)) ->
    (forall a b, In a (get self key) -> In b excess -> (b - 60 < a)%Q) ->
    (run self key excess).1 = repeat false (List.length excess).
Proof.
  induction excess as [|now rest IH]; intros self Hfull Hwin; [done|].
  rewrite run_cons. cbn [fst List.length repeat].
  assert (Hkeep : prune now (get self key) = get self key).
  { apply prune_all_live, List.Forall_forall. intros a Ha.
    apply Hwin; [done | by left]. }
  rewrite check_rate_limit_eq. cbv zeta. rewrite Hkeep.
  destruct (_ >=? _) eqn:Hge; [|rewrite Z.geb_leb in Hge; apply Z.leb_gt in Hge; lia].
  cbn [fst snd]. f_equal. apply IH.
  - by rewrite get_insert.
  - rewrite get_insert. intros a b Ha Hb. apply Hwin; [done | by right].
Qed.

Lemma check_rate_limit_newer (self : t) (key : string) (now : Q) :
  Forall (fun ts => (now - 60 < ts)%Q)
    (get (check_rate_limit self key now).2 key).
Proof.
  rewrite check_rate_limit_eq. cbv zeta.
  destruct (_ >=? _); cbn [snd]; rewrite get_insert.
  - apply prune_newer.
  - apply Forall_app. split; [apply prune_newer|].
    constructor; [lra | constructor].
Qed.

Lemma check_rate_limit_bound (self : t) (key : string) (now : Q) :
  Z.of_nat (List.length (get self key)) <= rate_per_minute self ->
  Z.of_nat (List.length (get (check_rate_limit self key now).2 key))
    <= rate_per_minute self.
Proof.
  intros Hinv. pose proof (prune_length now (get self key)) as Hlen.
  rewrite check_rate_limit_eq. cbv zeta.
  destruct (_ >=? _) eqn:Hge; cbn [snd]; rewrite get_insert; [lia|].
  rewrite Z.geb_leb in Hge. apply Z.leb_gt in Hge.
  rewrite length_app. cbn [List.length]. lia.
Qed.

Lemma check_rate_limit_other (self : t) (key k : string) (now : Q) :
  key <> k -> get (check_rate_limit self key now).2 k = get self k.
Proof.
  intros Hne. rewrite check_rate_limit_eq. cbv zeta.
  destruct (_ >=? _); cbn [snd]; rewrite get_insert_ne by done;
    by destruct self.
Qed.

Lemma check_rate_limit_bound_max (self : t) (key : string) (now : Q) :
  Z.of_nat (List.length (get self key)) <= Z.max 0 (rate_per_minute self) ->
  Z.of_nat (List.length (get (check_rate_limit self key now).2 key))
    <= Z.max 0 (rate_per_minute self).
Proof.
  intros Hinv. pose proof (prune_length now (get self key)) as Hlen.
  rewrite check_rate_limit_eq. cbv zeta.
  destruct (_ >=? _) eqn:Hge; cbn [snd]; rewrite get_insert; [lia|].
  rewrite Z.geb_leb in Hge. apply Z.leb_gt in Hge.
  rewrite length_app. cbn [List.length]. lia.
Qed.

(** From a fresh limiter no key ever stores more timestamps than the
    limit, or any at all when the limit is negative. *)
Lemma reachable_bounded (rate : Z) (self : t) :
  reachable rate self ->
  rate_per_minute self = rate
  /\ forall k, Z.of_nat (List.length (get self k)) <= Z.max 0 rate.
Proof.
  induction 1 as [|self key now _ [IHr IHb]].
  - split; [done|]. intros k. unfold get, init; simpl.
    rewrite lookup_empty. simpl. lia.
  - split; [by rewrite check_rate_limit_rate|]. intros k.
    destruct (decide (key = k)) as [->|Hne].
    + rewrite <- IHr. apply check_rate_limit_bound_max. rewrite IHr.
      apply IHb.
    + rewrite check_rate_limit_other by done. apply IHb.
Qed.

Lemma run_app (key : string) (l1 l2 : list Q) :
  forall self : t,
    run self key (l1 ++ l2)
    = ((run self key l1).1 ++ (run (run self key l1).2 key l2).1,
       (run (run self key l1).2 key l2).2).
Proof.
  induction l1 as [|a l1 IH]; intros self.
  - cbn. by destruct (run self key l2).
  - rewrite <- app_comm_cons, !run_cons, IH. done.
Qed.

(** Timestamps that are stale for every call of a run play no part in it. *)
Lemma run_stale (self : t) (key : string) (now : Q) (rest : list Q) :
  Forall (fun ts => (ts <= now - 60)%Q) (get self key) ->
  run self key (now :: rest)
  = run (mk (rate_per_minute self) (<[key := []]> (requests self))) key
      (now :: rest).
Proof.
  intros Hstale. rewrite !run_cons, !check_rate_limit_eq. cbv zeta.
  rewrite get_insert, (prune_all_stale _ _ Hstale).
  cbn [prune List.filter List.length rate_per_minute requests].
  by rewrite !insert_insert_eq.
Qed.

(** From an empty sequence: a run of the limit's length inside one window
    is admitted in full, and the calls that follow in the window are
    denied. *)
Lemma run_window (self : t) (key : string) (admitted excess : list Q) :
  get self key = [] ->
  Z.of_nat (List.length admitted) = rate_per_minute self ->
  within_window (admitted ++ excess) ->
  (run self key (admitted ++ excess)).1
  = repeat true (List.length admitted) ++ repeat false (List.length excess).
Proof.
  intros Hfresh Hlen Hwin. rewrite run_app. cbn [fst].
  destruct (run_stores key admitted self) as [Hget Hrate].
  { rewrite Hfresh. intros a b Ha Hb. apply Hwin; apply in_or_app; by left. }
  { rewrite Hfresh. cbn [List.length]. lia. }
  f_equal.
  - apply run_admits. rewrite Hfresh. cbn [List.length]. lia.
  - apply run_denies.
    + rewrite Hget, Hrate, Hfresh. cbn [app]. lia.
    + rewrite Hget, Hfresh. cbn [app]. intros a b Ha Hb.
      apply Hwin; apply in_or_app; [by left | by right].
Qed.

(** C4 (as amended).  [check_rate_limit] keeps exactly the stored
    timestamps that are newer than [now - 60]; it answers [False] and
    stores only the kept ones exactly when their count has reached the
    limit, and otherwise stores the kept ones followed by [now] and answers
    [True].  Hence, for a key none of whose stored timestamps reaches into
    the window, a run whose length is the limit is admitted in full and
    every further call inside the same 60-second window is denied; and,
    when the limit is at least 1, a key whose stored timestamps are all at
    least 60 seconds old is admitted again. *)
Theorem check_rate_limit_sliding_window
    (self : t) (key : string) (now last : Q) (admitted excess : list Q) :
  let kept := prune now (get self key) in
  (forall ts, In ts kept <-> In ts (get self key) /\ (now - 60 < ts)%Q)
  /\ (rate_per_minute self <= Z.of_nat (List.length kept) ->
      check_rate_limit self key now =
        (false, mk (rate_per_minute self) (<[key := kept]> (requests self))))
  /\ (Z.of_nat (List.length kept) < rate_per_minute self ->
      check_rate_limit self key now =
        (true, mk (rate_per_minute self)
                  (<[key := kept ++ [now]]> (requests self))))
  /\ (Forall (fun ts => forall b, In b (admitted ++ excess) -> (ts <= b - 60)%Q)
        (get self key) ->
      Z.of_nat (List.length admitted) = rate_per_minute self ->
      within_window (admitted ++ excess) ->
      (run self key (admitted ++ excess)).1 =
        repeat true (List.length admitted)
          ++ repeat false (List.length excess))
  /\ (0 < rate_per_minute self ->
      Forall (fun ts => (ts <= last)%Q) (get self key) ->
      (last + 60 <= now)%Q ->
      (check_rate_limit self key now).1 = true).
Proof.
  intros kept. split; [|split; [|split; [|split]]].
  - intros ts. unfold kept, prune. rewrite filter_In, newer_true. tauto.
  - intros Hfull. rewrite check_rate_limit_eq. cbv zeta. fold kept.
    destruct (_ >=? _) eqn:Hge; [done|].
    rewrite Z.geb_leb in Hge. apply Z.leb_gt in Hge. lia.
  - intros Hroom. rewrite check_rate_limit_eq. cbv zeta. fold kept.
    destruct (_ >=? _) eqn:Hge; [|done]. apply Z.geb_le in Hge. lia.
  - intros Hstale Hlen Hwin. clear kept.
    destruct (admitted ++ excess) as [|first rest] eqn:Hrun.
    { apply app_eq_nil in Hrun as [-> ->]. done. }
    rewrite run_stale.
    + rewrite <- Hrun. apply run_window; [by rewrite get_insert | done |].
      by rewrite Hrun.
    + eapply Forall_impl; [exact Hstale|]. cbv beta.
      intros ts Hts. apply Hts. by left.
  - intros Hpos Hold Hlate. rewrite check_rate_limit_eq. cbv zeta.
    rewrite prune_all_stale.
    + cbn [List.length]. destruct (_ >=? _) eqn:Hge; [|done].
      apply Z.geb_le in Hge. lia.
    + eapply Forall_impl; [exact Hold|]. cbv beta. intros ts Hts. lra.
Qed.

(** C9 (as amended).  After [check_rate_limit self key now] every
    timestamp stored for [key] is strictly newer than [now - 60].  In every
    state reached from a fresh limiter the call leaves at most
    [max(rate_per_minute, 0)] timestamps for [key]: at most [rate_per_minute]
    of them when the limit is not negative, and none when it is negative.
    The bound "at most [rate_per_minute] timestamps are stored for [key]" is
    also kept by the call from any state in which it holds. *)
Theorem check_rate_limit_keeps_storage_bounded
    (self : t) (key : string) (now : Q) :
  let self' := (check_rate_limit self key now).2 in
  Forall (fun ts => (now - 60 < ts)%Q) (get self' key)
  /\ (reachable (rate_per_minute self) self ->
      Z.of_nat (List.length (get self' key))
        <= Z.max 0 (rate_per_minute self')
      /\ (0 <= rate_per_minute self ->
          Z.of_nat (List.length (get self' key)) <= rate_per_minute self')
      /\ (rate_per_minute self < 0 -> get self' key = []))
  /\ (Z.of_nat (List.length (get self key)) <= rate_per_minute self ->
      Z.of_nat (List.length (get self' key)) <= rate_per_minute self').
Proof.
  cbv zeta. rewrite check_rate_limit_rate. split; [|split].
  - apply check_rate_limit_newer.
  - intros Hreach.
    assert (Hmax : Z.of_nat (List.length
                      (get (check_rate_limit self key now).2 key))
                   <= Z.max 0 (rate_per_minute self)).
    { apply check_rate_limit_bound_max.
      by apply (reachable_bounded _ _ Hreach). }
    split; [exact Hmax|]. split; [lia|].
    intros Hneg.
    destruct (get (check_rate_limit self key now).2 key); [done|].
    cbn [List.length] in Hmax. lia.
  - apply check_rate_limit_bound.
Qed.

Lemma check_rate_limit_sliding_window_witness :
  (run (init 2) "10.0.0.1" [1; 2; 3]%Q).1 = [true; true; false]
  /\ (check_rate_limit (run (init 2) "10.0.0.1" [1; 2]%Q).2 "10.0.0.1" 62).1
     = true
  /\ (check_rate_limit (init 2) "10.0.0.1" 1).1 = true
  /\ (check_rate_limit (run (init 2) "10.0.0.1" [1; 2]%Q).2 "10.0.0.1" 3).1
     = false.
Proof.
  split; [|split; [|split]].
  - apply (check_rate_limit_sliding_window
             (init 2) "10.0.0.1" 3 3 [1; 2]%Q [3]%Q).
    + vm_compute. constructor.
    + reflexivity.
    + intros a b Ha Hb. simpl in Ha, Hb.
      destruct Ha as [<-|[<-|[<-|[]]]]; destruct Hb as [<-|[<-|[<-|[]]]];
        reflexivity.
  - apply (check_rate_limit_sliding_window
             (run (init 2) "10.0.0.1" [1; 2]%Q).2 "10.0.0.1" 62 2 [] []).
    + reflexivity.
    + vm_compute. repeat constructor; discriminate.
    + vm_compute. discriminate.
  - destruct (check_rate_limit_sliding_window
                (init 2) "10.0.0.1" 1 1 [] []) as (_ & _ & Hadmit & _).
    rewrite Hadmit; [reflexivity|]. vm_compute. reflexivity.
  - destruct (check_rate_limit_sliding_window
                (run (init 2) "10.0.0.1" [1; 2]%Q).2 "10.0.0.1" 3 3 [] [])
      as (_ & Hdeny & _).
    rewrite Hdeny; [reflexivity|]. vm_compute. discriminate.
Defined.

(** C4 as stated fails for a limit of 0: a fresh limiter denies the key,
    and denies it again 60 seconds and 3600 seconds later. *)
Lemma check_rate_limit_zero_limit_never_readmits :
  let denied := check_rate_limit (init 0) "10.0.0.1" 0 in
  denied.1 = false
  /\ (check_rate_limit denied.2 "10.0.0.1" 60).1 = false
  /\ (check_rate_limit denied.2 "10.0.0.1" 3600).1 = false.
Proof. vm_compute. repeat split. Qed.

Lemma check_rate_limit_keeps_storage_bounded_witness :
  let self' := (check_rate_limit (init 2) "10.0.0.1" 1).2 in
  Forall (fun ts => (1 - 60 < ts)%Q) (get self' "10.0.0.1")
  /\ Z.of_nat (List.length (get self' "10.0.0.1")) <= 2
  /\ Z.of_nat (List.length (get self' "10.0.0.1")) <= Z.max 0 2
  /\ get (check_rate_limit (init (-1)) "10.0.0.1" 1).2 "10.0.0.1" = [].
Proof.
  destruct (check_rate_limit_keeps_storage_bounded (init 2) "10.0.0.1" 1)
    as (Hnew & Hreach & Hkeep).
  destruct (check_rate_limit_keeps_storage_bounded (init (-1)) "10.0.0.1" 1)
    as (_ & Hnegative & _).
  split; [exact Hnew|]. split; [|split].
  - apply Hkeep. vm_compute. discriminate.
  - destruct Hreach as (Hmax & _); [constructor | exact Hmax].
  - destruct Hnegative as (_ & _ & Hnone); [constructor|].
    apply Hnone. reflexivity.
Defined.

(** C9 as stated fails for a negative limit: after the call on a fresh
    limiter whose limit is -1 nothing is stored for the key, and the length
    0 of what is stored is greater than the limit. *)
Lemma check_rate_limit_negative_limit_is_exceeded :
  let checked := check_rate_limit (init (-1)) "10.0.0.1" 0 in
  checked.1 = false
  /\ rate_per_minute checked.2 = -1
  /\ get checked.2 "10.0.0.1" = []
  /\ ~ Z.of_nat (List.length (get checked.2 "10.0.0.1"))
        <= rate_per_minute checked.2.
Proof.
  cbv zeta. split; [reflexivity|]. split; [reflexivity|].
  split; [reflexivity|]. vm_compute. intros Hle. by apply Hle.
Qed.
End RateLimiterFacts.

Section RetryFacts.
Import UpstreamAPIClient.
Context {W A : Type} (config : Configuration.t) (request_func : M W A).

Lemma last_exception_cons (t : list event) (e : exn)
    (rest : list (list event * exn)) (before : option exn) :
  last_exception ((t, e) :: rest) before = last_exception rest (Some e).
Proof.
  unfold last_exception. destruct rest as [|f rest]; [done|].
  change (last ((t, e) :: f :: rest)) with (last (f :: rest)).
  destruct (last (f :: rest)) eqn:Hlast; [done|].
  by apply last_None in Hlast.
Qed.

(** A call that returns ends the loop at once. *)
Lemma retry_loop_returns (max_retries : Z) (remaining : nat) (attempt : Z)
    (last : option exn) (w w' : W) (t : list event) (a : A) :
  request_func w = (t, Ok a, w') ->
  retry_loop config request_func max_retries (S remaining) attempt last w
  = (t, Ok a, w').
Proof. intros Hcall. cbn [retry_loop]. unfold try_except. by rewrite Hcall. Qed.

(** An exception outside the two retried classes leaves the loop at once. *)
Lemma retry_loop_lets_through (max_retries : Z) (remaining : nat)
    (attempt : Z) (last : option exn) (w w' : W) (t : list event) (e : exn) :
  request_func w = (t, Raise e, w') ->
  is_client_error e || is_timeout_error e = false ->
  retry_loop config request_func max_retries (S remaining) attempt last w
  = (t, Raise e, w').
Proof.
  intros Hcall Hcls. cbn [retry_loop]. unfold try_except.
  by rewrite Hcall, Hcls.
Qed.

(** Failed calls are consumed one by one, with their pauses, as long as
    no pause is due after attempt 1024 or a later one. *)
Lemma retry_loop_failing (max_retries : Z) (fs : list (list event * exn))
    (w w' : W) :
  failing request_func w fs w' ->
  forall (remaining : nat) (attempt : Z) (last : option exn),
    (List.length fs <= remaining)%nat ->
    attempt + Z.of_nat (List.length fs) <= 1024 \/ max_retries <= 1025 ->
    retry_loop config request_func max_retries remaining attempt last w
    = let '(t, r, w'') :=
        retry_loop config request_func max_retries
          (remaining - List.length fs) (attempt + Z.of_nat (List.length fs))
          (last_exception fs last) w' in
      (backoff_trace config max_retries attempt fs ++ t, r, w'').
Proof.
  induction 1 as [w|w w1 w' t e rest Hcall Hcls _ IH];
    intros remaining attempt last Hlen Hsafe.
  - cbn [List.length backoff_trace app]. rewrite Nat.sub_0_r, Z.add_0_r.
    unfold last_exception; cbn.
    by destruct (retry_loop _ _ _ _ _ _ _) as [[t r] w''].
  - cbn [List.length] in Hlen, Hsafe.
    destruct remaining as [|remaining]; [lia|].
    cbn [retry_loop]. unfold try_except at 1. rewrite Hcall, Hcls.
    rewrite last_exception_cons. cbn [List.length backoff_trace].
    replace (attempt + Z.of_nat (S (List.length rest)))
      with (attempt + 1 + Z.of_nat (List.length rest)) by lia.
    replace (S remaining - S (List.length rest))%nat
      with (remaining - List.length rest)%nat by lia.
    specialize (IH remaining (attempt + 1) (Some e)).
    destruct (attempt <? max_retries - 1) eqn:Hlt.
    + apply Z.ltb_lt in Hlt.
      assert ((attempt <? 1024) = true) as Hfloat by (apply Z.ltb_lt; lia).
      unfold back_off. rewrite Hfloat. unfold bind, sleep. cbv iota beta.
      rewrite IH by lia.
      destruct (retry_loop _ _ _ (remaining - _) _ _ _) as [[t2 r2] w2].
      cbn [app]. by rewrite <- ?app_assoc.
    + unfold bind, ret. cbv iota beta. rewrite IH by lia.
      destruct (retry_loop _ _ _ (remaining - _) _ _ _) as [[t2 r2] w2].
      cbn [app]. by rewrite <- ?app_assoc.
Qed.

(** Before the last allowed attempt every failure is followed by its
    pause. *)
Lemma backoff_trace_weave (max_retries : Z) (fs : list (list event * exn)) :
  forall attempt : Z,
    attempt + Z.of_nat (List.length fs) < max_retries ->
    backoff_trace config max_retries attempt fs
    = weave (map fst fs) (delays config attempt (List.length fs)).
Proof.
  induction fs as [|[t e] rest IH]; intros attempt Hlt; [done|].
  cbn [List.length] in Hlt.
  cbn [backoff_trace map fst List.length delays weave].
  destruct (attempt <? max_retries - 1) eqn:Hcmp;
    [|apply Z.ltb_ge in Hcmp; lia].
  rewrite IH by lia. done.
Qed.

Lemma delays_nth (k : nat) :
  forall (attempt : Z) (i : nat),
    (i < k)%nat ->
    nth_error (delays config attempt k) i
    = Some (Configuration.RETRY_DELAY config
            * inject_Z (2 ^ (attempt + Z.of_nat i)))%Q.
Proof.
  induction k as [|k IH]; intros attempt i Hi; [lia|].
  destruct i as [|i]; cbn [delays nth_error].
  - by rewrite Z.add_0_r.
  - rewrite IH by lia.
    by replace (attempt + 1 + Z.of_nat i) with (attempt + Z.of_nat (S i))
      by lia.
Qed.

(** At most 1024 failed calls, fewer than the attempt count, then a call
    that returns. *)
Lemma _retry_request_returns_after (max_retries : option Z)
    (fs : list (list event * exn)) (w w' w'' : W) (t : list event) (a : A) :
  failing request_func w fs w' ->
  Z.of_nat (List.length fs) < or_configured config max_retries ->
  Z.of_nat (List.length fs) <= 1024 ->
  request_func w' = (t, Ok a, w'') ->
  _retry_request config request_func max_retries w
  = (weave (map fst fs) (delays config 0 (List.length fs)) ++ t, Ok a, w'').
Proof.
  intros Hfail Hlt Hfloat Hcall.
  unfold _retry_request. cbv zeta.
  rewrite (retry_loop_failing _ _ _ _ Hfail) by lia.
  destruct (Z.to_nat (or_configured config max_retries) - List.length fs)%nat
    as [|remaining] eqn:Hrem; [lia|].
  rewrite (retry_loop_returns _ _ _ _ _ _ _ _ Hcall).
  by rewrite backoff_trace_weave by lia.
Qed.

(** As many failed calls as there are attempts, at most 1025. *)
Lemma _retry_request_gives_up (max_retries : option Z)
    (fs : list (list event * exn)) (w w' : W) (t : list event) (e : exn) :
  failing request_func w fs w' ->
  Z.of_nat (List.length fs) = or_configured config max_retries ->
  or_configured config max_retries <= 1025 ->
  last fs = Some (t, e) ->
  _retry_request config request_func max_retries w
  = (backoff_trace config (or_configured config max_retries) 0 fs,
     Raise e, w').
Proof.
  intros Hfail Hlen Hfloat Hlast. unfold _retry_request. cbv zeta.
  rewrite (retry_loop_failing _ _ _ _ Hfail) by lia.
  replace (Z.to_nat (or_configured config max_retries) - List.length fs)%nat
    with 0%nat by lia.
  cbn [retry_loop]. unfold last_exception. rewrite Hlast.
  cbn [snd raise_last]. unfold raise. by rewrite app_nil_r.
Qed.

(** When attempt 1024 fails and is not the last allowed one, the delay
    cannot be computed: the call ends with [OverflowError] after 1025 calls
    and 1024 pauses. *)
Lemma _retry_request_overflows (max_retries : option Z)
    (fs : list (list event * exn)) (w w' w'' : W) (t : list event) (e : exn) :
  failing request_func w fs w' ->
  Z.of_nat (List.length fs) = 1024 ->
  request_func w' = (t, Raise e, w'') ->
  is_client_error e || is_timeout_error e = true ->
  1026 <= or_configured config max_retries ->
  _retry_request config request_func max_retries w
  = (weave (map fst fs) (delays config 0 (List.length fs)) ++ t,
     Raise (OverflowError "int too large to convert to float"), w'').
Proof.
  intros Hfail Hlen Hcall Hcls Hmany.
  unfold _retry_request. cbv zeta.
  rewrite (retry_loop_failing _ _ _ _ Hfail) by lia.
  destruct (Z.to_nat (or_configured config max_retries) - List.length fs)%nat
    as [|remaining] eqn:Hrem; [lia|].
  cbn [retry_loop]. unfold try_except. rewrite Hcall, Hcls.
  rewrite Hlen, !Z.add_0_l.
  assert ((1024 <? or_configured config max_retries - 1) = true) as ->
    by (apply Z.ltb_lt; lia).
  unfold bind, back_off, raise.
  change (1024 <? 1024) with false. cbv iota beta.
  rewrite backoff_trace_weave by lia.
  by rewrite app_nil_r.
Qed.

(** C6 (as amended).  When the first [k] calls fail with a connection
    failure or a timeout, [k] is below the configured [MAX_RETRIES] and at
    most 1024, and the next call returns, [_retry_request] makes these
    [k + 1] calls and no other, sleeps [RETRY_DELAY * 2 ** i] after failed
    attempt [i] (counted from 0) and returns what the last call returned.
    With [MAX_RETRIES = 3] and two failures the events are: first call, sleep
    [RETRY_DELAY], second call, sleep [2 * RETRY_DELAY], third call.  When
    attempts 0 to 1024 all fail and [MAX_RETRIES] is at least 1026, there is
    no further attempt: after the 1025th call [_retry_request] raises
    [OverflowError]. *)
Theorem _retry_request_backs_off_exponentially
    (fs : list (list event * exn)) (w w' w'' : W) (t : list event) (a : A)
    (e : exn) :
  failing request_func w fs w' ->
  (Z.of_nat (List.length fs) < Configuration.MAX_RETRIES config ->
   Z.of_nat (List.length fs) <= 1024 ->
   request_func w' = (t, Ok a, w'') ->
   _retry_request config request_func None w
   = (weave (map fst fs) (delays config 0 (List.length fs)) ++ t, Ok a, w'')
   /\ (forall i : nat,
         (i < List.length fs)%nat ->
         nth_error (delays config 0 (List.length fs)) i
         = Some (Configuration.RETRY_DELAY config
                 * inject_Z (2 ^ Z.of_nat i))%Q)
   /\ (Configuration.MAX_RETRIES config = 3 ->
       forall t0 e0 t1 e1,
         fs = [(t0, e0); (t1, e1)] ->
         exists d0 d1 : Q,
           _retry_request config request_func None w
           = (t0 ++ Sleep d0 :: t1 ++ Sleep d1 :: t, Ok a, w'')
           /\ (d0 == Configuration.RETRY_DELAY config)%Q
           /\ (d1 == 2 * Configuration.RETRY_DELAY config)%Q))
  /\ (1026 <= Configuration.MAX_RETRIES config ->
      Z.of_nat (List.length fs) = 1024 ->
      request_func w' = (t, Raise e, w'') ->
      is_client_error e || is_timeout_error e = true ->
      _retry_request config request_func None w
      = (weave (map fst fs) (delays config 0 (List.length fs)) ++ t,
         Raise (OverflowError "int too large to convert to float"), w'')).
Proof.
  intros Hfail. split.
  - intros Hlt Hfloat Hcall.
    assert (Hrun : _retry_request config request_func None w
                   = (weave (map fst fs) (delays config 0 (List.length fs))
                        ++ t,
                      Ok a, w'')).
    { by apply (_retry_request_returns_after None fs w w' w''). }
    split; [exact Hrun|]. split.
    + intros i Hi. by rewrite delays_nth.
    + intros _ t0 e0 t1 e1 ->. rewrite Hrun.
      eexists _, _. split.
      * cbn [map fst List.length delays weave]. rewrite <- !app_assoc.
        cbn [app]. rewrite <- !app_assoc. cbn [app]. reflexivity.
      * split; [change (2 ^ 0) with 1 | change (2 ^ (0 + 1)) with 2];
          unfold inject_Z; ring.
  - intros Hmany Hlen Hcall Hcls.
    by apply (_retry_request_overflows None fs w w' w'' t e).
Qed.

(** C10 (as amended).  With an attempt count from 1 to 1025, when that
    many calls in a row fail with a connection failure or a timeout,
    [_retry_request] makes exactly these calls and raises the exception of
    the last one.  With an attempt count of 1026 or more, the 1025th failed
    call is the last: [_retry_request] then raises [OverflowError].  The
    attempt count is the argument when one is given that is not 0, and the
    configured [MAX_RETRIES] otherwise.  [_validate] does not look at
    [MAX_RETRIES].  With an attempt count that is not positive, as with
    [MAX_RETRIES = 0], the loop body never runs, no call is made, and the
    final statement is [raise None], which Python turns into a
    [TypeError]. *)
Theorem _retry_request_needs_positive_max_retries
    (max_retries : option Z) (fs : list (list event * exn)) (w w' w'' : W)
    (t : list event) (e : exn) (n : Z) :
  let attempts := or_configured config max_retries in
  (1 <= attempts <= 1025 ->
   failing request_func w fs w' ->
   Z.of_nat (List.length fs) = attempts ->
   exists t' e',
     last fs = Some (t', e')
     /\ _retry_request config request_func max_retries w
        = (backoff_trace config attempts 0 fs, Raise e', w'))
  /\ (1026 <= attempts ->
      failing request_func w fs w' ->
      Z.of_nat (List.length fs) = 1024 ->
      request_func w' = (t, Raise e, w'') ->
      is_client_error e || is_timeout_error e = true ->
      _retry_request config request_func max_retries w
      = (weave (map fst fs) (delays config 0 (List.length fs)) ++ t,
         Raise (OverflowError "int too large to convert to float"), w''))
  /\ (n <> 0 -> or_configured config (Some n) = n)
  /\ or_configured config None = Configuration.MAX_RETRIES config
  /\ or_configured config (Some 0) = Configuration.MAX_RETRIES config
  /\ Configuration._validate (Configuration.with_MAX_RETRIES n config)
     = Configuration._validate config
  /\ (attempts <= 0 ->
      _retry_request config request_func max_retries w = raise_last None w
      /\ raise_last (A := A) None w
         = ([], Raise (TypeError "exceptions must derive from BaseException"),
            w)).
Proof.
  cbv zeta. split; [|split; [|split; [|split; [|split; [|split]]]]].
  - intros Hpos Hfail Hlen.
    destruct (last fs) as [[t' e']|] eqn:Hlast;
      [|apply last_None in Hlast; subst fs; cbn in Hlen; lia].
    exists t', e'. split; [done|].
    apply (_retry_request_gives_up max_retries fs w w' t' e'); (done || lia).
  - intros Hmany Hfail Hlen Hcall Hcls.
    by apply (_retry_request_overflows max_retries fs w w' w'' t e).
  - intros Hn. unfold or_configured.
    destruct (n =? 0) eqn:Hz; [apply Z.eqb_eq in Hz; lia | done].
  - done.
  - done.
  - done.
  - intros Hle. split; [|done]. unfold _retry_request. cbv zeta.
    by replace (Z.to_nat (or_configured config max_retries)) with 0%nat by lia.
Qed.
End RetryFacts.

Section DictFacts.

Lemma dict_get_set_eq (k : string) (v : json) (d : dict) :
  dict_get k (dict_set k v d) = Some v.
Proof.
  induction d as [|[k' v'] d IH]; cbn [dict_set dict_get].
  - by rewrite String.eqb_refl.
  - destruct (String.eqb k k') eqn:E; cbn [dict_get]; rewrite E; [done|].
    exact IH.
Qed.

Lemma dict_get_set_ne (k k0 : string) (v : json) (d : dict) :
  k <> k0 -> dict_get k0 (dict_set k v d) = dict_get k0 d.
Proof.
  intros Hne. induction d as [|[k' v'] d IH]; cbn [dict_set dict_get].
  - by apply String.eqb_neq in Hne; rewrite String.eqb_sym, Hne.
  - destruct (String.eqb k k') eqn:E; cbn [dict_get].
    + apply String.eqb_eq in E. subst k'.
      assert (String.eqb k0 k = false) as ->; [|done].
      apply String.eqb_neq. congruence.
    + by rewrite IH.
Qed.

(** Storing the value a key already has changes nothing. *)
Lemma dict_set_same (k : string) (v : json) (d : dict) :
  dict_get k d = Some v -> dict_set k v d = d.
Proof.
  induction d as [|[k' v'] d IH]; cbn [dict_set dict_get]; [done|].
  destruct (String.eqb k k') eqn:E.
  - by intros [= ->].
  - intros Hget. by rewrite IH.
Qed.

(** The keys and their order survive an assignment to a present key. *)
Lemma dict_set_keys (k : string) (v : json) (d : dict) :
  dict_mem k d = true -> map fst (dict_set k v d) = map fst d.
Proof.
  unfold dict_mem.
  induction d as [|[k' v'] d IH]; cbn [dict_set dict_get map fst]; [done|].
  destruct (String.eqb k k') eqn:E; [done|].
  intros Hmem. cbn [map fst]. by rewrite IH.
Qed.
End DictFacts.

Section ProxyFacts.
Import UpstreamAPIClient.
Context {W : Type} {HS : Session W} {J : Json}.

Lemma has_system_false (messages : list json) :
  has_system messages = Ok false ->
  List.filter is_system_message messages = [].
Proof.
  induction messages as [|msg rest IH]; [done|].
  cbn [has_system List.filter].
  destruct msg as [| | | | | |d]; try discriminate.
  unfold is_system_message at 1.
  destruct (dict_get "role" d) as [role|]; [|exact IH].
  destruct (eq_str "system" role); [discriminate | exact IH].
Qed.

Lemma has_system_true (messages : list json) :
  has_system messages = Ok true ->
  List.filter is_system_message messages <> [].
Proof.
  induction messages as [|msg rest IH]; [done|].
  cbn [has_system List.filter].
  destruct msg as [| | | | | |d]; try discriminate.
  unfold is_system_message at 1.
  destruct (dict_get "role" d) as [role|]; [|exact IH].
  destruct (eq_str "system" role); [done | exact IH].
Qed.

(** Every event of the retry loop comes from a call or is a pause. *)
Lemma retry_loop_events {A} (P : event -> Prop) (config : Configuration.t)
    (request_func : M W A) (max_retries : Z) :
  (forall w, Forall P (request_func w).1.1) ->
  (forall d, P (Sleep d)) ->
  forall (remaining : nat) (attempt : Z) (last : option exn) (w : W),
    Forall P
      (retry_loop config request_func max_retries remaining attempt last w).1.1.
Proof.
  intros Hcall Hsleep. induction remaining as [|remaining IH];
    intros attempt last w.
  - destruct last; cbn; constructor.
  - cbn [retry_loop]. unfold try_except.
    specialize (Hcall w).
    destruct (request_func w) as [[t r] w1]. cbn [fst] in Hcall.
    destruct r as [a|e]; [done|].
    destruct (is_client_error e || is_timeout_error e); [|done].
    unfold bind, back_off. specialize (IH (attempt + 1) (Some e) w1).
    destruct (attempt <? max_retries - 1);
      [destruct (attempt <? 1024)|]; unfold sleep, ret, raise;
      cbv iota beta.
    + destruct (retry_loop _ _ _ _ _ _ _) as [[t2 r2] w2].
      cbn [fst app] in *. apply Forall_app. split; [done|].
      constructor; [apply Hsleep | done].
    + cbn [fst]. by rewrite app_nil_r.
    + destruct (retry_loop _ _ _ _ _ _ _) as [[t2 r2] w2].
      cbn [fst app] in *. apply Forall_app. by split.
Qed.

(** What [proxy_chat_completion] does once the request is rewritten: the
    events are those of the retry loop, and its outcome is classified. *)
Lemma proxy_chat_completion_eq (config : Configuration.t)
    (request_data : dict) (personality : PersonalityDefinition)
    (request_id : string) (w : W) :
  proxy_chat_completion config request_data personality request_id w
  = match outbound_request config request_data personality with
    | Raise e => ([], Raise e, w)
    | Ok body =>
        let '(t, r, w') :=
          _retry_request config
            (post (chat_completions_url config) body
               (request_headers config request_id)) None w in
        let failed (e : exn) :=
          match on_failure (W := W) e with
          | Some h => (h w').1.2
          | None => Raise e
          end in
        (t,
         match r with
         | Ok response =>
             if status response >=? 400 then
               match text response with
               | Ok error_text =>
                   match error_data_of (status response) error_text with
                   | Ok error_data => Ok (None, optional error_data)
                   | Raise e => failed e
                   end
               | Raise e => failed e
               end
             else Ok (Some response, None)
         | Raise e => failed e
         end,
         w')
    end.
Proof.
  unfold proxy_chat_completion. cbv zeta.
  destruct (outbound_request config request_data personality) as [body|e];
    [|done].
  unfold try_except, bind at 1.
  destruct (_retry_request _ _ _ _) as [[t r] w'].
  assert (Hhandled : forall e h,
             on_failure (W := W) e = Some h ->
             forall w0, h w0 = ([], (h w0).1.2, w0)).
  { intros e h Hh w0. unfold on_failure in Hh.
    destruct (is_timeout_error e), (is_client_error e), (is_exception e);
      by inversion Hh. }
  assert (Hfailed : forall e,
             match on_failure (W := W) e with
             | Some h => let '(t2, r2, w2) := h w' in (t ++ t2, r2, w2)
             | None => (t, Raise e, w')
             end
             = (t,
                match on_failure (W := W) e with
                | Some h => (h w').1.2
                | None => Raise e
                end,
                w')).
  { intros e. destruct (on_failure e) as [h|] eqn:Hh; [|done].
    rewrite (Hhandled e h Hh w'). cbn [fst snd]. by rewrite app_nil_r. }
  destruct r as [response|e]; [|apply Hfailed].
  destruct (status response >=? 400).
  - unfold bind, await_text, lift, ret.
    destruct (text response) as [error_text|e].
    + destruct (error_data_of (status response) error_text) as [error_data|e].
      * by rewrite !app_nil_r.
      * rewrite !app_nil_r. apply Hfailed.
    + rewrite app_nil_r. apply Hfailed.
  - unfold ret. by rewrite app_nil_r.
Qed.

Lemma proxy_chat_completion_trace (config : Configuration.t)
    (request_data : dict) (personality : PersonalityDefinition)
    (request_id : string) (w : W) :
  (proxy_chat_completion config request_data personality request_id w).1.1
  = match outbound_request config request_data personality with
    | Raise e => []
    | Ok body =>
        (_retry_request config
           (post (chat_completions_url config) body
              (request_headers config request_id)) None w).1.1
    end.
Proof.
  rewrite proxy_chat_completion_eq.
  destruct (outbound_request config request_data personality) as [body|e];
    [|done].
  by destruct (_retry_request _ _ _ _) as [[t r] w'].
Qed.

(** Whatever [proxy_chat_completion] posts is the rewritten request. *)
Lemma proxy_chat_completion_posts (config : Configuration.t)
    (request_data : dict) (personality : PersonalityDefinition)
    (request_id : string) (w : W) :
  Forall (fun ev =>
            match ev with
            | Post url body headers =>
                url = chat_completions_url config
                /\ outbound_request config request_data personality = Ok body
                /\ headers = request_headers config request_id
            | Sleep _ => True
            end)
    (proxy_chat_completion config request_data personality request_id w).1.1.
Proof.
  rewrite proxy_chat_completion_trace.
  destruct (outbound_request config request_data personality) as [body|e];
    [|constructor].
  unfold _retry_request. cbv zeta.
  apply (retry_loop_events
           (fun ev =>
              match ev with
              | Post url b headers =>
                  url = chat_completions_url config
                  /\ Ok (A := dict) body = Ok b
                  /\ headers = request_headers config request_id
              | Sleep _ => True
              end)); [|done].
  intros w0. unfold post.
  destruct (session_post _ _ _ w0). cbn. by repeat constructor.
Qed.

Lemma outbound_request_model (config : Configuration.t) (request_data : dict)
    (personality : PersonalityDefinition) (body : dict) :
  outbound_request config request_data personality = Ok body ->
  dict_get "model" body
  = Some (JStr (Configuration.UPSTREAM_MODEL_NAME config)).
Proof.
  unfold outbound_request. cbv zeta.
  destruct (default _ _) as [| | | | |messages|]; try discriminate.
  destruct (has_system messages) as [[|]|]; intros [= <-];
    by rewrite dict_get_set_ne, dict_get_set_eq.
Qed.

(** C1.  Let [messages] be the caller's message list ([[]] when the
    request has none).  If no message has role [system], the posted list is
    [messages] with one message in front, whose role is [system] and whose
    content is the persona's [system_prompt], and that is its only system
    message.  If some message has role [system], the posted request is the
    caller's with only [model] replaced, messages included.  So the posted
    list is the caller's own when it had a system message and the
    persona's message followed by the caller's list when it had none:
    never both instructions.  Every request [proxy_chat_completion] posts
    is the request so rewritten. *)
Theorem proxy_chat_completion_injects_persona_if_absent
    (config : Configuration.t) (request_data : dict)
    (personality : PersonalityDefinition) (request_id : string)
    (messages : list json) (w : W) :
  default (JArr []) (dict_get "messages" request_data) = JArr messages ->
  let persona_message :=
    JObj [("role", JStr "system");
          ("content", JStr (system_prompt personality))] in
  let renamed :=
    dict_set "model" (JStr (Configuration.UPSTREAM_MODEL_NAME config))
      request_data in
  (has_system messages = Ok false ->
   outbound_request config request_data personality
   = Ok (dict_set "messages" (JArr (persona_message :: messages)) renamed)
   /\ List.filter is_system_message (persona_message :: messages)
      = [persona_message])
  /\ (has_system messages = Ok true ->
      outbound_request config request_data personality = Ok renamed
      /\ dict_get "messages" renamed = Some (JArr messages))
  /\ (forall body,
        outbound_request config request_data personality = Ok body ->
        dict_get "messages" body = Some (JArr messages)
        /\ has_system messages = Ok true
        \/ dict_get "messages" body
           = Some (JArr (persona_message :: messages))
           /\ has_system messages = Ok false)
  /\ Forall (fun ev =>
               match ev with
               | Post _ body _ =>
                   outbound_request config request_data personality = Ok body
               | Sleep _ => True
               end)
       (proxy_chat_completion config request_data personality request_id w).1.1.
Proof.
  intros Hmsgs persona_message renamed.
  assert (Hren : default (JArr []) (dict_get "messages" renamed)
                 = JArr messages).
  { unfold renamed. by rewrite dict_get_set_ne. }
  assert (Hout : outbound_request config request_data personality
                 = match has_system messages with
                   | Ok true => Ok (dict_set "messages" (JArr messages) renamed)
                   | Ok false =>
                       Ok (dict_set "messages"
                             (JArr (persona_message :: messages)) renamed)
                   | Raise e => Raise e
                   end).
  { unfold outbound_request. cbv zeta. fold renamed. by rewrite Hren. }
  assert (Hkept : has_system messages = Ok true ->
                  dict_get "messages" renamed = Some (JArr messages)).
  { intros Hsys. destruct (dict_get "messages" renamed) as [v|]; cbn in Hren.
    - by subst v.
    - injection Hren as <-. discriminate Hsys. }
  split; [|split; [|split]].
  - intros Hnone. rewrite Hout, Hnone. split; [done|].
    cbn [List.filter]. rewrite (has_system_false _ Hnone). done.
  - intros Hsys. rewrite Hout, Hsys. split; [|by apply Hkept].
    by rewrite dict_set_same by (by apply Hkept).
  - intros body. rewrite Hout.
    destruct (has_system messages) as [[|]|]; intros [= <-];
      rewrite dict_get_set_eq; [left | right]; done.
  - eapply Forall_impl; [apply proxy_chat_completion_posts|].
    intros [url body headers|d]; [|done]. cbv beta. tauto.
Qed.

(** C2.  Whatever model the caller named, the rewritten request has the
    configured [UPSTREAM_MODEL_NAME] as its [model], and so has the body of
    every request [proxy_chat_completion] posts. *)
Theorem proxy_chat_completion_posts_upstream_model
    (config : Configuration.t) (request_data : dict)
    (personality : PersonalityDefinition) (request_id : string) (w : W) :
  (forall body,
     outbound_request config request_data personality = Ok body ->
     dict_get "model" body
     = Some (JStr (Configuration.UPSTREAM_MODEL_NAME config)))
  /\ Forall (fun ev =>
               match ev with
               | Post _ body _ =>
                   dict_get "model" body
                   = Some (JStr (Configuration.UPSTREAM_MODEL_NAME config))
               | Sleep _ => True
               end)
       (proxy_chat_completion config request_data personality request_id w).1.1.
Proof.
  split; [apply outbound_request_model|].
  eapply Forall_impl; [apply proxy_chat_completion_posts|].
  intros [url body headers|d]; [|done]. cbv beta.
  intros (_ & Hbody & _). by apply outbound_request_model in Hbody.
Qed.

(** The outcome of [proxy_chat_completion] when a call, after at most 1024
    failed ones that were retried, returns a response whose status is at
    least 400 and whose body can be read. *)
Lemma proxy_chat_completion_error_status
    (config : Configuration.t) (request_data : dict)
    (personality : PersonalityDefinition) (request_id : string)
    (body : dict) (fs : list (list event * exn)) (w w1 w' : W)
    (response : ClientResponse) (error_text : string) :
  let url := chat_completions_url config in
  let headers := request_headers config request_id in
  outbound_request config request_data personality = Ok body ->
  failing (post url body headers) w fs w1 ->
  Z.of_nat (List.length fs) < Configuration.MAX_RETRIES config ->
  Z.of_nat (List.length fs) <= 1024 ->
  session_post url body headers w1 = (Ok response, w') ->
  400 <= status response ->
  text response = Ok error_text ->
  proxy_chat_completion config request_data personality request_id w
  = (weave (map fst fs) (delays config 0 (List.length fs))
       ++ [Post url body headers],
     match error_data_of (status response) error_text with
     | Ok error_data => Ok (None, optional error_data)
     | Raise e =>
         Ok (None,
             Some (error_envelope ("Unexpected error: " +:+ str_of_exn e)
                     "internal_error" 500))
     end,
     w').
Proof.
  intros url headers Hbody Hfail Hlt Hfloat Hpost Hstatus Htext.
  rewrite proxy_chat_completion_eq, Hbody. fold url headers.
  rewrite (_retry_request_returns_after config (post url body headers) None
             fs w w1 w' [Post url body headers] response Hfail Hlt Hfloat);
    [|unfold post; by rewrite Hpost].
  assert ((status response >=? 400) = true) as -> by (apply Z.geb_le; lia).
  rewrite Htext. unfold error_data_of.
  by destruct (json_loads error_text).
Qed.

End ProxyFacts.

Section StringFacts.

Lemma lstrip_by_split (p : ascii -> bool) (s : string) :
  exists leading,
    s = leading +:+ lstrip_by p s /\ all_chars p leading = true.
Proof.
  induction s as [|c s (leading & Heq & Hall)].
  - by exists EmptyString.
  - cbn [lstrip_by]. destruct (p c) eqn:Hc.
    + exists (String c leading). split.
      * change (String c s = String c (leading +:+ lstrip_by p s)).
        by rewrite <- Heq.
      * cbn [all_chars]. by rewrite Hc, Hall.
    + by exists EmptyString.
Qed.

Lemma rstrip_by_split (p : ascii -> bool) (s : string) :
  exists trailing,
    s = rstrip_by p s +:+ trailing /\ all_chars p trailing = true.
Proof.
  induction s as [|c s (trailing & Heq & Hall)].
  - by exists EmptyString.
  - cbn [rstrip_by]. destruct (rstrip_by p s) as [|c' kept] eqn:Hkept.
    + change (s = trailing) in Heq. subst trailing.
      destruct (p c) eqn:Hc.
      * exists (String c s). split; [done|].
        cbn [all_chars]. by rewrite Hc, Hall.
      * by exists s.
    + exists trailing. split; [|done].
      change (String c s = String c (String c' kept +:+ trailing)).
      by rewrite <- Heq.
Qed.

(** [strip] removes white space at the two ends and nothing else. *)
Lemma strip_split (s : string) :
  exists leading trailing,
    s = leading +:+ strip s +:+ trailing
    /\ all_chars isspace leading = true
    /\ all_chars isspace trailing = true.
Proof.
  destruct (lstrip_by_split isspace s) as (leading & Hl & Hlead).
  destruct (rstrip_by_split isspace (lstrip_by isspace s))
    as (trailing & Hr & Htrail).
  exists leading, trailing. unfold strip. by rewrite <- Hr, <- Hl.
Qed.

Lemma startswith_nonempty (p s : string) :
  is_empty p = false -> startswith p s = true -> is_empty s = false.
Proof. by destruct p, s. Qed.
End StringFacts.

Section StreamFacts.
Import StreamProcessor.
Context {J : Json} {U : Utf8}.

Lemma process_stream_cons (line : string) (rest : list string)
    (last : stream_end) (requested_model_id : string) :
  continues (process_line requested_model_id line) = true ->
  process_stream (line :: rest) last requested_model_id
  = (yielded (process_line requested_model_id line)
       ++ (process_stream rest last requested_model_id).1,
     (process_stream rest last requested_model_id).2).
Proof.
  cbn [process_stream].
  destruct (process_line requested_model_id line); try discriminate;
    intros _; by destruct (process_stream rest last requested_model_id).
Qed.

(** Lines after which the loop goes on contribute their frames, in order. *)
Lemma process_stream_prefix (pre rest : list string) (last : stream_end)
    (requested_model_id : string) :
  Forall (fun l => continues (process_line requested_model_id l) = true) pre ->
  process_stream (pre ++ rest) last requested_model_id
  = (flat_map (fun l => yielded (process_line requested_model_id l)) pre
       ++ (process_stream rest last requested_model_id).1,
     (process_stream rest last requested_model_id).2).
Proof.
  induction 1 as [|line pre Hline _ IH].
  - cbn. by destruct (process_stream rest last requested_model_id).
  - rewrite <- app_comm_cons, process_stream_cons by done.
    rewrite IH. cbn [fst snd flat_map]. by rewrite <- app_assoc.
Qed.

(** The body of the loop for a data line. *)
Lemma process_line_data (requested_model_id line decoded : string) :
  is_empty line = false ->
  utf8_decode line = inl decoded ->
  startswith "data: " (strip decoded) = true ->
  let payload := strip (drop_str 6 (strip decoded)) in
  process_line requested_model_id line
  = if String.eqb payload "[DONE]" then YieldBreak done_frame
    else match json_loads payload with
         | Loaded chunk_data =>
             match rewrite_chunk requested_model_id chunk_data with
             | Ok rewritten => Yield (data_frame false rewritten)
             | Raise e => Raises e
             end
         | JSONDecodeError _ => Yield (strip decoded +:+ LF +:+ LF)
         | LoadsValueError msg => Raises (ValueError msg)
         | LoadsRecursionError msg => Raises (RecursionError msg)
         end.
Proof.
  intros Hline Hdec Hdata. unfold process_line. rewrite Hline, Hdec. cbv zeta.
  by rewrite (startswith_nonempty "data: " _ eq_refl Hdata), Hdata.
Qed.

(** Only the sentinel makes the loop [break]. *)
Lemma process_line_break (requested_model_id line frame : string) :
  process_line requested_model_id line = YieldBreak frame ->
  frame = done_frame.
Proof.
  unfold process_line. destruct (is_empty line); [discriminate|].
  destruct (utf8_decode line) as [decoded|msg]; [|discriminate]. cbv zeta.
  destruct (is_empty (strip decoded)); [discriminate|].
  destruct (startswith _ _); [|discriminate].
  destruct (String.eqb _ _); [by intros [= <-]|].
  destruct (json_loads _) as [chunk|msg|msg|msg]; try discriminate.
  by destruct (rewrite_chunk _ chunk).
Qed.

(** What the loop body raises is an [Exception], never a cancellation. *)
Lemma process_line_raises (requested_model_id line : string) (e : exn) :
  process_line requested_model_id line = Raises e -> is_exception e = true.
Proof.
  unfold process_line. destruct (is_empty line); [discriminate|].
  destruct (utf8_decode line) as [decoded|msg]; [|by intros [= <-]].
  cbv zeta.
  destruct (is_empty (strip decoded)); [discriminate|].
  destruct (startswith _ _); [|discriminate].
  destruct (String.eqb _ _); [discriminate|].
  destruct (json_loads _) as [chunk|msg|msg|msg];
    [|discriminate|by intros [= <-]|by intros [= <-]].
  destruct (rewrite_chunk _ chunk) as [rewritten|e'] eqn:Hrw; [discriminate|].
  intros [= ->]. unfold rewrite_chunk in Hrw.
  destruct chunk as [| | | |str|l|d]; try (by injection Hrw as <-).
  - destruct (str_contains _ _); [by injection Hrw as <- | discriminate].
  - destruct (existsb _ _); [by injection Hrw as <- | discriminate].
  - discriminate.
Qed.

(** A line on which the loop body raises ends the stream with one error
    frame. *)
Lemma process_stream_raises (requested_model_id line : string)
    (pre rest : list string) (last : stream_end) (e : exn) :
  Forall (fun l => continues (process_line requested_model_id l) = true) pre ->
  process_line requested_model_id line = Raises e ->
  process_stream (pre ++ line :: rest) last requested_model_id
  = (flat_map (fun l => yielded (process_line requested_model_id l)) pre
       ++ [data_frame true (error_chunk e)],
     Finished).
Proof.
  intros Hpre Hstep. rewrite process_stream_prefix by done.
  cbn [process_stream]. rewrite Hstep.
  pose proof (process_line_raises _ _ _ Hstep) as He.
  unfold on_exception. by rewrite He.
Qed.

(** C8 (as amended).  A data line that decodes, whose payload is not the
    sentinel and makes [json.loads] raise [JSONDecodeError], is yielded as a
    frame: the text of the line, without the white space at its two ends,
    followed by the blank line that ends a frame.  The frame takes its place
    among the frames of the stream and the loop goes on with the next line.
    A payload on which [json.loads] raises another exception, and a line
    that does not decode, are not forwarded: the frames of the lines before
    are followed by one [stream_error] frame that quotes the exception, and
    the stream ends there. *)
Theorem process_stream_forwards_unparsed_line
    (requested_model_id line : string) (pre rest : list string)
    (last : stream_end) :
  is_empty line = false ->
  Forall (fun l => continues (process_line requested_model_id l) = true) pre ->
  let before :=
    flat_map (fun l => yielded (process_line requested_model_id l)) pre in
  let error_frame (message : string) :=
    "data: "
      +:+ json_dumps true
            (JObj [("error",
                    JObj [("message",
                           JStr ("Stream processing error: " +:+ message));
                          ("type", JStr "stream_error")])])
      +:+ LF +:+ LF in
  (forall decoded : string,
     utf8_decode line = inl decoded ->
     startswith "data: " (strip decoded) = true ->
     let payload := strip (drop_str 6 (strip decoded)) in
     payload <> "[DONE]" ->
     (forall msg : string,
        json_loads payload = JSONDecodeError msg ->
        process_line requested_model_id line
        = Yield (strip decoded +:+ LF +:+ LF)
        /\ (exists leading trailing,
              decoded = leading +:+ strip decoded +:+ trailing
              /\ all_chars isspace leading = true
              /\ all_chars isspace trailing = true)
        /\ process_stream (pre ++ line :: rest) last requested_model_id
           = (before ++ (strip decoded +:+ LF +:+ LF)
                :: (process_stream rest last requested_model_id).1,
              (process_stream rest last requested_model_id).2))
     /\ (forall msg : string,
           json_loads payload = LoadsValueError msg
           \/ json_loads payload = LoadsRecursionError msg ->
           process_stream (pre ++ line :: rest) last requested_model_id
           = (before ++ [error_frame msg], Finished)))
  /\ (forall msg : string,
        utf8_decode line = inr msg ->
        process_stream (pre ++ line :: rest) last requested_model_id
        = (before ++ [error_frame msg], Finished)).
Proof.
  intros Hline Hpre before error_frame. split.
  - intros decoded Hdec Hdata payload Hnot.
    pose proof (process_line_data requested_model_id line decoded
                  Hline Hdec Hdata) as Hbody.
    cbv zeta in Hbody. fold payload in Hbody.
    apply String.eqb_neq in Hnot. rewrite Hnot in Hbody. split.
    + intros msg Hjson. rewrite Hjson in Hbody.
      split; [exact Hbody|]. split; [apply strip_split|].
      rewrite process_stream_prefix by done.
      rewrite process_stream_cons by (by rewrite Hbody).
      by rewrite Hbody.
    + intros msg [Hjson|Hjson]; rewrite Hjson in Hbody.
      * by rewrite (process_stream_raises _ _ _ _ _ (ValueError msg)).
      * by rewrite (process_stream_raises _ _ _ _ _ (RecursionError msg)).
  - intros msg Hdec.
    rewrite (process_stream_raises _ _ _ _ _ (UnicodeDecodeError msg));
      [done | done |].
    unfold process_line. by rewrite Hline, Hdec.
Qed.

(** C3.  For a line that, decoded and stripped, begins with the data
    prefix: if its payload is not the sentinel and parses as a JSON object
    with a [model] member, the frame yielded for it is the data prefix, the
    serialised object with [model] set to the requested model id and every
    other member and the order of members as they were, and a blank line;
    the loop then goes on.  If its payload is the sentinel, the frame is
    the sentinel data line and it is the last frame: nothing of the rest
    of the upstream body is read or yielded. *)
Theorem process_stream_rewrites_model_until_done
    (requested_model_id line decoded : string) (pre rest : list string)
    (last : stream_end) :
  is_empty line = false ->
  utf8_decode line = inl decoded ->
  startswith "data: " (strip decoded) = true ->
  Forall (fun l => continues (process_line requested_model_id l) = true) pre ->
  let payload := strip (drop_str 6 (strip decoded)) in
  let before :=
    flat_map (fun l => yielded (process_line requested_model_id l)) pre in
  (forall d : dict,
     payload <> "[DONE]" ->
     json_loads payload = Loaded (JObj d) ->
     dict_mem "model" d = true ->
     let rewritten := dict_set "model" (JStr requested_model_id) d in
     let frame := "data: " +:+ json_dumps false (JObj rewritten) +:+ LF +:+ LF in
     process_line requested_model_id line = Yield frame
     /\ dict_get "model" rewritten = Some (JStr requested_model_id)
     /\ (forall k, k <> "model" -> dict_get k rewritten = dict_get k d)
     /\ map fst rewritten = map fst d
     /\ process_stream (pre ++ line :: rest) last requested_model_id
        = (before ++ frame :: (process_stream rest last requested_model_id).1,
           (process_stream rest last requested_model_id).2))
  /\ (payload = "[DONE]" ->
      process_line requested_model_id line
      = YieldBreak ("data: [DONE]" +:+ LF +:+ LF)
      /\ process_stream (pre ++ line :: rest) last requested_model_id
         = (before ++ ["data: [DONE]" +:+ LF +:+ LF], Finished)).
Proof.
  intros Hline Hdec Hdata Hpre payload before.
  pose proof (process_line_data requested_model_id line decoded
                Hline Hdec Hdata) as Hbody.
  cbv zeta in Hbody. fold payload in Hbody.
  split.
  - intros d Hnot Hjson Hmem rewritten frame.
    assert (Hstep : process_line requested_model_id line = Yield frame).
    { rewrite Hbody. apply String.eqb_neq in Hnot. rewrite Hnot, Hjson.
      cbn [rewrite_chunk]. by rewrite Hmem. }
    split; [exact Hstep|]. split; [apply dict_get_set_eq|].
    split; [intros k Hk; by apply dict_get_set_ne|].
    split; [by apply dict_set_keys|].
    rewrite process_stream_prefix by done.
    rewrite process_stream_cons by (by rewrite Hstep).
    by rewrite Hstep.
  - intros Hdone.
    assert (Hstep : process_line requested_model_id line
                    = YieldBreak done_frame).
    { rewrite Hbody. by rewrite Hdone. }
    split; [exact Hstep|].
    rewrite process_stream_prefix by done.
    cbn [process_stream]. by rewrite Hstep.
Qed.

(** C7 (as amended).  When the upstream body raises an exception other
    than a cancellation, the frames of the lines read so far are followed
    by exactly one more frame, the data prefix with the serialised
    [{error: {message: "Stream processing error: " + str(e), type:
    stream_error}}] and a blank line, and the generator ends; the envelope
    has no [code] member.  Whatever the lines were, the last frame the
    consumer receives in such a run is the sentinel frame or an error frame
    of this form. *)
Theorem process_stream_ends_with_error_frame
    (requested_model_id : string) (lines : list string) (e : exn) :
  is_exception e = true ->
  let error_frame (e' : exn) :=
    "data: "
      +:+ json_dumps true
            (JObj [("error",
                    JObj [("message",
                           JStr ("Stream processing error: "
                                 +:+ str_of_exn e'));
                          ("type", JStr "stream_error")])])
      +:+ LF +:+ LF in
  (Forall (fun l => continues (process_line requested_model_id l) = true)
     lines ->
   process_stream lines (Broken e) requested_model_id
   = (flat_map (fun l => yielded (process_line requested_model_id l)) lines
        ++ [error_frame e],
      Finished))
  /\ (exists frames final,
        process_stream lines (Broken e) requested_model_id
        = (frames ++ [final], Finished)
        /\ (final = "data: [DONE]" +:+ LF +:+ LF
            \/ exists e', is_exception e' = true /\ final = error_frame e')).
Proof.
  intros He error_frame.
  assert (Hexc : forall e', is_exception e' = true ->
                   on_exception e' = ([error_frame e'], Finished)).
  { intros e' He'. unfold on_exception. by rewrite He'. }
  split.
  - intros Hall.
    rewrite <- (app_nil_r lines) at 1.
    rewrite process_stream_prefix by done.
    cbn [process_stream]. by rewrite Hexc.
  - induction lines as [|line rest (frames & final & Hrun & Hfinal)].
    + exists [], (error_frame e). cbn [process_stream app].
      split; [by apply Hexc|]. right. by exists e.
    + cbn [process_stream].
      destruct (process_line requested_model_id line) as [|f|f|e'] eqn:Hstep.
      * by exists frames, final.
      * exists (f :: frames), final. by rewrite Hrun.
      * exists [], f. split; [done|]. left.
        by apply process_line_break in Hstep.
      * apply process_line_raises in Hstep.
        exists [], (error_frame e'). split; [by apply Hexc|].
        right. by exists e'.
Qed.

(** A cancellation is passed on and yields no frame of its own. *)
Lemma process_stream_cancelled (requested_model_id : string)
    (lines : list string) :
  Forall (fun l => continues (process_line requested_model_id l) = true)
    lines ->
  process_stream lines (Broken CancelledError) requested_model_id
  = (flat_map (fun l => yielded (process_line requested_model_id l)) lines,
     Propagated CancelledError).
Proof.
  intros Hall. rewrite <- (app_nil_r lines) at 1.
  rewrite process_stream_prefix by done.
  cbn. by rewrite app_nil_r.
Qed.
End StreamFacts.

(** ** The theorems on sample runs *)

Section SampleRuns.
Import UpstreamAPIClient StreamProcessor Sample.


Lemma _retry_request_backs_off_exponentially_witness :
  let call := Post "u" [] [] in
  _retry_request (config 3) (post (HS := scripted) "u" [] []) None
    [Raise (ClientError "Connection reset"); Raise (TimeoutError "timed out");
     Ok ok_response]
  = ([call; Sleep (1 * inject_Z (2 ^ 0)); call; Sleep (1 * inject_Z (2 ^ 1));
      call],
     Ok ok_response, [])
  /\ exists d0 d1 : Q,
       _retry_request (config 3) (post (HS := scripted) "u" [] []) None
         [Raise (ClientError "Connection reset");
          Raise (TimeoutError "timed out"); Ok ok_response]
       = ([call] ++ Sleep d0 :: [call] ++ Sleep d1 :: [call],
          Ok ok_response, [])
       /\ (d0 == 1)%Q /\ (d1 == 2 * 1)%Q.
Proof.
  intros call.
  destruct (_retry_request_backs_off_exponentially
              (config 3) (post (HS := scripted) "u" [] [])
              [([call], ClientError "Connection reset");
               ([call], TimeoutError "timed out")]
              [Raise (ClientError "Connection reset");
               Raise (TimeoutError "timed out"); Ok ok_response]
              [Ok ok_response] [] [call] ok_response CancelledError)
    as (Hreturns & _).
  - eapply failing_cons; [reflexivity | reflexivity |].
    eapply failing_cons; [reflexivity | reflexivity |].
    apply failing_nil.
  - destruct Hreturns as (Hrun & _ & Hthree).
    + reflexivity.
    + vm_compute. discriminate.
    + reflexivity.
    + split; [exact Hrun|].
      exact (Hthree eq_refl _ _ _ _ eq_refl).
Defined.

(** C6 as stated fails when more than 1025 attempts are configured.  With
    [MAX_RETRIES = 1026] and a transport that refuses every connection,
    failed attempt 1024 is not followed by a pause of
    [RETRY_DELAY * 2 ** 1024] and one more attempt: the call ends with
    [OverflowError] after 1025 posts and 1024 pauses. *)
Lemma _retry_request_stops_retrying_at_attempt_1024 :
  let run :=
    _retry_request (config 1026) (post (HS := scripted) "u" [] []) None [] in
  run.1.2 = Raise (OverflowError "int too large to convert to float")
  /\ Trace.posts run.1.1 = 1025%nat
  /\ List.length (Trace.sleeps run.1.1) = 1024%nat
  /\ Z.of_nat (Trace.posts run.1.1) < Configuration.MAX_RETRIES (config 1026).
Proof. vm_compute. repeat split. Qed.

Lemma _retry_request_needs_positive_max_retries_witness :
  let call := Post "u" [] [] in
  (exists t e,
     last [([call], ClientError "Connection reset");
           ([call], TimeoutError "timed out")] = Some (t, e)
     /\ _retry_request (config 2) (post (HS := scripted) "u" [] []) None
          [Raise (ClientError "Connection reset");
           Raise (TimeoutError "timed out"); Ok ok_response]
        = ([call; Sleep (1 * inject_Z (2 ^ 0)); call], Raise e,
           [Ok ok_response]))
  /\ or_configured (config 3) (Some 5) = 5
  /\ Configuration._validate (config 0) = Ok tt
  /\ _retry_request (config 0) (post (HS := scripted) "u" [] []) None
       [Ok ok_response]
     = ([], Raise (TypeError "exceptions must derive from BaseException"),
        [Ok ok_response]).
Proof.
  intros call. split; [|split; [|split]].
  - destruct (_retry_request_needs_positive_max_retries
                (config 2) (post (HS := scripted) "u" [] []) None
                [([call], ClientError "Connection reset");
                 ([call], TimeoutError "timed out")]
                [Raise (ClientError "Connection reset");
                 Raise (TimeoutError "timed out"); Ok ok_response]
                [Ok ok_response] [] [] CancelledError 0) as (Hall & _).
    apply Hall.
    + vm_compute. split; discriminate.
    + eapply failing_cons; [reflexivity | reflexivity |].
      eapply failing_cons; [reflexivity | reflexivity |].
      apply failing_nil.
    + reflexivity.
  - destruct (_retry_request_needs_positive_max_retries
                (A := ClientResponse)
                (config 3) (post (HS := scripted) "u" [] []) None
                [] [] [] [] [] CancelledError 5) as (_ & _ & Hgiven & _).
    apply Hgiven. discriminate.
  - destruct (_retry_request_needs_positive_max_retries
                (A := ClientResponse)
                (config 3) (post (HS := scripted) "u" [] []) None
                [] [] [] [] [] CancelledError 0)
      as (_ & _ & _ & _ & _ & Hvalid & _).
    change (Configuration._validate
              (Configuration.with_MAX_RETRIES 0 (config 3)) = Ok tt).
    rewrite Hvalid. reflexivity.
  - destruct (_retry_request_needs_positive_max_retries
                (config 0) (post (HS := scripted) "u" [] []) None
                [] [Ok ok_response] [Ok ok_response] [] [] CancelledError 0)
      as (_ & _ & _ & _ & _ & _ & Hzero).
    destruct Hzero as [Hrun Hraise]; [vm_compute; discriminate|].
    rewrite Hrun. exact Hraise.
Defined.

(** C10 as stated fails for an attempt count above 1025.  Asked for 2000
    attempts of a transport that refuses every connection,
    [_retry_request] makes 1025 calls, not 2000, and raises [OverflowError],
    not the [ClientError] of the last call. *)
Lemma _retry_request_raises_overflow_not_the_last_exception :
  let run :=
    _retry_request (config 3) (post (HS := scripted) "u" [] []) (Some 2000)
      [] in
  run.1.2 = Raise (OverflowError "int too large to convert to float")
  /\ Trace.posts run.1.1 = 1025%nat
  /\ run.1.2 <> Raise (ClientError "Connection refused")
  /\ (post (HS := scripted) "u" [] [] []).1.2
     = Raise (ClientError "Connection refused").
Proof.
  cbv zeta. split; [vm_compute; reflexivity|].
  split; [vm_compute; reflexivity|]. split; [|reflexivity].
  vm_compute. discriminate.
Qed.

Lemma proxy_chat_completion_injects_persona_if_absent_witness :
  outbound_request (config 3) chat_request persona = Ok outbound
  /\ outbound_request (config 3) chat_request_with_system persona
     = Ok [("model", JStr "promptshield/gemini-flash-lite-latest");
           ("messages", JArr [caller_system; user_message])].
Proof.
  split.
  - destruct (proxy_chat_completion_injects_persona_if_absent
                (HS := scripted) (J := sample_json)
                (config 3) chat_request persona "req-1" [user_message] []
                eq_refl) as (Habsent & _).
    exact (proj1 (Habsent eq_refl)).
  - destruct (proxy_chat_completion_injects_persona_if_absent
                (HS := scripted) (J := sample_json)
                (config 3) chat_request_with_system persona "req-1"
                [caller_system; user_message] [] eq_refl)
      as (_ & Hpresent & _).
    exact (proj1 (Hpresent eq_refl)).
Defined.

Lemma proxy_chat_completion_posts_upstream_model_witness :
  dict_get "model"
    [("model", JStr "promptshield/gemini-flash-lite-latest");
     ("messages", JArr [caller_system; user_message])]
  = Some (JStr "promptshield/gemini-flash-lite-latest").
Proof.
  apply (proj1 (proxy_chat_completion_posts_upstream_model
                  (HS := scripted) (J := sample_json)
                  (config 3) chat_request_with_system persona "req-1" [])).
  reflexivity.
Defined.



Lemma process_stream_rewrites_model_until_done_witness :
  process_line (J := sample_json) (U := ascii_utf8) "socrates" chunk_line
  = Yield ("data: "
           +:+ dumps (JObj [("id", JStr "chatcmpl-1");
                            ("model", JStr "socrates");
                            ("choices", JArr [])])
           +:+ LF +:+ LF)
  /\ process_stream (J := sample_json) (U := ascii_utf8)
       [chunk_line; done_line; chunk_line] (Broken (ClientError "reset"))
       "socrates"
     = ([data_frame (J := sample_json) false
           (JObj [("id", JStr "chatcmpl-1"); ("model", JStr "socrates");
                  ("choices", JArr [])]);
         "data: [DONE]" +:+ LF +:+ LF],
        Finished).
Proof.
  split.
  - destruct (process_stream_rewrites_model_until_done
                (J := sample_json) (U := ascii_utf8)
                "socrates" chunk_line chunk_line [] [] EndOfStream
                eq_refl eq_refl eq_refl (List.Forall_nil _)) as (Hchunk & _).
    refine (proj1 (Hchunk _ _ eq_refl eq_refl)).
    vm_compute. discriminate.
  - destruct (process_stream_rewrites_model_until_done
                (J := sample_json) (U := ascii_utf8)
                "socrates" done_line done_line [chunk_line] [chunk_line]
                (Broken (ClientError "reset"))
                eq_refl eq_refl eq_refl) as (_ & Hdone).
    + repeat constructor.
    + exact (proj2 (Hdone eq_refl)).
Defined.

Lemma process_stream_ends_with_error_frame_witness :
  process_stream (J := sample_json) (U := ascii_utf8)
    [chunk_line] (Broken (ClientError "Connection reset by peer")) "socrates"
  = ([data_frame (J := sample_json) false
        (JObj [("id", JStr "chatcmpl-1"); ("model", JStr "socrates");
               ("choices", JArr [])]);
      "data: "
        +:+ dumps
              (JObj [("error",
                      JObj [("message",
                             JStr "Stream processing error: Connection reset by peer");
                            ("type", JStr "stream_error")])])
        +:+ LF +:+ LF],
     Finished).
Proof.
  destruct (process_stream_ends_with_error_frame
              (J := sample_json) (U := ascii_utf8)
              "socrates" [chunk_line]
              (ClientError "Connection reset by peer") eq_refl)
    as (Hrun & _).
  apply Hrun. repeat constructor.
Defined.

(** C7 as stated fails: the frame that reports a broken upstream body
    carries [{error: {message, type}}], and no choice of message, type and
    code makes that the three-member envelope of the other error paths. *)
Lemma process_stream_error_frame_has_no_code :
  let e := ClientError "Connection reset by peer" in
  process_stream (J := sample_json) (U := ascii_utf8) [] (Broken e) "socrates"
  = ([data_frame (J := sample_json) true (error_chunk e)], Finished)
  /\ error_chunk e
     = JObj [("error",
              JObj [("message",
                     JStr "Stream processing error: Connection reset by peer");
                    ("type", JStr "stream_error")])]
  /\ dict_get "code"
       [("message", JStr "Stream processing error: Connection reset by peer");
        ("type", JStr "stream_error")]
     = None
  /\ ~ (exists message type code,
          error_chunk e = error_envelope message type code).
Proof.
  intros e. split; [reflexivity|]. split; [reflexivity|].
  split; [reflexivity|].
  intros (message & type & code & Heq). discriminate Heq.
Qed.

Lemma process_stream_forwards_unparsed_line_witness :
  process_stream (J := sample_json) (U := ascii_utf8)
    [chunk_line; malformed_line; done_line] EndOfStream "socrates"
  = ([data_frame (J := sample_json) false
        (JObj [("id", JStr "chatcmpl-1"); ("model", JStr "socrates");
               ("choices", JArr [])]);
      "data: {not json" +:+ LF +:+ LF;
      "data: [DONE]" +:+ LF +:+ LF],
     Finished).
Proof.
  destruct (process_stream_forwards_unparsed_line
              (J := sample_json) (U := ascii_utf8)
              "socrates" malformed_line [chunk_line] [done_line] EndOfStream
              eq_refl)
    as (Hdata & _).
  - repeat constructor.
  - destruct (Hdata malformed_line eq_refl eq_refl) as (Hforward & _).
    + vm_compute. discriminate.
    + exact (proj2 (proj2 (Hforward "Expecting value" eq_refl))).
Defined.

(** C8 as stated fails for a payload that [json.loads] refuses with an
    exception other than [JSONDecodeError].  A data line that carries an
    integer of 4301 digits is not forwarded: the stream ends with a
    [stream_error] frame in its place, and the line after it is not
    relayed. *)
Lemma process_stream_drops_line_with_long_integer :
  loads long_integer = LoadsValueError digit_limit_message
  /\ String.length long_integer = 4301%nat
  /\ process_stream (J := sample_json) (U := ascii_utf8)
       [chunk_line; long_integer_line; chunk_line] EndOfStream "socrates"
     = ([data_frame (J := sample_json) false
           (JObj [("id", JStr "chatcmpl-1"); ("model", JStr "socrates");
                  ("choices", JArr [])]);
         data_frame (J := sample_json) true
           (error_chunk (ValueError digit_limit_message))],
        Finished).
Proof. split; [|split]; vm_compute; reflexivity. Qed.

(** Further runs of the definitions. *)

Example strip_line : strip ("  data: x " +:+ LF) = "data: x".
Proof. reflexivity. Qed.

Example drop_prefix : drop_str 6 "data: [DONE]" = "[DONE]".
Proof. reflexivity. Qed.

Example validate_sample : Configuration._validate (config 3) = Ok tt.
Proof. reflexivity. Qed.

Example has_system_sample :
  has_system [user_message] = Ok false
  /\ has_system [user_message; caller_system] = Ok true.
Proof. split; reflexivity. Qed.

(** A blank line and a line that is no data line pass through; a payload
    that is JSON but no container ends the stream with an error frame. *)
Example process_stream_other_lines :
  process_stream (J := sample_json) (U := ascii_utf8)
    [LF; "event: ping" +:+ LF; "data: 123" +:+ LF; chunk_line] EndOfStream
    "socrates"
  = ([LF; "event: ping" +:+ LF +:+ LF;
      data_frame (J := sample_json) true
        (error_chunk (TypeError "argument of type 'int' is not iterable"))],
     Finished).
Proof. vm_compute. reflexivity. Qed.

(** Exhausted retries surface as a 502 envelope, a timeout as 504. *)
Example proxy_chat_completion_gives_up :
  (proxy_chat_completion (HS := scripted) (J := sample_json)
     (config 2) chat_request persona "req-1"
     [Raise (TimeoutError "t"); Raise (ClientError "Connection reset")]).1.2
  = Ok (None,
        Some (error_envelope
                "Failed to connect to upstream API: Connection reset"
                "connection_error" 502))
  /\ (proxy_chat_completion (HS := scripted) (J := sample_json)
        (config 1) chat_request persona "req-1"
        [Raise (TimeoutError "t")]).1.2
     = Ok (None,
           Some (error_envelope "Request to upstream API timed out"
                   "timeout_error" 504)).
Proof. split; reflexivity. Qed.
End SampleRuns.

(** * Further properties of the client *)

Section ClientBounds.
Import UpstreamAPIClient.
Context {W : Type} {HS : Session W} {J : Json}.

Lemma posts_app (t1 t2 : list event) :
  Trace.posts (t1 ++ t2) = (Trace.posts t1 + Trace.posts t2)%nat.
Proof. unfold Trace.posts. by rewrite List.filter_app, length_app. Qed.

Lemma sleeps_app (t1 t2 : list event) :
  Trace.sleeps (t1 ++ t2) = Trace.sleeps t1 ++ Trace.sleeps t2.
Proof. unfold Trace.sleeps. by rewrite flat_map_app. Qed.

Lemma total_sleep_cons (d : Q) (t : list event) :
  Trace.total_sleep (Sleep d :: t) = (d + Trace.total_sleep t)%Q.
Proof. reflexivity. Qed.

Lemma total_sleep_post (url : string) (body : dict)
    (headers : list (string * string)) (t : list event) :
  Trace.total_sleep (Post url body headers :: t) = Trace.total_sleep t.
Proof. reflexivity. Qed.

(** One iteration of the loop on a posting [request_func]: what the first
    call did decides the rest. *)
Lemma retry_loop_post_step (config : Configuration.t) (url : string)
    (body : dict) (headers : list (string * string)) (max_retries : Z)
    (remaining : nat) (attempt : Z) (last : option exn) (w : W) :
  retry_loop config (post url body headers) max_retries (S remaining) attempt
    last w
  = match session_post url body headers w with
    | (Ok response, w1) => ([Post url body headers], Ok response, w1)
    | (Raise e, w1) =>
        if is_client_error e || is_timeout_error e then
          if (attempt <? max_retries - 1) && negb (attempt <? 1024) then
            ([Post url body headers],
             Raise (OverflowError "int too large to convert to float"), w1)
          else
            let '(t, r, w2) :=
              retry_loop config (post url body headers) max_retries remaining
                (attempt + 1) (Some e) w1 in
            (Post url body headers
               :: (if attempt <? max_retries - 1
                   then [Sleep (Configuration.RETRY_DELAY config
                                * inject_Z (2 ^ attempt))%Q]
                   else [])
               ++ t, r, w2)
        else ([Post url body headers], Raise e, w1)
    end.
Proof.
  cbn [retry_loop]. unfold try_except, post at 1.
  destruct (session_post url body headers w) as [[response|e] w1]; [done|].
  destruct (is_client_error e || is_timeout_error e); [|done].
  unfold bind, back_off.
  destruct (attempt <? max_retries - 1); [destruct (attempt <? 1024)|];
    unfold sleep, ret, raise; cbv iota beta; cbn [andb negb]; try done;
    by destruct (retry_loop _ _ _ _ _ _ _) as [[t r] w2].
Qed.

(** The loop with [remaining] iterations left posts at least once and at
    most [remaining] times, and pauses only between two posts. *)
Lemma retry_loop_counts (config : Configuration.t) (url : string)
    (body : dict) (headers : list (string * string)) (max_retries : Z)
    (remaining : nat) :
  forall (attempt : Z) (last : option exn) (w : W),
    attempt + Z.of_nat (S remaining) = max_retries ->
    let trace :=
      (retry_loop config (post url body headers) max_retries (S remaining)
         attempt last w).1.1 in
    (1 <= Trace.posts trace <= S remaining)%nat
    /\ (List.length (Trace.sleeps trace) + 1 <= Trace.posts trace)%nat.
Proof.
  induction remaining as [|remaining IH]; intros attempt last w Hsum;
    cbv zeta; rewrite retry_loop_post_step;
    destruct (session_post url body headers w) as [[response|e] w1];
    try (cbn; lia);
    (destruct (is_client_error e || is_timeout_error e); [|cbn; lia]);
    (destruct ((attempt <? max_retries - 1) && negb (attempt <? 1024));
     [cbn; lia|]).
  - destruct (attempt <? max_retries - 1) eqn:Hlt;
      [apply Z.ltb_lt in Hlt; lia|].
    cbn [retry_loop raise_last]. by destruct last; cbn; lia.
  - specialize (IH (attempt + 1) (Some e) w1 ltac:(lia)). cbv zeta in IH.
    destruct (retry_loop _ _ _ (S remaining) _ _ _) as [[t r] w2].
    cbn [fst] in *.
    destruct (attempt <? max_retries - 1); cbn [app];
      unfold Trace.posts, Trace.sleeps in *; cbn in *; lia.
Qed.

(** X1.  Whatever the transport does, one [proxy_chat_completion] posts at
    most [MAX_RETRIES] requests (none when that is not positive) and pauses
    only between two posts, so fewer times than it posts. *)
Theorem proxy_chat_completion_bounded_attempts (config : Configuration.t)
    (request_data : dict) (personality : PersonalityDefinition)
    (request_id : string) (w : W) :
  let trace :=
    (proxy_chat_completion config request_data personality request_id w).1.1 in
  Z.of_nat (Trace.posts trace) <= Z.max 0 (Configuration.MAX_RETRIES config)
  /\ (List.length (Trace.sleeps trace) <= Trace.posts trace - 1)%nat.
Proof.
  cbv zeta. rewrite proxy_chat_completion_trace.
  destruct (outbound_request config request_data personality) as [body|e];
    [|cbn; lia].
  unfold _retry_request, or_configured. cbv zeta.
  destruct (Z.to_nat (Configuration.MAX_RETRIES config)) as [|n] eqn:Hn.
  - cbn. lia.
  - pose proof (retry_loop_counts config (chat_completions_url config) body
                  (request_headers config request_id)
                  (Configuration.MAX_RETRIES config) n 0 None w ltac:(lia))
      as Hcount.
    cbv zeta in Hcount. lia.
Qed.

Lemma inject_Z_nonneg (z : Z) : 0 <= z -> (0 <= inject_Z z)%Q.
Proof. intros Hz. unfold Qle, inject_Z. cbn. lia. Qed.

(** From attempt [attempt] on, the pauses add up to at most
    [RETRY_DELAY * (2 ** (max_retries - 1) - 2 ** attempt)]. *)
Lemma retry_loop_sleep_bound (config : Configuration.t) (url : string)
    (body : dict) (headers : list (string * string)) (max_retries : Z)
    (remaining : nat) :
  (0 <= Configuration.RETRY_DELAY config)%Q ->
  forall (attempt : Z) (last : option exn) (w : W),
    0 <= attempt ->
    attempt + Z.of_nat (S remaining) = max_retries ->
    (Trace.total_sleep
       (retry_loop config (post url body headers) max_retries (S remaining)
          attempt last w).1.1
     <= Configuration.RETRY_DELAY config
        * inject_Z (2 ^ (max_retries - 1) - 2 ^ attempt))%Q.
Proof.
  intros Hbase.
  assert (Hzero : forall attempt, 0 <= attempt -> attempt <= max_retries - 1 ->
            (0 <= Configuration.RETRY_DELAY config
                  * inject_Z (2 ^ (max_retries - 1) - 2 ^ attempt))%Q).
  { intros attempt Ha Hle. apply Qmult_le_0_compat; [done|].
    apply inject_Z_nonneg.
    pose proof (Z.pow_le_mono_r 2 attempt (max_retries - 1)). lia. }
  induction remaining as [|remaining IH]; intros attempt last w Ha Hsum;
    rewrite retry_loop_post_step;
    destruct (session_post url body headers w) as [[response|e] w1];
    try (cbn [fst]; rewrite total_sleep_post; apply Hzero; lia);
    (destruct (is_client_error e || is_timeout_error e);
     [|cbn [fst]; rewrite total_sleep_post; apply Hzero; lia]);
    (destruct ((attempt <? max_retries - 1) && negb (attempt <? 1024));
     [cbn [fst]; rewrite total_sleep_post; apply Hzero; lia|]).
  - destruct (attempt <? max_retries - 1) eqn:Hlt;
      [apply Z.ltb_lt in Hlt; lia|].
    cbn [retry_loop raise_last].
    destruct last; cbn [raise fst app]; rewrite total_sleep_post;
      apply Hzero; lia.
  - specialize (IH (attempt + 1) (Some e) w1 ltac:(lia) ltac:(lia)).
    destruct (retry_loop _ _ _ (S remaining) _ _ _) as [[t r] w2].
    cbn [fst] in *.
    destruct (attempt <? max_retries - 1) eqn:Hlt;
      [|apply Z.ltb_ge in Hlt; lia].
    cbn [app]. rewrite total_sleep_post, total_sleep_cons.
    replace (2 ^ (max_retries - 1) - 2 ^ attempt)
      with ((2 ^ (max_retries - 1) - 2 ^ (attempt + 1)) + 2 ^ attempt)
      by (rewrite Z.pow_add_r by lia; lia).
    rewrite inject_Z_plus.
    set (q1 := inject_Z (2 ^ attempt)) in *.
    set (q2 := inject_Z (2 ^ (max_retries - 1) - 2 ^ (attempt + 1))) in *.
    rewrite Qmult_plus_distr_r. lra.
Qed.

(** X2.  With a retry delay that is not negative, the pauses of one
    [proxy_chat_completion] add up to at most
    [RETRY_DELAY * (2 ** (MAX_RETRIES - 1) - 1)], whatever the transport
    does; without a positive [MAX_RETRIES] there is no pause. *)
Theorem proxy_chat_completion_bounded_backoff (config : Configuration.t)
    (request_data : dict) (personality : PersonalityDefinition)
    (request_id : string) (w : W) :
  (0 <= Configuration.RETRY_DELAY config)%Q ->
  (Trace.total_sleep
     (proxy_chat_completion config request_data personality request_id w).1.1
   <= Configuration.RETRY_DELAY config
      * inject_Z (2 ^ (Z.max 1 (Configuration.MAX_RETRIES config) - 1) - 1))%Q.
Proof.
  intros Hbase. rewrite proxy_chat_completion_trace.
  assert (Hnone : (Trace.total_sleep []
                   <= Configuration.RETRY_DELAY config
                      * inject_Z
                          (2 ^ (Z.max 1 (Configuration.MAX_RETRIES config) - 1)
                           - 1))%Q).
  { apply Qmult_le_0_compat; [done|]. apply inject_Z_nonneg.
    pose proof (Z.pow_pos_nonneg 2
                  (Z.max 1 (Configuration.MAX_RETRIES config) - 1)). lia. }
  destruct (outbound_request config request_data personality) as [body|e];
    [|exact Hnone].
  unfold _retry_request, or_configured. cbv zeta.
  destruct (Z.to_nat (Configuration.MAX_RETRIES config)) as [|n] eqn:Hn.
  - exact Hnone.
  - replace (Z.max 1 (Configuration.MAX_RETRIES config))
      with (Configuration.MAX_RETRIES config) by lia.
    apply (retry_loop_sleep_bound config _ body _ _ n Hbase 0 None w); lia.
Qed.
End ClientBounds.

Section ClientOutcomes.
Import UpstreamAPIClient.
Context {W : Type} {HS : Session W} {J : Json}.

(** Every exception of a failing run is one the loop retries. *)
Lemma failing_last {A} (request_func : M W A) (w w' : W)
    (fs : list (list event * exn)) (t : list event) (e : exn) :
  failing request_func w fs w' ->
  last fs = Some (t, e) ->
  is_client_error e || is_timeout_error e = true.
Proof.
  induction 1 as [w|w w1 w' t0 e0 rest _ Hcls _ IH]; [done|].
  destruct rest as [|f rest]; [by intros [= <- <-]|].
  intros Hlast. by apply IH.
Qed.

(** X3.  A result of [proxy_chat_completion] is never both a response and
    an error, and a response it returns has a status below 400.  It is
    neither of the two only when the call that was answered got a status of
    at least 400 with the body [null].  The only exceptions it raises are
    those of an ill-typed request and those outside [Exception] (a
    cancellation). *)
Theorem proxy_chat_completion_outcome_is_tagged (config : Configuration.t)
    (request_data : dict) (personality : PersonalityDefinition)
    (request_id : string) (w : W) :
  match
    (proxy_chat_completion config request_data personality request_id w).1.2
  with
  | Ok (Some response, None) => status response < 400
  | Ok (None, Some _) => True
  | Ok (Some _, Some _) => False
  | Ok (None, None) =>
      exists body response error_text,
        outbound_request config request_data personality = Ok body
        /\ (_retry_request config
              (post (chat_completions_url config) body
                 (request_headers config request_id)) None w).1.2
           = Ok response
        /\ 400 <= status response
        /\ text response = Ok error_text
        /\ json_loads error_text = Loaded JNull
  | Raise e =>
      is_exception e = false
      \/ outbound_request config request_data personality = Raise e
  end.
Proof.
  rewrite proxy_chat_completion_eq.
  destruct (outbound_request config request_data personality) as [body|e];
    [|by right].
  destruct (_retry_request _ _ _ _) as [[t r] w'] eqn:Hretry. cbn [fst snd].
  assert (Hfailed : forall e,
            match
              match on_failure (W := W) e with
              | Some h => (h w').1.2
              | None => Raise e
              end
            with
            | Ok (None, Some _) => True
            | Ok _ => False
            | Raise e' => is_exception e' = false \/ Ok body = Raise e'
            end).
  { intros e. unfold on_failure.
    destruct (is_timeout_error e); [done|].
    destruct (is_client_error e); [done|].
    destruct (is_exception e) eqn:He; [done|]. by left. }
  assert (Hcase : forall (P : Prop) e,
            match
              match on_failure (W := W) e with
              | Some h => (h w').1.2
              | None => Raise e
              end
            with
            | Ok (Some response, None) => status response < 400
            | Ok (None, Some _) => True
            | Ok (Some _, Some _) => False
            | Ok (None, None) => P
            | Raise e' => is_exception e' = false \/ Ok body = Raise e'
            end).
  { intros P e. specialize (Hfailed e).
    by destruct (match on_failure e with Some h => _ | None => _ end)
      as [[[?|] [?|]]|?]. }
  destruct r as [response|e]; [|apply Hcase].
  destruct (status response >=? 400) eqn:Hst.
  - apply Z.geb_le in Hst.
    destruct (text response) as [error_text|e] eqn:Htext; [|apply Hcase].
    unfold error_data_of.
    destruct (json_loads error_text) as [v|msg|msg|msg] eqn:Hjson; try done.
    destruct v; try done. cbn [optional].
    exists body, response, error_text. by rewrite Hretry.
  - rewrite Z.geb_leb in Hst. apply Z.leb_gt in Hst. done.
Qed.

(** X4.  When [MAX_RETRIES] attempts in a row fail with a connection
    failure or a timeout, and [MAX_RETRIES] is at most 1025, the result is
    an error and no response: a [timeout_error] with code 504 when the last
    exception is a timeout (also one that is a client error as well), and
    otherwise a [connection_error] with code 502 whose message ends with the
    text of that exception. *)
Theorem proxy_chat_completion_classifies_exhaustion
    (config : Configuration.t) (request_data : dict)
    (personality : PersonalityDefinition) (request_id : string)
    (body : dict) (fs : list (list event * exn)) (w w' : W)
    (t : list event) (e : exn) :
  let url := chat_completions_url config in
  let headers := request_headers config request_id in
  outbound_request config request_data personality = Ok body ->
  failing (post url body headers) w fs w' ->
  Z.of_nat (List.length fs) = Configuration.MAX_RETRIES config ->
  Configuration.MAX_RETRIES config <= 1025 ->
  last fs = Some (t, e) ->
  proxy_chat_completion config request_data personality request_id w
  = (backoff_trace config (Configuration.MAX_RETRIES config) 0 fs,
     Ok (None,
         Some (if is_timeout_error e
               then error_envelope "Request to upstream API timed out"
                      "timeout_error" 504
               else error_envelope
                      ("Failed to connect to upstream API: " +:+ str_of_exn e)
                      "connection_error" 502)),
     w').
Proof.
  intros url headers Hbody Hfail Hlen Hfloat Hlast.
  rewrite proxy_chat_completion_eq, Hbody. fold url headers.
  rewrite (_retry_request_gives_up config _ None fs w w' t e Hfail Hlen Hfloat
             Hlast).
  pose proof (failing_last _ _ _ _ _ _ Hfail Hlast) as Hcls.
  unfold or_configured, on_failure. destruct (is_timeout_error e); [done|].
  rewrite orb_false_r in Hcls. by rewrite Hcls.
Qed.

(** X5.  An exception that is neither a client error nor a timeout is not
    retried: the attempt that raised it, after at most 1024 failed ones that
    were retried, is the last, no pause follows, and the result is an
    [internal_error] with code 500 that quotes the exception, unless the
    exception is a cancellation, which is passed on. *)
Theorem proxy_chat_completion_does_not_retry_other_exceptions
    (config : Configuration.t) (request_data : dict)
    (personality : PersonalityDefinition) (request_id : string)
    (body : dict) (fs : list (list event * exn)) (w w1 w' : W) (e : exn) :
  let url := chat_completions_url config in
  let headers := request_headers config request_id in
  outbound_request config request_data personality = Ok body ->
  failing (post url body headers) w fs w1 ->
  Z.of_nat (List.length fs) < Configuration.MAX_RETRIES config ->
  Z.of_nat (List.length fs) <= 1024 ->
  session_post url body headers w1 = (Raise e, w') ->
  is_client_error e || is_timeout_error e = false ->
  proxy_chat_completion config request_data personality request_id w
  = (backoff_trace config (Configuration.MAX_RETRIES config) 0 fs
       ++ [Post url body headers],
     (if is_exception e
      then Ok (None,
               Some (error_envelope ("Unexpected error: " +:+ str_of_exn e)
                       "internal_error" 500))
      else Raise e),
     w').
Proof.
  intros url headers Hbody Hfail Hlt Hfloat Hpost Hcls.
  rewrite proxy_chat_completion_eq, Hbody. fold url headers.
  unfold _retry_request, or_configured. cbv zeta.
  rewrite (retry_loop_failing _ _ _ _ _ _ Hfail) by lia.
  destruct (Z.to_nat (Configuration.MAX_RETRIES config) - List.length fs)%nat
    as [|remaining] eqn:Hrem; [lia|].
  rewrite (retry_loop_lets_through config (post url body headers) _ _ _ _
             w1 w' [Post url body headers] e);
    [|unfold post; by rewrite Hpost | done].
  apply orb_false_elim in Hcls as [Hclient Htimeout].
  unfold on_failure. rewrite Htimeout, Hclient.
  by destruct (is_exception e).
Qed.

(** X6.  A response whose status is below 400 is handed over as it is,
    with no error, after the pauses of the failed attempts before it, of
    which there are at most 1024. *)
Theorem proxy_chat_completion_hands_over_response
    (config : Configuration.t) (request_data : dict)
    (personality : PersonalityDefinition) (request_id : string)
    (body : dict) (fs : list (list event * exn)) (w w1 w' : W)
    (response : ClientResponse) :
  let url := chat_completions_url config in
  let headers := request_headers config request_id in
  outbound_request config request_data personality = Ok body ->
  failing (post url body headers) w fs w1 ->
  Z.of_nat (List.length fs) < Configuration.MAX_RETRIES config ->
  Z.of_nat (List.length fs) <= 1024 ->
  session_post url body headers w1 = (Ok response, w') ->
  status response < 400 ->
  proxy_chat_completion config request_data personality request_id w
  = (weave (map fst fs) (delays config 0 (List.length fs))
       ++ [Post url body headers],
     Ok (Some response, None), w').
Proof.
  intros url headers Hbody Hfail Hlt Hfloat Hpost Hstatus.
  rewrite proxy_chat_completion_eq, Hbody. fold url headers.
  rewrite (_retry_request_returns_after config (post url body headers) None
             fs w w1 w' [Post url body headers] response Hfail Hlt Hfloat);
    [|unfold post; by rewrite Hpost].
  assert ((status response >=? 400) = false) as ->; [|done].
  rewrite Z.geb_leb. apply Z.leb_gt. lia.
Qed.

(** X7.  With a [MAX_RETRIES] that is not positive a well-typed request is
    never posted: the result is an [internal_error] with code 500 and the
    world is left as it was. *)
Theorem proxy_chat_completion_without_attempts (config : Configuration.t)
    (request_data : dict) (personality : PersonalityDefinition)
    (request_id : string) (body : dict) (w : W) :
  outbound_request config request_data personality = Ok body ->
  Configuration.MAX_RETRIES config <= 0 ->
  proxy_chat_completion config request_data personality request_id w
  = ([],
     Ok (None,
         Some (error_envelope
                 "Unexpected error: exceptions must derive from BaseException"
                 "internal_error" 500)),
     w).
Proof.
  intros Hbody Hle. rewrite proxy_chat_completion_eq, Hbody.
  unfold _retry_request, or_configured. cbv zeta.
  by replace (Z.to_nat (Configuration.MAX_RETRIES config)) with 0%nat by lia.
Qed.
End ClientOutcomes.

Section RequestRewriting.
Import UpstreamAPIClient.

Lemma has_system_of_dicts (messages : list json) :
  Forall (fun msg => exists d, msg = JObj d) messages ->
  exists b, has_system messages = Ok b.
Proof.
  induction 1 as [|msg rest [d ->] _ [b IH]]; [by exists false|].
  cbn [has_system]. destruct (dict_get "role" d) as [role|]; [|by exists b].
  destruct (eq_str "system" role); [by exists true | by exists b].
Qed.

(** X8.  [outbound_request] succeeds on every request whose [messages] is
    a list of objects (or is missing); it changes no member other than
    [model] and [messages]; and rewriting its own result again changes
    nothing, whatever the persona, so a request that passes through twice
    never carries two persona messages. *)
Theorem outbound_request_is_idempotent (config : Configuration.t)
    (request_data : dict) (personality other : PersonalityDefinition)
    (messages : list json) :
  default (JArr []) (dict_get "messages" request_data) = JArr messages ->
  Forall (fun msg => exists d, msg = JObj d) messages ->
  exists body,
    outbound_request config request_data personality = Ok body
    /\ (forall k, k <> "model" -> k <> "messages" ->
          dict_get k body = dict_get k request_data)
    /\ outbound_request config body other = Ok body.
Proof.
  intros Hmsgs Hdicts.
  destruct (has_system_of_dicts messages Hdicts) as [b Hb].
  set (renamed :=
         dict_set "model" (JStr (Configuration.UPSTREAM_MODEL_NAME config))
           request_data).
  set (out := if b then messages else system_message personality :: messages).
  assert (Hout : outbound_request config request_data personality
                 = Ok (dict_set "messages" (JArr out) renamed)).
  { assert (Hren : default (JArr []) (dict_get "messages" renamed)
                   = JArr messages).
    { unfold renamed. by rewrite dict_get_set_ne. }
    unfold outbound_request. cbv zeta. fold renamed.
    rewrite Hren, Hb. by destruct b. }
  exists (dict_set "messages" (JArr out) renamed). split; [exact Hout|]. split.
  - intros k Hmodel Hmessages. unfold renamed.
    by rewrite !dict_get_set_ne by done.
  - assert (Hsys : has_system out = Ok true).
    { unfold out. destruct b; [done|]. reflexivity. }
    unfold outbound_request. cbv zeta.
    assert (Hmodel : dict_get "model" (dict_set "messages" (JArr out) renamed)
                     = Some (JStr (Configuration.UPSTREAM_MODEL_NAME config))).
    { unfold renamed. by rewrite dict_get_set_ne, dict_get_set_eq. }
    rewrite (dict_set_same _ _ _ Hmodel).
    rewrite dict_get_set_eq.
    change (default (JArr []) (Some (JArr out))) with (JArr out).
    cbv iota beta. rewrite Hsys.
    by rewrite dict_set_same by apply dict_get_set_eq.
Qed.

End RequestRewriting.

Section StreamEdges.
Import StreamProcessor.
Context {J : Json} {U : Utf8}.

Lemma append_assoc (a b c : string) : (a +:+ b) +:+ c = a +:+ (b +:+ c).
Proof.
  induction a as [|ch a IH]; [done|].
  change (String ch ((a +:+ b) +:+ c) = String ch (a +:+ (b +:+ c))).
  by rewrite IH.
Qed.

(** X9.  Once a line makes the loop stop, by the sentinel or by an
    exception, nothing that follows it in the upstream body matters: the
    frames and the ending are those of the body cut after that line. *)
Theorem process_stream_ignores_what_follows_a_stop
    (requested_model_id line : string) (pre rest : list string)
    (last : stream_end) :
  continues (process_line requested_model_id line) = false ->
  process_stream (pre ++ line :: rest) last requested_model_id
  = process_stream (pre ++ [line]) EndOfStream requested_model_id.
Proof.
  intros Hstop. induction pre as [|first pre IH].
  - cbn [app process_stream].
    by destruct (process_line requested_model_id line).
  - rewrite <- !app_comm_cons. cbn [process_stream].
    destruct (process_line requested_model_id first); try done;
      by rewrite IH.
Qed.

(** X10.  A data line whose payload is valid JSON but a number, a boolean
    or null ends the relay: the frames of the lines before it are followed
    by one [stream_error] frame, and the lines after it are not relayed. *)
Theorem process_stream_stops_at_scalar_payload
    (requested_model_id line decoded : string) (v : json)
    (pre rest : list string) (last : stream_end) :
  is_empty line = false ->
  utf8_decode line = inl decoded ->
  startswith "data: " (strip decoded) = true ->
  strip (drop_str 6 (strip decoded)) <> "[DONE]" ->
  json_loads (strip (drop_str 6 (strip decoded))) = Loaded v ->
  match v with
  | JNull | JBool _ | JInt _ | JFloat _ => True
  | JStr _ | JArr _ | JObj _ => False
  end ->
  Forall (fun l => continues (process_line requested_model_id l) = true) pre ->
  exists msg,
    process_stream (pre ++ line :: rest) last requested_model_id
    = (flat_map (fun l => yielded (process_line requested_model_id l)) pre
         ++ ["data: "
               +:+ json_dumps true
                     (JObj [("error",
                             JObj [("message",
                                    JStr ("Stream processing error: " +:+ msg));
                                   ("type", JStr "stream_error")])])
               +:+ LF +:+ LF],
       Finished).
Proof.
  intros Hline Hdec Hdata Hnot Hjson Hscalar Hpre.
  exists ("argument of type '" +:+ type_name v +:+ "' is not iterable").
  apply (process_stream_raises _ _ _ _ _
           (TypeError ("argument of type '" +:+ type_name v
                       +:+ "' is not iterable"))); [done|].
  unfold process_line. rewrite Hline, Hdec. cbv zeta.
  rewrite (startswith_nonempty "data: " _ eq_refl Hdata), Hdata.
  apply String.eqb_neq in Hnot. rewrite Hnot, Hjson.
  by destruct v.
Qed.

(** X11.  A line that is not valid UTF-8 ends the relay in the same way:
    one [stream_error] frame that quotes the decoder, then nothing. *)
Theorem process_stream_stops_at_undecodable_line
    (requested_model_id line msg : string) (pre rest : list string)
    (last : stream_end) :
  is_empty line = false ->
  utf8_decode line = inr msg ->
  Forall (fun l => continues (process_line requested_model_id l) = true) pre ->
  process_stream (pre ++ line :: rest) last requested_model_id
  = (flat_map (fun l => yielded (process_line requested_model_id l)) pre
       ++ ["data: "
             +:+ json_dumps true
                   (JObj [("error",
                           JObj [("message",
                                  JStr ("Stream processing error: " +:+ msg));
                                 ("type", JStr "stream_error")])])
             +:+ LF +:+ LF],
     Finished).
Proof.
  intros Hline Hdec Hpre.
  apply (process_stream_raises _ _ _ _ _ (UnicodeDecodeError msg)); [done|].
  unfold process_line. by rewrite Hline, Hdec.
Qed.

(** X12.  A payload that parses as an object without a [model] member, as
    a string in which [model] does not occur, or as a list of which the
    string [model] is no element, is relayed re-serialised and otherwise
    untouched, and the relay goes on. *)
Theorem process_stream_relays_chunk_without_model
    (requested_model_id line decoded : string) (v : json)
    (pre rest : list string) (last : stream_end) :
  is_empty line = false ->
  utf8_decode line = inl decoded ->
  startswith "data: " (strip decoded) = true ->
  strip (drop_str 6 (strip decoded)) <> "[DONE]" ->
  json_loads (strip (drop_str 6 (strip decoded))) = Loaded v ->
  match v with
  | JObj d => dict_mem "model" d = false
  | JStr s => str_contains "model" s = false
  | JArr l => existsb (eq_str "model") l = false
  | JNull | JBool _ | JInt _ | JFloat _ => False
  end ->
  Forall (fun l => continues (process_line requested_model_id l) = true) pre ->
  process_stream (pre ++ line :: rest) last requested_model_id
  = (flat_map (fun l => yielded (process_line requested_model_id l)) pre
       ++ ("data: " +:+ json_dumps false v +:+ LF +:+ LF)
       :: (process_stream rest last requested_model_id).1,
     (process_stream rest last requested_model_id).2).
Proof.
  intros Hline Hdec Hdata Hnot Hjson Hplain Hpre.
  assert (Hstep : process_line requested_model_id line
                  = Yield ("data: " +:+ json_dumps false v +:+ LF +:+ LF)).
  { unfold process_line. rewrite Hline, Hdec. cbv zeta.
    rewrite (startswith_nonempty "data: " _ eq_refl Hdata), Hdata.
    apply String.eqb_neq in Hnot. rewrite Hnot, Hjson.
    destruct v; try done; cbn [rewrite_chunk]; by rewrite Hplain. }
  rewrite process_stream_prefix by done.
  rewrite process_stream_cons by (by rewrite Hstep).
  by rewrite Hstep.
Qed.

(** The frames one step can yield. *)
Lemma process_line_frame (requested_model_id line : string) :
  Forall (fun frame => frame = LF \/ exists s, frame = s +:+ LF +:+ LF)
    (yielded (process_line requested_model_id line)).
Proof.
  unfold process_line. destruct (is_empty line); [constructor|].
  destruct (utf8_decode line) as [decoded|msg]; [|constructor]. cbv zeta.
  destruct (is_empty (strip decoded)).
  { cbn [yielded]. constructor; [by left | constructor]. }
  destruct (startswith _ _).
  2:{ cbn [yielded]. constructor; [|constructor].
      right. by exists (strip decoded). }
  destruct (String.eqb _ _).
  { cbn [yielded]. constructor; [|constructor].
    right. by exists "data: [DONE]". }
  destruct (json_loads _) as [chunk|msg|msg|msg]; [| |constructor..].
  2:{ cbn [yielded]. constructor; [|constructor].
      right. by exists (strip decoded). }
  destruct (rewrite_chunk _ chunk) as [rewritten|e]; [|constructor].
  cbn [yielded]. constructor; [|constructor]. right.
  exists ("data: " +:+ json_dumps false rewritten).
  unfold data_frame. by rewrite append_assoc.
Qed.

(** X13.  Whatever the upstream body holds and however it ends, every
    frame [process_stream] yields is the single line feed of a blank line or
    ends with two line feeds, and there is at most one frame per line, plus
    one when the body breaks. *)
Theorem process_stream_frames_are_terminated
    (requested_model_id : string) (lines : list string) (last : stream_end) :
  let frames := (process_stream lines last requested_model_id).1 in
  Forall (fun frame => frame = LF \/ exists s, frame = s +:+ LF +:+ LF) frames
  /\ (List.length frames
      <= List.length lines
         + match last with EndOfStream => 0 | Broken _ => 1 end)%nat.
Proof.
  cbv zeta.
  assert (Hexc : forall e,
            Forall (fun frame => frame = LF \/ exists s, frame = s +:+ LF +:+ LF)
              (on_exception e).1
            /\ (List.length (on_exception e).1 <= 1)%nat).
  { intros e. unfold on_exception. destruct (is_exception e); cbn [fst].
    - split; [|cbn; lia]. constructor; [|constructor]. right.
      exists ("data: " +:+ json_dumps true (error_chunk e)).
      unfold data_frame. by rewrite append_assoc.
    - split; [constructor | cbn; lia]. }
  induction lines as [|line rest [IHf IHn]].
  - cbn [process_stream]. destruct last as [|e].
    + split; [constructor | cbn; lia].
    + destruct (Hexc e). split; [done | cbn [List.length]; lia].
  - cbn [process_stream].
    pose proof (process_line_frame requested_model_id line) as Hframe.
    destruct (process_line requested_model_id line) as [|f|f|e];
      cbn [yielded] in Hframe.
    + split; [done | cbn [List.length]; lia].
    + destruct (process_stream rest last requested_model_id) as [frames e'].
      cbn [fst] in *. split; [|cbn [List.length]; lia].
      constructor; [by inversion Hframe | done].
    + cbn [fst]. split; [done | cbn [List.length]; lia].
    + destruct (Hexc e). split; [done | cbn [List.length]; lia].
Qed.

End StreamEdges.

Section RateLimiterSafety.
Import RateLimiter RateWindow.

Lemma prune_prune (last now : Q) (l : list Q) :
  (last <= now)%Q -> prune now (prune last l) = prune now l.
Proof.
  intros Hle. unfold prune. induction l as [|ts l IH]; [done|].
  cbn [List.filter].
  destruct (newer (last - 60) ts) eqn:Hlast; cbn [List.filter];
    rewrite IH; [done|].
  destruct (newer (now - 60) ts) eqn:Hnow; [|done].
  apply newer_true in Hnow. apply newer_false in Hlast. lra.
Qed.

Lemma prune_snoc (now : Q) (l : list Q) :
  prune now (l ++ [now]) = prune now l ++ [now].
Proof.
  unfold prune. rewrite List.filter_app. cbn [List.filter].
  assert (newer (now - 60) now = true) as ->; [|done].
  apply newer_true. lra.
Qed.

Lemma admitted_times_cons (self : t) (key : string) (now : Q)
    (rest : list Q) :
  admitted_times self key (now :: rest)
  = (if (check_rate_limit self key now).1 then [now] else [])
      ++ admitted_times (check_rate_limit self key now).2 key rest.
Proof.
  cbn [admitted_times].
  by destruct (check_rate_limit self key now) as [[|] self'].
Qed.

Lemma last_cons (now start : Q) (rest : list Q) :
  List.last (now :: rest) start = List.last rest now.
Proof.
  revert now start. induction rest as [|next rest IH]; intros now start;
    [done|].
  change (List.last (now :: next :: rest) start)
    with (List.last (next :: rest) start).
  by rewrite !IH.
Qed.

(** Under a clock that never goes back, the sequence stored for a key is
    made of the admitted readings that are still inside the window. *)
Lemma run_stores_live_admissions (key : string) (times : list Q) :
  forall (self : t) (adm : list Q) (start : Q),
    nondecreasing start times ->
    get self key = prune start adm ->
    get (run self key times).2 key
    = prune (List.last times start) (adm ++ admitted_times self key times).
Proof.
  induction times as [|now rest IH]; intros self adm start Hclock Hget.
  - cbn. by rewrite app_nil_r.
  - destruct Hclock as [Hle Hclock].
    rewrite run_cons, admitted_times_cons. cbn [snd].
    rewrite last_cons.
    assert (Hkept : prune now (get self key) = prune now adm).
    { rewrite Hget. by apply prune_prune. }
    rewrite check_rate_limit_eq. cbv zeta. rewrite Hkept.
    destruct (_ >=? _); cbn [fst snd].
    + apply IH; [done|]. by rewrite get_insert.
    + rewrite app_assoc. apply IH; [done|].
      by rewrite get_insert, prune_snoc.
Qed.

Lemma run_bound_max (key : string) (times : list Q) :
  forall self : t,
    Z.of_nat (List.length (get self key)) <= Z.max 0 (rate_per_minute self) ->
    Z.of_nat (List.length (get (run self key times).2 key))
      <= Z.max 0 (rate_per_minute self).
Proof.
  induction times as [|now rest IH]; intros self Hinv; [done|].
  rewrite run_cons. cbn [snd].
  rewrite <- (check_rate_limit_rate self key now). apply IH.
  rewrite check_rate_limit_rate. by apply check_rate_limit_bound_max.
Qed.

(** X15.  For a key with nothing stored and a clock that never goes back:
    at every call, the calls admitted so far (this one included) that fall
    in the 60 seconds before it number at most the limit, so no 60-second
    window ever holds more admissions than [rate_per_minute]. *)
Theorem check_rate_limit_never_exceeds_limit (self : t) (key : string)
    (times : list Q) (start : Q) :
  get self key = [] ->
  nondecreasing start times ->
  Z.of_nat
    (List.length
       (List.filter (fun ts => newer (List.last times start - 60) ts)
          (admitted_times self key times)))
  <= Z.max 0 (rate_per_minute self).
Proof.
  intros Hfresh Hclock.
  pose proof (run_stores_live_admissions key times self [] start Hclock) as Hrun.
  rewrite Hfresh in Hrun. specialize (Hrun eq_refl). cbn [app] in Hrun.
  change (List.filter (fun ts => newer (List.last times start - 60) ts)
            (admitted_times self key times))
    with (prune (List.last times start) (admitted_times self key times)).
  rewrite <- Hrun. apply run_bound_max. rewrite Hfresh. cbn. lia.
Qed.

(** X16.  Calls for two different keys do not affect each other: made in
    either order they get the same answers and leave the same state. *)
Theorem check_rate_limit_keys_are_independent (self : t)
    (key1 key2 : string) (now1 now2 : Q) :
  key1 <> key2 ->
  let first1 := check_rate_limit self key1 now1 in
  let then2 := check_rate_limit first1.2 key2 now2 in
  let first2 := check_rate_limit self key2 now2 in
  let then1 := check_rate_limit first2.2 key1 now1 in
  first1.1 = then1.1 /\ then2.1 = first2.1 /\ then2.2 = then1.2.
Proof.
  intros Hne. cbv zeta.
  assert (Hother : forall k k' now, k <> k' ->
            get (check_rate_limit self k now).2 k' = get self k').
  { intros k k' now Hk. by apply check_rate_limit_other. }
  rewrite (check_rate_limit_eq (check_rate_limit self key1 now1).2),
    (check_rate_limit_eq (check_rate_limit self key2 now2).2).
  cbv zeta. rewrite !Hother, !check_rate_limit_rate by done.
  rewrite !(check_rate_limit_eq self). cbv zeta.
  destruct (Z.of_nat (List.length (prune now1 (get self key1)))
            >=? rate_per_minute self),
    (Z.of_nat (List.length (prune now2 (get self key2)))
     >=? rate_per_minute self);
    cbn [fst snd requests rate_per_minute];
    (split; [done|]); (split; [done|]); f_equal;
    by apply insert_insert_ne.
Qed.
End RateLimiterSafety.

Section ConfigurationFacts.

(** X17.  [_validate] accepts a configuration exactly when the URL, the
    key and the model name are not empty, the port lies between 1 and 65535,
    [MAX_WORKERS] and [REQUEST_TIMEOUT] are at least 1 and the log level is
    one of the five names; it puts no condition on the rate limit, the retry
    count, the retry delay or the keep-alive timeout. *)
Theorem _validate_accepts_exactly (self : Configuration.t) :
  Configuration._validate self = Ok tt
  <-> Configuration.API_URL self <> EmptyString
      /\ Configuration.API_KEY self <> EmptyString
      /\ Configuration.UPSTREAM_MODEL_NAME self <> EmptyString
      /\ 1 <= Configuration.SERVER_PORT self <= 65535
      /\ 1 <= Configuration.MAX_WORKERS self
      /\ 1 <= Configuration.REQUEST_TIMEOUT self
      /\ In (Configuration.LOG_LEVEL self)
           ["DEBUG"; "INFO"; "WARNING"; "ERROR"; "CRITICAL"].
Proof.
  assert (Hempty : forall s, is_empty s = false <-> s <> EmptyString)
    by (by destruct s).
  assert (Hlevel :
    existsb (String.eqb (Configuration.LOG_LEVEL self))
      ["DEBUG"; "INFO"; "WARNING"; "ERROR"; "CRITICAL"] = true
    <-> In (Configuration.LOG_LEVEL self)
          ["DEBUG"; "INFO"; "WARNING"; "ERROR"; "CRITICAL"]).
  { rewrite existsb_exists. split.
    - intros (x & Hin & Heq). apply String.eqb_eq in Heq. by subst x.
    - intros Hin. eexists. split; [exact Hin|]. apply String.eqb_refl. }
  unfold Configuration._validate.
  rewrite <- !Hempty, <- Hlevel.
  destruct (is_empty (Configuration.API_URL self)); [by intuition|].
  destruct (is_empty (Configuration.API_KEY self)); [by intuition|].
  destruct (is_empty (Configuration.UPSTREAM_MODEL_NAME self)); [by intuition|].
  destruct (Configuration.SERVER_PORT self <? 1) eqn:Hlow;
    [apply Z.ltb_lt in Hlow | apply Z.ltb_ge in Hlow]; cbn [orb].
  { split; [done | lia]. }
  destruct (Configuration.SERVER_PORT self >? 65535) eqn:Hhigh;
    rewrite Z.gtb_ltb in Hhigh;
    [apply Z.ltb_lt in Hhigh | apply Z.ltb_ge in Hhigh].
  { split; [done | lia]. }
  destruct (Configuration.MAX_WORKERS self <? 1) eqn:Hw;
    [apply Z.ltb_lt in Hw | apply Z.ltb_ge in Hw].
  { split; [done | lia]. }
  destruct (Configuration.REQUEST_TIMEOUT self <? 1) eqn:Ht;
    [apply Z.ltb_lt in Ht | apply Z.ltb_ge in Ht].
  { split; [done | lia]. }
  destruct (existsb _ _); cbn [negb].
  - split; [|done]. intros _. repeat split; (done || lia).
  - split; [done|]. intros (_ & _ & _ & _ & _ & _ & Habs). discriminate Habs.
Qed.
End ConfigurationFacts.

Section MetricsFacts.
Import MetricsCollector.

Lemma record_request_counts (self : t) (o : observation) :
  let self' := record_request self (latency o) (is_error o) (is_streaming o) in
  request_count self' = request_count self + 1
  /\ error_count self' = error_count self + (if is_error o then 1 else 0)
  /\ streaming_requests self'
     = streaming_requests self + (if is_streaming o then 1 else 0).
Proof.
  unfold record_request. by destruct (is_error o), (is_streaming o); cbn;
    rewrite ?Z.add_0_r.
Qed.

Lemma record_all_counts (obs : list observation) :
  forall self : t,
    let self' := record_all self obs in
    request_count self' = request_count self + Z.of_nat (List.length obs)
    /\ error_count self'
       = error_count self
         + Z.of_nat (List.length (List.filter is_error obs))
    /\ streaming_requests self'
       = streaming_requests self
         + Z.of_nat (List.length (List.filter is_streaming obs)).
Proof.
  induction obs as [|o obs IH]; intros self.
  - cbn. repeat split; lia.
  - cbv zeta. unfold record_all. cbn [fold_left].
    fold (record_all (record_request self (latency o) (is_error o)
                        (is_streaming o)) obs).
    destruct (IH (record_request self (latency o) (is_error o)
                    (is_streaming o))) as (Hn & He & Hs).
    destruct (record_request_counts self o) as (Hn1 & He1 & Hs1).
    rewrite Hn, He, Hs, Hn1, He1, Hs1.
    cbn [List.length List.filter].
    repeat split.
    + lia.
    + destruct (is_error o); cbn [List.length]; lia.
    + destruct (is_streaming o); cbn [List.length]; lia.
Qed.

Lemma filter_length_le {A} (f : A -> bool) (l : list A) :
  (List.length (List.filter f l) <= List.length l)%nat.
Proof.
  induction l as [|a l IH]; [done|]. cbn. destruct (f a); cbn; lia.
Qed.

(** X18.  After any sequence of recorded requests a fresh collector holds
    their number, the number of those that were errors and the number of
    those that were streaming; so the error and the streaming counts never
    exceed the request count, and the quotient of the error count by the
    request count, taken exactly, lies between 0 and 1.  With nothing
    recorded the average latency and the error rate are 0 and nothing is
    divided.  Nothing is said of the sum of the latencies. *)
Theorem record_request_keeps_counters_consistent (obs : list observation) :
  let self := record_all init obs in
  request_count self = Z.of_nat (List.length obs)
  /\ error_count self = Z.of_nat (List.length (List.filter is_error obs))
  /\ streaming_requests self
     = Z.of_nat (List.length (List.filter is_streaming obs))
  /\ 0 <= error_count self <= request_count self
  /\ 0 <= streaming_requests self <= request_count self
  /\ (0 <= error_rate self <= 1)%Q
  /\ (obs = [] -> avg_latency self = 0%Q /\ error_rate self = 0%Q).
Proof.
  cbv zeta. destruct (record_all_counts obs init) as (Hn & He & Hs).
  cbn [init request_count error_count streaming_requests] in Hn, He, Hs.
  rewrite Z.add_0_l in Hn, He, Hs.
  pose proof (filter_length_le is_error obs) as Hle.
  pose proof (filter_length_le is_streaming obs) as Hls.
  split; [done|]. split; [done|]. split; [done|].
  split; [lia|]. split; [lia|].
  unfold error_rate, avg_latency.
  destruct (request_count (record_all init obs) >? 0) eqn:Hpos.
  - rewrite Z.gtb_ltb in Hpos. apply Z.ltb_lt in Hpos.
    assert (Hq : (0 < inject_Z (request_count (record_all init obs)))%Q).
    { unfold Qlt, inject_Z. cbn. lia. }
    split; [split|].
    + apply Qle_shift_div_l; [done|]. rewrite Qmult_0_l.
      unfold Qle, inject_Z. cbn. lia.
    + apply Qle_shift_div_r; [done|]. rewrite Qmult_1_l.
      unfold Qle, inject_Z. cbn. lia.
    + intros ->. cbn in Hpos. lia.
  - split; [split; done|]. done.
Qed.
End MetricsFacts.

Section SessionFacts.
Import HTTPSessionManager.

(** What [get_session] returns is open, held by the manager, and the
    manager keeps its configuration. *)
Lemma get_session_result (self : t) (h : heap) :
  let '(i, self1, h1) := get_session self h in
  (exists s, h1 !! i = Some s /\ closed s = false)
  /\ session self1 = Some i
  /\ config self1 = config self.
Proof.
  unfold get_session. destruct (needs_session self h) eqn:Hneed.
  - split; [|done]. exists (new_session (config self)). split; [|done].
    rewrite lookup_app_r by lia. by rewrite Nat.sub_diag.
  - unfold needs_session in Hneed.
    destruct (session self) as [i|] eqn:Hs; [|done].
    destruct (h !! i) as [s|] eqn:Hi; [|done].
    split; [by exists s | done].
Qed.

(** X19.  [get_session] returns a session that is open and makes the
    manager point at it; asked again, it returns the same session and
    creates nothing; and it never changes a session that was there
    before. *)
Theorem get_session_reuses_the_open_session (self : t) (h : heap) :
  let '(i, self1, h1) := get_session self h in
  (exists s, h1 !! i = Some s /\ closed s = false)
  /\ session self1 = Some i
  /\ get_session self1 h1 = (i, self1, h1)
  /\ (forall j s, h !! j = Some s -> h1 !! j = Some s).
Proof.
  pose proof (get_session_result self h) as Hres.
  assert (Hkept : forall j s,
            h !! j = Some s -> (get_session self h).2 !! j = Some s).
  { intros j s Hj. unfold get_session.
    destruct (needs_session self h); [|by destruct (session self)].
    by apply lookup_app_l_Some. }
  destruct (get_session self h) as [[i self1] h1].
  destruct Hres as ((s & Hi & Hopen) & Hs1 & _).
  split; [by exists s|]. split; [done|]. split; [|exact Hkept].
  unfold get_session, needs_session. by rewrite Hs1, Hi, Hopen.
Qed.

(** X20.  [close] closes the session the manager holds and changes no
    other; a second [close] does nothing; and the next [get_session]
    creates a new open session, built from the configuration, and leaves
    the closed one closed. *)
Theorem close_then_get_session_makes_a_new_session (self : t) (h : heap) :
  let '(i, self1, h1) := get_session self h in
  let '(self2, h2) := close self1 h1 in
  let '(j, self3, h3) := get_session self2 h2 in
  (exists s, h2 !! i = Some s /\ closed s = true)
  /\ (forall k s, k <> i -> h1 !! k = Some s -> h2 !! k = Some s)
  /\ close self2 h2 = (self2, h2)
  /\ j <> i
  /\ h3 !! j = Some (new_session (config self))
  /\ (exists s, h3 !! i = Some s /\ closed s = true).
Proof.
  pose proof (get_session_result self h) as Haux.
  destruct (get_session self h) as [[i self1] h1].
  destruct Haux as ((s & Hi & Hopen) & Hs1 & Hcfg).
  assert (Hlt : (i < List.length h1)%nat) by (by eapply lookup_lt_Some).
  assert (Hclosed : <[i := close_session s]> h1 !! i = Some (close_session s))
    by (by apply list_lookup_insert_eq).
  assert (Hclose : close self1 h1 = (self1, <[i := close_session s]> h1)).
  { unfold close. by rewrite Hs1, Hi, Hopen. }
  rewrite Hclose.
  assert (Hget : get_session self1 (<[i := close_session s]> h1)
                 = (List.length h1, mk (config self1) (Some (List.length h1)),
                    <[i := close_session s]> h1 ++ [new_session (config self1)])).
  { unfold get_session, needs_session. rewrite Hs1, Hclosed.
    cbn [closed close_session]. by rewrite length_insert. }
  rewrite Hget.
  split; [by exists (close_session s)|]. split.
  { intros k s0 Hk Hk1. by rewrite list_lookup_insert_ne. }
  split.
  { unfold close. by rewrite Hs1, Hclosed. }
  split; [lia|]. split.
  - rewrite lookup_app_r by (rewrite length_insert; lia).
    rewrite length_insert, Nat.sub_diag. cbn. by rewrite Hcfg.
  - exists (close_session s). split; [|done].
    by apply lookup_app_l_Some.
Qed.
End SessionFacts.

Section PersonaFacts.
Import Personas.

Lemma load_from_entries (pre : string) (files : list persona_file) :
  forall (all : list persona_file)
         (personas loaded : gmap string PersonalityDefinition),
    (forall f, In f files -> In f all) ->
    (forall k p, personas !! k = Some p -> persona_entry_ok pre all k p) ->
    load_from pre personas files = Ok loaded ->
    forall k p, loaded !! k = Some p -> persona_entry_ok pre all k p.
Proof.
  induction files as [|f rest IH]; intros all personas loaded Hsub Hinv Hload.
  - cbn in Hload. by injection Hload as <-.
  - cbn [load_from] in Hload.
    destruct (load_file pre personas f) as [personas'|e] eqn:Hfile;
      [|discriminate].
    apply (IH all personas' loaded); [|clear Hload|done].
    { intros f' Hf'. apply Hsub. by right. }
    unfold load_file in Hfile.
    destruct (String.eqb (name f) "__init__.py") eqn:Hname;
      [by injection Hfile as <-|].
    destruct (imported f) as [module|e] eqn:Himp.
    2:{ destruct (is_exception e); [by injection Hfile as <-|discriminate]. }
    destruct (PERSONA_ID module) as [pid|] eqn:Hpid;
      [|by injection Hfile as <-].
    destruct (BIOGRAPHY module) as [bio|] eqn:Hbio;
      [|by injection Hfile as <-].
    destruct (is_empty pid) eqn:Hpe; [by injection Hfile as <-|].
    destruct (is_empty bio) eqn:Hbe; [by injection Hfile as <-|].
    cbn in Hfile. injection Hfile as <-.
    intros k p. rewrite lookup_insert. destruct (decide (pid = k)) as [->|Hne].
    + intros [= <-]. split; [done|]. split; [by destruct k|].
      exists f, module, bio. repeat split; try done.
      * apply Hsub. by left.
      * by apply String.eqb_neq.
      * by destruct bio.
    + apply Hinv.
Qed.

(** X21.  Every persona that [load_personas] returns is stored under its
    own id, which is not empty, and its system prompt is the common
    pre-instructions followed by the non-empty biography of one of the
    persona files; so [get_personality] never returns a persona under a
    wrong name or without the pre-instructions. *)
Theorem load_personas_entries_are_well_formed (pre_instructions : string)
    (files : list persona_file)
    (personalities : gmap string PersonalityDefinition)
    (personality_id : string) (p : PersonalityDefinition) :
  load_personas pre_instructions files = Ok personalities ->
  get_personality personalities personality_id = Some p ->
  id p = personality_id
  /\ personality_id <> EmptyString
  /\ exists f module biography,
       In f files /\ name f <> "__init__.py"
       /\ imported f = Ok module
       /\ PERSONA_ID module = Some personality_id
       /\ BIOGRAPHY module = Some biography
       /\ biography <> EmptyString
       /\ system_prompt p = pre_instructions +:+ biography.
Proof.
  intros Hload Hget.
  apply (load_from_entries pre_instructions files files ∅ personalities);
    [done | | done | done].
  intros k p0 Hk. by rewrite lookup_empty in Hk.
Qed.

Lemma load_file_skips (pre : string)
    (personas : gmap string PersonalityDefinition) (f : persona_file) :
  contributes f = false ->
  match imported f with
  | Raise e => name f = "__init__.py" \/ is_exception e = true
  | Ok _ => True
  end ->
  load_file pre personas f = Ok personas.
Proof.
  unfold contributes, load_file.
  destruct (String.eqb (name f) "__init__.py") eqn:Hname; [done|].
  cbn [negb andb]. destruct (imported f) as [module|e].
  - destruct (PERSONA_ID module) as [pid|]; [|done].
    destruct (BIOGRAPHY module) as [bio|]; [|done]. by intros ->.
  - intros _ [Habs| ->]; [|done].
    apply String.eqb_neq in Hname. by destruct Hname.
Qed.

(** X22.  A file that is [__init__.py], that fails to import with an
    [Exception], or whose module lacks a non-empty [PERSONA_ID] or
    [BIOGRAPHY], is passed over: the personas loaded are those loaded
    without it, and loading does not fail because of it. *)
Theorem load_personas_passes_over_bad_files (pre_instructions : string)
    (before after : list persona_file) (f : persona_file) :
  contributes f = false ->
  match imported f with
  | Raise e => name f = "__init__.py" \/ is_exception e = true
  | Ok _ => True
  end ->
  load_personas pre_instructions (before ++ f :: after)
  = load_personas pre_instructions (before ++ after).
Proof.
  intros Hskip Hexc. unfold load_personas. generalize (∅ : gmap string PersonalityDefinition).
  induction before as [|g before IH]; intros personas.
  - cbn [app load_from]. by rewrite load_file_skips.
  - rewrite <- !app_comm_cons. cbn [load_from].
    destruct (load_file pre_instructions personas g); [apply IH | done].
Qed.
End PersonaFacts.

Section ValidationFacts.
Import ChatCompletionRequest.

Lemma all_chars_app (p : ascii -> bool) (a b : string) :
  all_chars p (a +:+ b) = all_chars p a && all_chars p b.
Proof.
  induction a as [|c a IH]; [done|].
  change (all_chars p (String c (a +:+ b))
          = all_chars p (String c a) && all_chars p b).
  cbn [all_chars]. by rewrite IH, andb_assoc.
Qed.

Lemma lstrip_all (p : ascii -> bool) (s : string) :
  all_chars p s = true -> lstrip_by p s = EmptyString.
Proof.
  induction s as [|c s IH]; [done|]. cbn [all_chars lstrip_by].
  intros [Hc Hs]%andb_prop. rewrite Hc. by apply IH.
Qed.

(** [strip] leaves nothing exactly of the strings made of white space. *)
Lemma strip_empty (s : string) :
  is_empty (strip s) = all_chars isspace s.
Proof.
  destruct (all_chars isspace s) eqn:Hall.
  - unfold strip. by rewrite lstrip_all.
  - destruct (strip_split s) as (l & r & Heq & Hl & Hr).
    destruct (strip s); [|done].
    rewrite Heq, !all_chars_app, Hl, Hr in Hall. discriminate Hall.
Qed.

(** X23.  [validate_messages] returns the list it was given, and does so
    exactly when the list is not empty and every content has a character
    that is not white space; otherwise it raises [ValueError]. *)
Theorem validate_messages_accepts_exactly (v : list ChatMessage) :
  (validate_messages v = Ok v
   <-> v <> []
       /\ Forall (fun msg => all_chars isspace (content msg) = false) v)
  /\ (forall v', validate_messages v = Ok v' -> v' = v)
  /\ (forall e, validate_messages v = Raise e -> exists m, e = ValueError m).
Proof.
  assert (Hcheck : forall l,
            match check_contents l with
            | Ok _ => Forall (fun msg => all_chars isspace (content msg) = false) l
            | Raise e =>
                ~ Forall (fun msg => all_chars isspace (content msg) = false) l
                /\ exists m, e = ValueError m
            end).
  { induction l as [|msg l IH]; [constructor|]. cbn [check_contents].
    rewrite strip_empty.
    destruct (is_empty (content msg)) eqn:He.
    - cbn [orb]. split; [|by eexists]. intros HF. inversion HF as [|? ? Hm _].
      by destruct (content msg).
    - cbn [orb]. destruct (all_chars isspace (content msg)) eqn:Hs.
      + split; [|by eexists]. intros HF. inversion HF as [|? ? Hm _].
        congruence.
      + destruct (check_contents l) as [|e].
        * by constructor.
        * destruct IH as [Hn Hm]. split; [|done].
          intros HF. inversion HF. contradiction. }
  unfold validate_messages. destruct v as [|msg rest].
  - split; [|split]; [|done|intros e [= <-]; by eexists].
    split; [done | by intros [? _]].
  - specialize (Hcheck (msg :: rest)).
    destruct (check_contents (msg :: rest)) as [|e].
    + split; [|split]; [|by intros v' [= <-]|done].
      split; [done | by intros _].
    + destruct Hcheck as [Hn Hm]. split; [|split].
      * split; [done | by intros [_ HF]].
      * done.
      * by intros e' [= <-].
Qed.
End ValidationFacts.

Section EndpointFacts.
Import App.
Context {W : Type} {HS : Session W} {F : Framework} {J : Json} {U : Utf8}.

(** The limiter after the admission check of a request. *)
Lemma verify_rate_limit_eq (limiter : RateLimiter.t) (request : Request)
    (now : Q) :
  verify_rate_limit limiter request now
  = (if (RateLimiter.check_rate_limit limiter
           (default "unknown" (client_host request)) now).1
     then None
     else Some (HTTPException (JInt 429)
                  (UpstreamAPIClient.error_envelope "Rate limit exceeded"
                     "rate_limit_error" 429)),
     (RateLimiter.check_rate_limit limiter
        (default "unknown" (client_host request)) now).2).
Proof.
  unfold verify_rate_limit. cbv zeta.
  by destruct (RateLimiter.check_rate_limit _ _ _) as [[|] limiter'].
Qed.

(** The endpoint once the request is admitted and the persona is found. *)
Lemma create_chat_completion_dispatched (app : t) (request : Request)
    (chat_request : ChatCompletionRequest) (now : Q) (w : W)
    (personality : PersonalityDefinition) :
  (RateLimiter.check_rate_limit (rate_limiter app)
     (default "unknown" (client_host request)) now).1 = true ->
  personalities app !! model chat_request = Some personality ->
  let app1 :=
    mk (config app)
       (RateLimiter.check_rate_limit (rate_limiter app)
          (default "unknown" (client_host request)) now).2
       (personalities app) (metrics_collector app) in
  create_chat_completion app request chat_request now w
  = let '(trace, result, w') :=
      UpstreamAPIClient.proxy_chat_completion (config app)
        (model_dump chat_request) personality (state_id request) w in
    match result with
    | Raise e => (trace, caught e, app1, w')
    | Ok (response, error) =>
        if match error with Some v => truthy v | None => false end then
          (trace, upstream_failure (default JNull error), app1, w')
        else if default false (stream chat_request) then
          (trace,
           StreamingResponse (relay response (model chat_request)).1
             (relay response (model chat_request)).2,
           mk (config app) (rate_limiter app1) (personalities app)
              (MetricsCollector.record_request (metrics_collector app)
                 0 false true),
           w')
        else (trace, buffered response (model chat_request), app1, w')
    end.
Proof.
  intros Hadmit Hfound app1. unfold create_chat_completion. cbv zeta.
  rewrite verify_rate_limit_eq, Hadmit. cbn [personalities config].
  rewrite Hfound.
  destruct (UpstreamAPIClient.proxy_chat_completion _ _ _ _ _)
    as [[trace [[response error]|e]] w']; [|done].
  destruct (match error with Some v => truthy v | None => false end); [done|].
  destruct (default false (stream chat_request)); [|done].
  by destruct (relay response (model chat_request)).
Qed.

(** X14.  Called with a response, [process_stream] passes on a
    cancellation raised while the upstream body is read, after the frames of
    the lines read so far and with no frame of its own, and that is the only
    exception it lets through.  Called without a response ([None]), it
    yields one [stream_error] frame and then lets through the
    [AttributeError] that its [finally] clause raises. *)
Theorem process_stream_lets_only_cancellation_through
    (requested_model_id : string) (response : ClientResponse) :
  let lines := (response_content response).1 in
  let last := (response_content response).2 in
  relay (Some response) requested_model_id
  = StreamProcessor.process_stream lines last requested_model_id
  /\ (Forall (fun l =>
                StreamProcessor.continues
                  (StreamProcessor.process_line requested_model_id l) = true)
        lines ->
      last = StreamProcessor.Broken CancelledError ->
      relay (Some response) requested_model_id
      = (flat_map (fun l =>
                     StreamProcessor.yielded
                       (StreamProcessor.process_line requested_model_id l))
           lines,
         StreamProcessor.Propagated CancelledError))
  /\ (forall e,
        (relay (Some response) requested_model_id).2
        = StreamProcessor.Propagated e ->
        e = CancelledError /\ last = StreamProcessor.Broken CancelledError)
  /\ relay None requested_model_id
     = (["data: "
           +:+ json_dumps true
                 (JObj [("error",
                         JObj [("message",
                                JStr "Stream processing error: 'NoneType' object has no attribute 'content'");
                               ("type", JStr "stream_error")])])
           +:+ LF +:+ LF],
        StreamProcessor.Propagated
          (AttributeError "'NoneType' object has no attribute 'closed'")).
Proof.
  cbv zeta. unfold relay.
  destruct (response_content response) as [lines last]. cbn [fst snd].
  split; [done|]. split; [|split; [|done]].
  - intros Hall ->. by apply process_stream_cancelled.
  - assert (Hexc : forall e0 e,
              (StreamProcessor.on_exception e0).2
              = StreamProcessor.Propagated e ->
              e = CancelledError /\ e0 = CancelledError).
    { intros e0 e. unfold StreamProcessor.on_exception.
      by destruct e0; intros [= <-]. }
    intros e.
    induction lines as [|line rest IH]; cbn [StreamProcessor.process_stream].
    + destruct last as [|e0]; [done|]. intros He.
      by destruct (Hexc e0 e He) as [-> ->].
    + destruct (StreamProcessor.process_line requested_model_id line)
        as [|f|f|e0] eqn:Hstep.
      * exact IH.
      * by destruct (StreamProcessor.process_stream rest last
                       requested_model_id).
      * done.
      * intros He. destruct (Hexc e0 e He) as [-> ->].
        by apply process_line_raises in Hstep.
Qed.

(** X24.  A request the rate limiter denies gets the 429
    [rate_limit_error]; nothing is posted upstream, the world, the personas
    and the metrics stay as they were, and the limiter stores no timestamp
    for it. *)
Theorem create_chat_completion_rejects_without_upstream_contact
    (app : t) (request : Request) (chat_request : ChatCompletionRequest)
    (now : Q) (w : W) :
  let key := default "unknown" (client_host request) in
  (RateLimiter.check_rate_limit (rate_limiter app) key now).1 = false ->
  exists limiter,
    create_chat_completion app request chat_request now w
    = ([],
       HTTPException (JInt 429)
         (JObj [("error",
                 JObj [("message", JStr "Rate limit exceeded");
                       ("type", JStr "rate_limit_error");
                       ("code", JInt 429)])]),
       mk (config app) limiter (personalities app) (metrics_collector app),
       w)
    /\ RateLimiter.get limiter key
       = RateLimiter.prune now (RateLimiter.get (rate_limiter app) key).
Proof.
  intros key Hdenied.
  exists (RateLimiter.check_rate_limit (rate_limiter app) key now).2. split.
  - unfold create_chat_completion. cbv zeta.
    rewrite verify_rate_limit_eq. fold key. by rewrite Hdenied.
  - rewrite check_rate_limit_eq in *. cbv zeta in *.
    destruct (_ >=? _); [|discriminate]. cbn [snd].
    by rewrite get_insert.
Qed.

(** X25.  An admitted request that names no known persona gets the 404
    [invalid_request_error] that quotes the name; nothing is posted
    upstream and the world and the metrics stay as they were, but the
    request has used one admission of its client's window. *)
Theorem create_chat_completion_unknown_persona_is_not_dispatched
    (app : t) (request : Request) (chat_request : ChatCompletionRequest)
    (now : Q) (w : W) :
  let key := default "unknown" (client_host request) in
  (RateLimiter.check_rate_limit (rate_limiter app) key now).1 = true ->
  personalities app !! model chat_request = None ->
  exists limiter,
    create_chat_completion app request chat_request now w
    = ([],
       HTTPException (JInt 404)
         (JObj [("error",
                 JObj [("message",
                        JStr ("Model not found: " +:+ model chat_request));
                       ("type", JStr "invalid_request_error");
                       ("code", JInt 404)])]),
       mk (config app) limiter (personalities app) (metrics_collector app),
       w)
    /\ RateLimiter.get limiter key
       = RateLimiter.prune now (RateLimiter.get (rate_limiter app) key)
           ++ [now].
Proof.
  intros key Hadmit Hunknown.
  exists (RateLimiter.check_rate_limit (rate_limiter app) key now).2. split.
  - unfold create_chat_completion. cbv zeta.
    rewrite verify_rate_limit_eq. fold key. rewrite Hadmit.
    cbn [personalities]. by rewrite Hunknown.
  - rewrite check_rate_limit_eq in *. cbv zeta in *.
    destruct (_ >=? _); [discriminate|]. cbn [snd].
    by rewrite get_insert.
Qed.

Lemma caught_escapes (e e' : exn) :
  caught e = Escapes e' -> is_exception e' = false.
Proof.
  unfold caught. destruct (is_exception e) eqn:He; [done|]. by intros [= <-].
Qed.

Lemma upstream_failure_escapes (error : json) (e : exn) :
  upstream_failure error <> Escapes e.
Proof.
  unfold upstream_failure, caught.
  destruct error as [| | | | | |d]; try done.
  by destruct (default (JObj []) (dict_get "error" d)).
Qed.

(** X26.  No [Exception] leaves [create_chat_completion]: whatever the
    request, the transport and the library calls do, the call ends with a
    response, with an [HTTPException], or with an exception that is no
    [Exception] (a cancellation). *)
Theorem create_chat_completion_lets_no_exception_escape
    (app : t) (request : Request) (chat_request : ChatCompletionRequest)
    (now : Q) (w : W) (e : exn) :
  (create_chat_completion app request chat_request now w).1.1.2 = Escapes e ->
  is_exception e = false.
Proof.
  unfold create_chat_completion. cbv zeta. rewrite verify_rate_limit_eq.
  destruct (RateLimiter.check_rate_limit _ _ _).1; [|done].
  cbn [personalities config].
  destruct (personalities app !! model chat_request) as [personality|];
    [|done].
  destruct (UpstreamAPIClient.proxy_chat_completion _ _ _ _ _)
    as [[trace [[response error]|e0]] w']; [|by apply caught_escapes].
  destruct (match error with Some v => truthy v | None => false end).
  { cbn [fst snd]. intros Habs. by apply upstream_failure_escapes in Habs. }
  destruct (default false (stream chat_request)).
  { by destruct (relay response (model chat_request)). }
  cbn [fst snd]. unfold buffered.
  destruct response as [r|]; [|by apply caught_escapes].
  destruct (response_json r) as [data|e0]; [|by apply caught_escapes].
  destruct (StreamProcessor.rewrite_chunk _ data) as [data'|e0];
    [|by apply caught_escapes].
  destruct (render_json data') as [|e0]; [done | by apply caught_escapes].
Qed.
(** X27.  When the dispatch of an admitted request for a known persona
    ends with one of the client's own error envelopes, the endpoint raises
    an [HTTPException] whose status is the code of the envelope and whose
    detail is the envelope: 504 for a timeout, 502 for a connection
    failure, 500 for an unexpected error, the upstream's status for an
    [upstream_error]. *)
Theorem create_chat_completion_surfaces_dispatch_errors
    (app : t) (request : Request) (chat_request : ChatCompletionRequest)
    (now : Q) (w w' : W) (personality : PersonalityDefinition)
    (trace : list event) (message type : string) (code : Z) :
  (RateLimiter.check_rate_limit (rate_limiter app)
     (default "unknown" (client_host request)) now).1 = true ->
  personalities app !! model chat_request = Some personality ->
  UpstreamAPIClient.proxy_chat_completion (config app)
    (model_dump chat_request) personality (state_id request) w
  = (trace,
     Ok (None, Some (UpstreamAPIClient.error_envelope message type code)), w') ->
  (create_chat_completion app request chat_request now w).1.1
  = (trace,
     HTTPException (JInt code)
       (JObj [("error",
               JObj [("message", JStr message); ("type", JStr type);
                     ("code", JInt code)])]))
  /\ (create_chat_completion app request chat_request now w).2 = w'.
Proof.
  intros Hadmit Hfound Hproxy.
  rewrite (create_chat_completion_dispatched _ _ _ _ _ _ Hadmit Hfound).
  by rewrite Hproxy.
Qed.

(** A first answer with a status of at least 400 and a body that parses. *)
Lemma proxy_chat_completion_parsed_error (config : Configuration.t)
    (request_data body : dict) (personality : PersonalityDefinition)
    (request_id : string) (w w' : W) (response : ClientResponse)
    (error_text : string) (v : json) :
  UpstreamAPIClient.outbound_request config request_data personality = Ok body ->
  1 <= Configuration.MAX_RETRIES config ->
  session_post (UpstreamAPIClient.chat_completions_url config) body
    (UpstreamAPIClient.request_headers config request_id) w
  = (Ok response, w') ->
  400 <= status response ->
  text response = Ok error_text ->
  json_loads error_text = Loaded v ->
  UpstreamAPIClient.proxy_chat_completion config request_data personality
    request_id w
  = ([Post (UpstreamAPIClient.chat_completions_url config) body
        (UpstreamAPIClient.request_headers config request_id)],
     Ok (None, UpstreamAPIClient.optional v), w').
Proof.
  intros Hbody Hretries Hpost Hstatus Htext Hjson.
  rewrite (proxy_chat_completion_error_status config request_data personality
             request_id body [] w w w' response error_text Hbody);
    [|constructor | cbn; lia | cbn; lia | done | done | done].
  unfold UpstreamAPIClient.error_data_of. by rewrite Hjson.
Qed.

(** A value that Python takes for false is no error to the endpoint,
    whether it is [None] or not. *)
Lemma optional_truthy (v : json) :
  match UpstreamAPIClient.optional v with
  | Some v' => truthy v'
  | None => false
  end
  = truthy v.
Proof. by destruct v. Qed.

(** X28.  An upstream answer with a status of at least 400 whose body
    parses to a JSON value that Python takes for false (an empty object or
    list, an empty string, 0, [false], [null]) is not reported with its
    status: without streaming the caller gets the 500 [internal_error]; with
    streaming the caller gets a stream whose only frame is a [stream_error]
    frame and whose generator then fails, and a streaming request is
    counted. *)
Theorem create_chat_completion_loses_falsy_upstream_errors
    (app : t) (request : Request) (chat_request : ChatCompletionRequest)
    (now : Q) (w w' : W) (personality : PersonalityDefinition) (body : dict)
    (response : ClientResponse) (error_text : string) (v : json) :
  let url := UpstreamAPIClient.chat_completions_url (config app) in
  let headers :=
    UpstreamAPIClient.request_headers (config app) (state_id request) in
  (RateLimiter.check_rate_limit (rate_limiter app)
     (default "unknown" (client_host request)) now).1 = true ->
  personalities app !! model chat_request = Some personality ->
  UpstreamAPIClient.outbound_request (config app) (model_dump chat_request)
    personality = Ok body ->
  1 <= Configuration.MAX_RETRIES (config app) ->
  session_post url body headers w = (Ok response, w') ->
  400 <= status response ->
  text response = Ok error_text ->
  json_loads error_text = Loaded v ->
  truthy v = false ->
  (create_chat_completion app request chat_request now w).1.1
  = ([Post url body headers],
     if default false (stream chat_request)
     then StreamingResponse
            ["data: "
               +:+ json_dumps true
                     (JObj [("error",
                             JObj [("message",
                                    JStr "Stream processing error: 'NoneType' object has no attribute 'content'");
                                   ("type", JStr "stream_error")])])
               +:+ LF +:+ LF]
            (StreamProcessor.Propagated
               (AttributeError "'NoneType' object has no attribute 'closed'"))
     else HTTPException (JInt 500)
            (JObj [("error",
                    JObj [("message", JStr "Internal server error");
                          ("type", JStr "internal_error");
                          ("code", JInt 500)])])).
Proof.
  intros url headers Hadmit Hfound Hbody Hretries Hpost Hstatus Htext Hjson
    Hfalse.
  rewrite (create_chat_completion_dispatched _ _ _ _ _ _ Hadmit Hfound).
  rewrite (proxy_chat_completion_parsed_error _ _ body _ _ w w' response
             error_text v Hbody Hretries Hpost Hstatus Htext Hjson).
  rewrite optional_truthy, Hfalse.
  by destruct (default false (stream chat_request)).
Qed.

(** X29.  A successful dispatch without streaming returns the upstream's
    JSON object with [model] set to the persona the caller asked for when
    the object has that member, and the object as it is when it has not;
    the metrics are not touched by the endpoint. *)
Theorem create_chat_completion_returns_body_under_persona_name
    (app : t) (request : Request) (chat_request : ChatCompletionRequest)
    (now : Q) (w w' : W) (personality : PersonalityDefinition)
    (trace : list event) (response : ClientResponse) (d : dict) :
  (RateLimiter.check_rate_limit (rate_limiter app)
     (default "unknown" (client_host request)) now).1 = true ->
  personalities app !! model chat_request = Some personality ->
  UpstreamAPIClient.proxy_chat_completion (config app)
    (model_dump chat_request) personality (state_id request) w
  = (trace, Ok (Some response, None), w') ->
  default false (stream chat_request) = false ->
  response_json response = Ok (JObj d) ->
  let content :=
    JObj (if dict_mem "model" d
          then dict_set "model" (JStr (model chat_request)) d
          else d) in
  render_json content = Ok tt ->
  (create_chat_completion app request chat_request now w).1.1
  = (trace, JSONResponse content)
  /\ metrics_collector (create_chat_completion app request chat_request now w).1.2
     = metrics_collector app.
Proof.
  intros Hadmit Hfound Hproxy Hstream Hjson content Hrender.
  rewrite (create_chat_completion_dispatched _ _ _ _ _ _ Hadmit Hfound).
  rewrite Hproxy, Hstream. cbn [fst snd metrics_collector].
  unfold buffered. rewrite Hjson. cbn [StreamProcessor.rewrite_chunk].
  unfold content in *. by destruct (dict_mem "model" d); rewrite Hrender.
Qed.

(** X30.  A successful dispatch with streaming answers with the frames
    [process_stream] makes of the upstream body under the persona the caller
    asked for, and records one streaming request with latency 0 that is not
    an error. *)
Theorem create_chat_completion_streams_under_persona_name
    (app : t) (request : Request) (chat_request : ChatCompletionRequest)
    (now : Q) (w w' : W) (personality : PersonalityDefinition)
    (trace : list event) (response : ClientResponse) :
  (RateLimiter.check_rate_limit (rate_limiter app)
     (default "unknown" (client_host request)) now).1 = true ->
  personalities app !! model chat_request = Some personality ->
  UpstreamAPIClient.proxy_chat_completion (config app)
    (model_dump chat_request) personality (state_id request) w
  = (trace, Ok (Some response, None), w') ->
  stream chat_request = Some true ->
  let run :=
    StreamProcessor.process_stream (response_content response).1
      (response_content response).2 (model chat_request) in
  let metrics :=
    metrics_collector
      (create_chat_completion app request chat_request now w).1.2 in
  (create_chat_completion app request chat_request now w).1.1
  = (trace, StreamingResponse run.1 run.2)
  /\ MetricsCollector.request_count metrics
     = MetricsCollector.request_count (metrics_collector app) + 1
  /\ MetricsCollector.streaming_requests metrics
     = MetricsCollector.streaming_requests (metrics_collector app) + 1
  /\ MetricsCollector.error_count metrics
     = MetricsCollector.error_count (metrics_collector app)
  /\ (MetricsCollector.total_latency metrics
      == MetricsCollector.total_latency (metrics_collector app))%Q.
Proof.
  intros Hadmit Hfound Hproxy Hstream. cbv zeta.
  rewrite (create_chat_completion_dispatched _ _ _ _ _ _ Hadmit Hfound).
  rewrite Hproxy, Hstream. cbn [default from_option id fst snd metrics_collector].
  unfold relay. destruct (response_content response) as [lines last].
  cbn [fst snd]. unfold MetricsCollector.record_request.
  cbn [MetricsCollector.request_count MetricsCollector.streaming_requests
       MetricsCollector.error_count MetricsCollector.total_latency].
  split; [done|]. split; [done|]. split; [done|]. split; [done|].
  apply Qplus_0_r.
Qed.
End EndpointFacts.


(** ** The further properties on sample runs *)

Section ScenarioRuns.
Import UpstreamAPIClient StreamProcessor Sample.

Lemma proxy_chat_completion_bounded_backoff_witness :
  (Trace.total_sleep
     (proxy_chat_completion (HS := scripted) (J := sample_json) (config 3)
        chat_request persona "req-1"
        [Raise (ClientError "reset"); Raise (TimeoutError "slow");
         Ok ok_response]).1.1
   <= 1 * inject_Z (2 ^ (Z.max 1 3 - 1) - 1))%Q.
Proof.
  apply (proxy_chat_completion_bounded_backoff (HS := scripted)
           (J := sample_json) (config 3) chat_request persona "req-1").
  vm_compute. discriminate.
Defined.

Lemma proxy_chat_completion_classifies_exhaustion_witness :
  proxy_chat_completion (HS := scripted) (J := sample_json) (config 2)
    chat_request persona "req-1"
    [Raise (ClientError "reset"); Raise (ServerTimeoutError "slow")]
  = ([Post url outbound headers; Sleep (1 * inject_Z (2 ^ 0));
      Post url outbound headers],
     Ok (None,
         Some (error_envelope "Request to upstream API timed out"
                 "timeout_error" 504)),
     []).
Proof.
  apply (proxy_chat_completion_classifies_exhaustion (HS := scripted)
           (J := sample_json) (config 2) chat_request persona "req-1"
           outbound
           [([Post url outbound headers], ClientError "reset");
            ([Post url outbound headers], ServerTimeoutError "slow")]
           [Raise (ClientError "reset"); Raise (ServerTimeoutError "slow")] []
           [Post url outbound headers] (ServerTimeoutError "slow")).
  - reflexivity.
  - eapply failing_cons; [reflexivity | reflexivity |].
    eapply failing_cons; [reflexivity | reflexivity |].
    apply failing_nil.
  - reflexivity.
  - vm_compute. discriminate.
  - reflexivity.
Defined.

Lemma proxy_chat_completion_does_not_retry_other_exceptions_witness :
  proxy_chat_completion (HS := scripted) (J := sample_json) (config 3)
    chat_request persona "req-1"
    [Raise (OtherException "boom"); Ok ok_response]
  = ([Post url outbound headers],
     Ok (None,
         Some (error_envelope "Unexpected error: boom" "internal_error" 500)),
     [Ok ok_response])
  /\ proxy_chat_completion (HS := scripted) (J := sample_json) (config 3)
       chat_request persona "req-1" [Raise CancelledError; Ok ok_response]
     = ([Post url outbound headers], Raise CancelledError, [Ok ok_response]).
Proof.
  split.
  - apply (proxy_chat_completion_does_not_retry_other_exceptions
             (HS := scripted) (J := sample_json) (config 3) chat_request
             persona "req-1" outbound []
             [Raise (OtherException "boom"); Ok ok_response]
             [Raise (OtherException "boom"); Ok ok_response]
             [Ok ok_response] (OtherException "boom"));
      [reflexivity | apply failing_nil | reflexivity
      | vm_compute; discriminate | reflexivity | reflexivity].
  - apply (proxy_chat_completion_does_not_retry_other_exceptions
             (HS := scripted) (J := sample_json) (config 3) chat_request
             persona "req-1" outbound []
             [Raise CancelledError; Ok ok_response]
             [Raise CancelledError; Ok ok_response]
             [Ok ok_response] CancelledError);
      [reflexivity | apply failing_nil | reflexivity
      | vm_compute; discriminate | reflexivity | reflexivity].
Defined.

Lemma proxy_chat_completion_hands_over_response_witness :
  proxy_chat_completion (HS := scripted) (J := sample_json) (config 3)
    chat_request persona "req-1" [Raise (ClientError "reset"); Ok ok_response]
  = ([Post url outbound headers; Sleep (1 * inject_Z (2 ^ 0));
      Post url outbound headers],
     Ok (Some ok_response, None), []).
Proof.
  apply (proxy_chat_completion_hands_over_response (HS := scripted)
           (J := sample_json) (config 3) chat_request persona "req-1"
           outbound [([Post url outbound headers], ClientError "reset")]
           [Raise (ClientError "reset"); Ok ok_response] [Ok ok_response] []
           ok_response).
  - reflexivity.
  - eapply failing_cons; [reflexivity | reflexivity | apply failing_nil].
  - reflexivity.
  - vm_compute. discriminate.
  - reflexivity.
  - reflexivity.
Defined.

Lemma proxy_chat_completion_without_attempts_witness :
  proxy_chat_completion (HS := scripted) (J := sample_json) (config 0)
    chat_request persona "req-1" [Ok ok_response]
  = ([],
     Ok (None,
         Some (error_envelope
                 "Unexpected error: exceptions must derive from BaseException"
                 "internal_error" 500)),
     [Ok ok_response]).
Proof.
  apply (proxy_chat_completion_without_attempts (HS := scripted)
           (J := sample_json) (config 0) chat_request persona "req-1"
           outbound).
  - reflexivity.
  - vm_compute. discriminate.
Defined.

Lemma outbound_request_is_idempotent_witness :
  exists body,
    outbound_request (config 3) chat_request persona = Ok body
    /\ (forall k, k <> "model" -> k <> "messages" ->
          dict_get k body = dict_get k chat_request)
    /\ outbound_request (config 3) body persona = Ok body.
Proof.
  apply (outbound_request_is_idempotent (config 3) chat_request persona
           persona [user_message]).
  - reflexivity.
  - constructor; [by eexists | constructor].
Defined.
Lemma process_stream_ignores_what_follows_a_stop_witness :
  process_stream (J := sample_json) (U := ascii_utf8)
    [chunk_line; done_line; chunk_line; malformed_line]
    (Broken (ClientError "reset")) "socrates"
  = process_stream (J := sample_json) (U := ascii_utf8)
      [chunk_line; done_line] EndOfStream "socrates".
Proof.
  apply (process_stream_ignores_what_follows_a_stop (J := sample_json)
           (U := ascii_utf8) "socrates" done_line [chunk_line]
           [chunk_line; malformed_line] (Broken (ClientError "reset"))).
  reflexivity.
Defined.

Lemma process_stream_stops_at_scalar_payload_witness :
  exists msg,
    process_stream (J := sample_json) (U := ascii_utf8)
      [chunk_line; "data: 123" +:+ LF; chunk_line] EndOfStream "socrates"
    = (flat_map
         (fun l => yielded (process_line (J := sample_json) (U := ascii_utf8)
                              "socrates" l)) [chunk_line]
         ++ ["data: "
               +:+ dumps
                     (JObj [("error",
                             JObj [("message",
                                    JStr ("Stream processing error: " +:+ msg));
                                   ("type", JStr "stream_error")])])
               +:+ LF +:+ LF],
       Finished).
Proof.
  apply (process_stream_stops_at_scalar_payload (J := sample_json)
           (U := ascii_utf8) "socrates" ("data: 123" +:+ LF)
           ("data: 123" +:+ LF) (JInt 123) [chunk_line] [chunk_line]
           EndOfStream).
  - reflexivity.
  - reflexivity.
  - reflexivity.
  - vm_compute. discriminate.
  - vm_compute. reflexivity.
  - exact I.
  - constructor; [reflexivity | constructor].
Defined.

Lemma process_stream_stops_at_undecodable_line_witness :
  process_stream (J := sample_json) (U := ascii_utf8)
    [String "255"%char "x"; chunk_line] EndOfStream "socrates"
  = (["data: "
        +:+ dumps
              (JObj [("error",
                      JObj [("message",
                             JStr "Stream processing error: 'utf-8' codec can't decode bytes");
                            ("type", JStr "stream_error")])])
        +:+ LF +:+ LF],
     Finished).
Proof.
  apply (process_stream_stops_at_undecodable_line (J := sample_json)
           (U := ascii_utf8) "socrates" (String "255"%char "x")
           "'utf-8' codec can't decode bytes" [] [chunk_line] EndOfStream).
  - reflexivity.
  - reflexivity.
  - constructor.
Defined.

Lemma process_stream_relays_chunk_without_model_witness :
  process_stream (J := sample_json) (U := ascii_utf8)
    ["data: " +:+ dumps (JObj [("object", JStr "chat.completion.chunk")])
       +:+ LF; done_line]
    EndOfStream "socrates"
  = (["data: " +:+ dumps (JObj [("object", JStr "chat.completion.chunk")])
        +:+ LF +:+ LF;
      "data: [DONE]" +:+ LF +:+ LF],
     Finished).
Proof.
  apply (process_stream_relays_chunk_without_model (J := sample_json)
           (U := ascii_utf8) "socrates"
           ("data: " +:+ dumps (JObj [("object", JStr "chat.completion.chunk")])
              +:+ LF)
           ("data: " +:+ dumps (JObj [("object", JStr "chat.completion.chunk")])
              +:+ LF)
           (JObj [("object", JStr "chat.completion.chunk")]) [] [done_line]
           EndOfStream).
  - reflexivity.
  - reflexivity.
  - reflexivity.
  - vm_compute. discriminate.
  - vm_compute. reflexivity.
  - reflexivity.
  - constructor.
Defined.

Lemma process_stream_lets_only_cancellation_through_witness :
  App.relay (F := Scenario.cancelled_framework) (J := sample_json)
    (U := ascii_utf8) (Some Scenario.completed) "socrates"
  = (flat_map
       (fun l => yielded (process_line (J := sample_json) (U := ascii_utf8)
                            "socrates" l)) [chunk_line],
     Propagated CancelledError)
  /\ (CancelledError = CancelledError
      /\ Broken CancelledError = Broken CancelledError).
Proof.
  destruct (process_stream_lets_only_cancellation_through
              (F := Scenario.cancelled_framework) (J := sample_json)
              (U := ascii_utf8) "socrates" Scenario.completed)
    as (_ & Hpass & Honly & _).
  split.
  - apply Hpass; [|reflexivity]. constructor; [reflexivity | constructor].
  - apply Honly. vm_compute. reflexivity.
Defined.

Lemma check_rate_limit_never_exceeds_limit_witness :
  Z.of_nat
    (List.length
       (List.filter
          (fun ts => RateLimiter.newer (List.last [1; 2; 30; 61.5] 0 - 60)%Q ts)
          (RateWindow.admitted_times (RateLimiter.init 2) "10.0.0.1"
             [1; 2; 30; 61.5]%Q)))
  <= Z.max 0 (RateLimiter.rate_per_minute (RateLimiter.init 2)).
Proof.
  apply (check_rate_limit_never_exceeds_limit (RateLimiter.init 2) "10.0.0.1"
           [1; 2; 30; 61.5]%Q 0%Q).
  - reflexivity.
  - cbn. repeat split; discriminate.
Defined.

Lemma check_rate_limit_keys_are_independent_witness :
  let first1 := RateLimiter.check_rate_limit (RateLimiter.init 1) "a" 1 in
  let then2 := RateLimiter.check_rate_limit first1.2 "b" 2 in
  let first2 := RateLimiter.check_rate_limit (RateLimiter.init 1) "b" 2 in
  let then1 := RateLimiter.check_rate_limit first2.2 "a" 1 in
  first1.1 = then1.1 /\ then2.1 = first2.1 /\ then2.2 = then1.2.
Proof.
  apply (check_rate_limit_keys_are_independent (RateLimiter.init 1) "a" "b"
           1 2).
  discriminate.
Defined.

Lemma _validate_accepts_exactly_witness :
  Configuration._validate (config 3) = Ok tt.
Proof.
  apply (proj2 (_validate_accepts_exactly (config 3))).
  repeat split; try discriminate; try (vm_compute; discriminate).
  right. by left.
Defined.

Lemma record_request_keeps_counters_consistent_witness :
  MetricsCollector.avg_latency (MetricsCollector.record_all
                                  MetricsCollector.init []) = 0%Q
  /\ MetricsCollector.error_rate (MetricsCollector.record_all
                                    MetricsCollector.init []) = 0%Q.
Proof.
  destruct (record_request_keeps_counters_consistent [])
    as (_ & _ & _ & _ & _ & _ & Hempty).
  apply Hempty. reflexivity.
Defined.
Lemma load_personas_entries_are_well_formed_witness :
  id persona = "socrates"
  /\ "socrates" <> EmptyString
  /\ exists f module biography,
       In f [Scenario.broken_file; Scenario.socrates_file]
       /\ Personas.name f <> "__init__.py"
       /\ Personas.imported f = Ok module
       /\ Personas.PERSONA_ID module = Some "socrates"
       /\ Personas.BIOGRAPHY module = Some biography
       /\ biography <> EmptyString
       /\ system_prompt persona = EmptyString +:+ biography.
Proof.
  apply (load_personas_entries_are_well_formed EmptyString
           [Scenario.broken_file; Scenario.socrates_file]
           {[ "socrates" := persona ]} "socrates" persona).
  - reflexivity.
  - reflexivity.
Defined.

Lemma load_personas_passes_over_bad_files_witness :
  Personas.load_personas "Stay in character. "
    [Scenario.socrates_file; Scenario.broken_file]
  = Personas.load_personas "Stay in character. " [Scenario.socrates_file].
Proof.
  apply (load_personas_passes_over_bad_files "Stay in character. "
           [Scenario.socrates_file] [] Scenario.broken_file).
  - reflexivity.
  - right. reflexivity.
Defined.

Lemma validate_messages_accepts_exactly_witness :
  ChatCompletionRequest.validate_messages [Scenario.user_message]
  = Ok [Scenario.user_message].
Proof.
  destruct (validate_messages_accepts_exactly [Scenario.user_message])
    as (Hiff & _ & _).
  apply Hiff. split; [discriminate|].
  constructor; [reflexivity | constructor].
Defined.

Lemma create_chat_completion_rejects_without_upstream_contact_witness :
  let busy :=
    App.mk (config 3)
      (RateLimiter.run (RateLimiter.init 2) "10.0.0.1" [1; 2]%Q).2
      {[ "socrates" := persona ]} MetricsCollector.init in
  exists limiter,
    App.create_chat_completion (HS := scripted) (F := Scenario.framework)
      (J := Scenario.json_module) (U := ascii_utf8) busy Scenario.request
      (Scenario.chat None) 3 [Ok Scenario.completed]
    = ([],
       App.HTTPException (JInt 429)
         (JObj [("error",
                 JObj [("message", JStr "Rate limit exceeded");
                       ("type", JStr "rate_limit_error");
                       ("code", JInt 429)])]),
       App.mk (config 3) limiter {[ "socrates" := persona ]}
         MetricsCollector.init,
       [Ok Scenario.completed])
    /\ RateLimiter.get limiter "10.0.0.1"
       = RateLimiter.prune 3
           (RateLimiter.get
              (RateLimiter.run (RateLimiter.init 2) "10.0.0.1" [1; 2]%Q).2
              "10.0.0.1").
Proof.
  intros busy.
  apply (create_chat_completion_rejects_without_upstream_contact
           (HS := scripted) (F := Scenario.framework)
           (J := Scenario.json_module) (U := ascii_utf8) busy Scenario.request
           (Scenario.chat None) 3 [Ok Scenario.completed]).
  vm_compute. reflexivity.
Defined.

Lemma create_chat_completion_unknown_persona_is_not_dispatched_witness :
  exists limiter,
    App.create_chat_completion (HS := scripted) (F := Scenario.framework)
      (J := Scenario.json_module) (U := ascii_utf8) Scenario.app
      Scenario.request Scenario.unknown_chat 1 [Ok Scenario.completed]
    = ([],
       App.HTTPException (JInt 404)
         (JObj [("error",
                 JObj [("message", JStr "Model not found: plato");
                       ("type", JStr "invalid_request_error");
                       ("code", JInt 404)])]),
       App.mk (config 3) limiter {[ "socrates" := persona ]}
         MetricsCollector.init,
       [Ok Scenario.completed])
    /\ RateLimiter.get limiter "10.0.0.1"
       = RateLimiter.prune 1
           (RateLimiter.get (RateLimiter.init 2) "10.0.0.1") ++ [1%Q].
Proof.
  apply (create_chat_completion_unknown_persona_is_not_dispatched
           (HS := scripted) (F := Scenario.framework)
           (J := Scenario.json_module) (U := ascii_utf8) Scenario.app
           Scenario.request Scenario.unknown_chat 1 [Ok Scenario.completed]).
  - vm_compute. reflexivity.
  - reflexivity.
Defined.

Lemma create_chat_completion_lets_no_exception_escape_witness :
  is_exception CancelledError = false.
Proof.
  apply (create_chat_completion_lets_no_exception_escape
           (HS := scripted) (F := Scenario.framework)
           (J := Scenario.json_module) (U := ascii_utf8) Scenario.app
           Scenario.request (Scenario.chat None) 1 [Raise CancelledError]).
  vm_compute. reflexivity.
Defined.

Lemma create_chat_completion_surfaces_dispatch_errors_witness :
  (App.create_chat_completion (HS := scripted) (F := Scenario.framework)
     (J := Scenario.json_module) (U := ascii_utf8) Scenario.app
     Scenario.request (Scenario.chat None) 1
     [Raise (TimeoutError "slow"); Raise (TimeoutError "slow");
      Raise (TimeoutError "slow")]).1.1.2
  = App.HTTPException (JInt 504)
      (JObj [("error",
              JObj [("message", JStr "Request to upstream API timed out");
                    ("type", JStr "timeout_error"); ("code", JInt 504)])]).
Proof.
  destruct (create_chat_completion_surfaces_dispatch_errors
              (HS := scripted) (F := Scenario.framework)
              (J := Scenario.json_module) (U := ascii_utf8) Scenario.app
              Scenario.request (Scenario.chat None) 1
              [Raise (TimeoutError "slow"); Raise (TimeoutError "slow");
               Raise (TimeoutError "slow")] [] persona
              [Post url outbound headers; Sleep (1 * inject_Z (2 ^ 0));
               Post url outbound headers; Sleep (1 * inject_Z (2 ^ (0 + 1)));
               Post url outbound headers]
              "Request to upstream API timed out" "timeout_error" 504)
    as [Hrun _].
  - vm_compute. reflexivity.
  - reflexivity.
  - reflexivity.
  - rewrite Hrun. reflexivity.
Defined.

Lemma create_chat_completion_loses_falsy_upstream_errors_witness :
  (App.create_chat_completion (HS := scripted) (F := Scenario.framework)
     (J := Scenario.json_module) (U := ascii_utf8) Scenario.app
     Scenario.request (Scenario.chat None) 1 [Ok Scenario.empty_error]).1.1
  = ([Post url outbound headers],
     App.HTTPException (JInt 500)
       (JObj [("error",
               JObj [("message", JStr "Internal server error");
                     ("type", JStr "internal_error"); ("code", JInt 500)])])).
Proof.
  apply (create_chat_completion_loses_falsy_upstream_errors
           (HS := scripted) (F := Scenario.framework)
           (J := Scenario.json_module) (U := ascii_utf8) Scenario.app
           Scenario.request (Scenario.chat None) 1 [Ok Scenario.empty_error] []
           persona outbound Scenario.empty_error "{}" (JObj [])).
  - vm_compute. reflexivity.
  - reflexivity.
  - reflexivity.
  - vm_compute. discriminate.
  - reflexivity.
  - vm_compute. discriminate.
  - reflexivity.
  - reflexivity.
  - reflexivity.
Defined.

Lemma create_chat_completion_returns_body_under_persona_name_witness :
  (App.create_chat_completion (HS := scripted) (F := Scenario.framework)
     (J := Scenario.json_module) (U := ascii_utf8) Scenario.app
     Scenario.request (Scenario.chat None) 1 [Ok Scenario.completed]).1.1
  = ([Post url outbound headers],
     App.JSONResponse
       (JObj [("id", JStr "chatcmpl-1"); ("model", JStr "socrates");
              ("choices", JArr [])])).
Proof.
  apply (create_chat_completion_returns_body_under_persona_name
           (HS := scripted) (F := Scenario.framework)
           (J := Scenario.json_module) (U := ascii_utf8) Scenario.app
           Scenario.request (Scenario.chat None) 1 [Ok Scenario.completed] []
           persona [Post url outbound headers] Scenario.completed
           [("id", JStr "chatcmpl-1"); ("model", JStr "upstream-x");
            ("choices", JArr [])]).
  - vm_compute. reflexivity.
  - reflexivity.
  - reflexivity.
  - reflexivity.
  - vm_compute. reflexivity.
  - reflexivity.
Defined.

Lemma create_chat_completion_streams_under_persona_name_witness :
  (App.create_chat_completion (HS := scripted) (F := Scenario.framework)
     (J := Scenario.json_module) (U := ascii_utf8) Scenario.app
     Scenario.request (Scenario.chat (Some true)) 1
     [Ok Scenario.completed]).1.1
  = ([Post url outbound headers],
     App.StreamingResponse
       ["data: "
          +:+ dumps (JObj [("id", JStr "chatcmpl-1");
                           ("model", JStr "socrates"); ("choices", JArr [])])
          +:+ LF +:+ LF;
        "data: [DONE]" +:+ LF +:+ LF]
       Finished).
Proof.
  apply (create_chat_completion_streams_under_persona_name
           (HS := scripted) (F := Scenario.framework)
           (J := Scenario.json_module) (U := ascii_utf8) Scenario.app
           Scenario.request (Scenario.chat (Some true)) 1
           [Ok Scenario.completed] [] persona [Post url outbound headers]
           Scenario.completed).
  - vm_compute. reflexivity.
  - reflexivity.
  - reflexivity.
  - reflexivity.
Defined.
End ScenarioRuns.

